(** * Document assistant (Solutions/lab4_document_assistant_complete.py)

    A shallow embedding of the document store, the version archive, the tag
    index and the search engine of the lab 4 solution, with the properties
    of its specification stated and proved (or refuted) over it.

    Conventions of the embedding.
    - A Python [str] is a Rocq [string]; a character is a code point below
      256, so [lower], [isspace] and the UTF-8 size follow Latin-1.
    - A directory is a finite map from entry names to files: [DIR / name]
      is the entry [name] of [DIR].  Both directories are flat, which is
      right for a [name] without a path separator; with one in it the code
      follows the path the name spells, and the properties below are about
      names without.
    - A Python [dict] is an insertion-ordered association list.
    - Every operation is a function from the state before the call to the
      returned value and the state after it.  The clock reading of a call
      ([datetime.now()], and the modification time the file system stamps
      on the files the call writes) is the argument [now].
    - A time is a whole second: the [modified] text of a cache entry is
      printed without the fraction of a second that the code prints when
      the file system keeps one.
    - The limits of a file system (the length of a name, space,
      permissions) are not modelled. *)

From Stdlib Require Import Ascii String List Arith Lia Bool.
From stdpp Require Import base option list gmap strings pretty sorting.

Import ListNotations.
Local Open Scope string_scope.
Local Open Scope list_scope.
Local Open Scope nat_scope.
Set Warnings "-abstract-large-number".

(** ** Python strings *)

Module Py.

Definition nl : ascii := "010"%char.
Definition cr : ascii := "013"%char.

Definition code (c : ascii) : nat := nat_of_ascii c.

Definition between (lo hi : nat) (c : ascii) : bool :=
  (lo <=? code c) && (code c <=? hi).

(** [str.lower] on one code point below 256: A-Z, and the Latin-1
    capitals U+00C0..U+00DE except the multiplication sign U+00D7. *)
Definition lower_char (c : ascii) : ascii :=
  if between 65 90 c then ascii_of_nat (code c + 32)
  else if between 192 222 c && negb (code c =? 215)
       then ascii_of_nat (code c + 32)
  else c.

Fixpoint lower (s : string) : string :=
  match s with
  | EmptyString => EmptyString
  | String c s' => String (lower_char c) (lower s')
  end.

(** [str.isspace] on one code point below 256. *)
Definition isspace (c : ascii) : bool :=
  between 9 13 c || between 28 32 c || (code c =? 133) || (code c =? 160).

Fixpoint lstrip (s : string) : string :=
  match s with
  | EmptyString => EmptyString
  | String c s' => if isspace c then lstrip s' else s
  end.

(** [rstrip] keeps a character when it is not a space or when something
    is kept after it. *)
Fixpoint rstrip (s : string) : string :=
  match s with
  | EmptyString => EmptyString
  | String c s' =>
      match rstrip s' with
      | EmptyString => if isspace c then EmptyString else String c EmptyString
      | r => String c r
      end
  end.

Definition strip (s : string) : string := rstrip (lstrip s).

(** [s.startswith(p)], comparing characters with [eqc]. *)
Fixpoint startswith_by (eqc : ascii -> ascii -> bool) (p s : string) : bool :=
  match p, s with
  | EmptyString, _ => true
  | String a p', String b s' => eqc a b && startswith_by eqc p' s'
  | String _ _, EmptyString => false
  end.

Definition startswith : string -> string -> bool := startswith_by Ascii.eqb.

Fixpoint drop (n : nat) (s : string) : string :=
  match n, s with
  | O, _ => s
  | S n', String _ s' => drop n' s'
  | S _, EmptyString => EmptyString
  end.

Fixpoint take (n : nat) (s : string) : string :=
  match n, s with
  | O, _ => EmptyString
  | S n', String c s' => String c (take n' s')
  | S _, EmptyString => EmptyString
  end.

(** [s[i:j]] for [0 <= i] and [0 <= j]. *)
Definition slice (i j : nat) (s : string) : string := take (j - i) (drop i s).

(** [s.replace(old, new)] for a non-empty [old]: the occurrences are taken
    left to right without overlap.  [skip] counts the characters of an
    occurrence that are still to be dropped. *)
Fixpoint replace_go (old new : string) (skip : nat) (s : string) : string :=
  match s with
  | EmptyString => EmptyString
  | String c s' =>
      match skip with
      | S k => replace_go old new k s'
      | O =>
          if startswith old s
          then new +:+ replace_go old new (String.length old - 1) s'
          else String c (replace_go old new 0 s')
      end
  end.

Definition replace (old new s : string) : string := replace_go old new 0 s.

(** [sep.join(lines)]. *)
Definition join (sep : string) (lines : list string) : string :=
  String.concat sep lines.

(** [c * n] for a one-character string. *)
Fixpoint repeat_char (c : ascii) (n : nat) : string :=
  match n with
  | O => EmptyString
  | S n' => String c (repeat_char c n')
  end.

(** [s.rfind(c)] for one character. *)
Fixpoint rfind (c : ascii) (s : string) : option nat :=
  match s with
  | EmptyString => None
  | String a s' =>
      match rfind c s' with
      | Some i => Some (S i)
      | None => if Ascii.eqb a c then Some 0 else None
      end
  end.

(** [str(n)] for a natural number. *)
Definition str_of_nat (n : nat) : string := pretty n.

(** Number of bytes of the UTF-8 encoding. *)
Fixpoint utf8_len (s : string) : nat :=
  match s with
  | EmptyString => 0
  | String c s' => (if code c <? 128 then 1 else 2) + utf8_len s'
  end.

(** What text mode with [newline=None] does on reading: "\r\n" and a
    lone "\r" become "\n". *)
Fixpoint universal_newlines (s : string) : string :=
  match s with
  | EmptyString => EmptyString
  | String c s' =>
      if Ascii.eqb c cr then
        match s' with
        | String c' _ =>
            if Ascii.eqb c' nl then universal_newlines s'
            else String nl (universal_newlines s')
        | EmptyString => String nl EmptyString
        end
      else String c (universal_newlines s')
  end.

End Py.

(** ** Shell-style patterns ([pathlib.Path.glob] on one directory level)

    An entry is yielded when its name matches the pattern as a whole, with
    the rules of [fnmatch]: [*] is any run of characters, [?] any one
    character, [[...]] a character class ([!] negates it, [x-y] is a range,
    a bracket that is never closed stands for itself).  Hidden entries are
    matched like the others. *)

Module Glob.

Inductive token : Type :=
| Star
| AnyChar
| Lit (c : ascii)
| Class (negated : bool) (items : list (ascii * ascii)).

(** Offset of the bracket that closes a class, in the text after the
    opening bracket; [first] is true while a closing bracket would still
    be a member of the class. *)
Fixpoint class_close (first : bool) (p : string) : option nat :=
  match p with
  | EmptyString => None
  | String c p' =>
      if Ascii.eqb c "]" && negb first then Some 0
      else S <$> class_close false p'
  end.

Definition class_end (p : string) : option nat :=
  match p with
  | String "!" p' => S <$> class_close true p'
  | _ => class_close true p
  end.

Fixpoint class_items (stuff : string) : list (ascii * ascii) :=
  match stuff with
  | EmptyString => []
  | String a rest =>
      match rest with
      | String "-" (String b rest') => (a, b) :: class_items rest'
      | _ => (a, a) :: class_items rest
      end
  end.

Definition class_of (stuff : string) : token :=
  match stuff with
  | String "!" stuff' => Class true (class_items stuff')
  | _ => Class false (class_items stuff)
  end.

Fixpoint tokens (fuel : nat) (p : string) : list token :=
  match fuel, p with
  | O, _ | _, EmptyString => []
  | S fuel', String c p' =>
      if Ascii.eqb c "*" then Star :: tokens fuel' p'
      else if Ascii.eqb c "?" then AnyChar :: tokens fuel' p'
      else if Ascii.eqb c "[" then
        match class_end p' with
        | Some j => class_of (Py.take j p') :: tokens fuel' (Py.drop (S j) p')
        | None => Lit c :: tokens fuel' p'
        end
      else Lit c :: tokens fuel' p'
  end.

Definition in_class (items : list (ascii * ascii)) (c : ascii) : bool :=
  existsb (fun r => Py.between (Py.code (fst r)) (Py.code (snd r)) c) items.

Fixpoint matches (ts : list token) : string -> bool :=
  match ts with
  | [] => fun s => match s with EmptyString => true | _ => false end
  | Star :: ts' =>
      fix star (s : string) : bool :=
        matches ts' s ||
        match s with
        | EmptyString => false
        | String _ s' => star s'
        end
  | AnyChar :: ts' =>
      fun s => match s with
               | EmptyString => false
               | String _ s' => matches ts' s'
               end
  | Lit c :: ts' =>
      fun s => match s with
               | EmptyString => false
               | String a s' => Ascii.eqb c a && matches ts' s'
               end
  | Class neg items :: ts' =>
      fun s => match s with
               | EmptyString => false
               | String a s' => xorb neg (in_class items a) && matches ts' s'
               end
  end.

Definition fnmatch (pattern name : string) : bool :=
  matches (tokens (String.length pattern) pattern) name.

End Glob.

(** ** Regular expressions of the source *)

Module Re.

(** The character class [[a-zA-Z0-9_-]]. *)
Definition id_char (c : ascii) : bool :=
  Py.between 97 122 c || Py.between 65 90 c || Py.between 48 57 c
  || Ascii.eqb c "_" || Ascii.eqb c "-".

(** The rest of [[a-zA-Z0-9_-]+$] after a first character of the class:
    the class greedily, then the end of the string or the one newline
    that ends it. *)
Fixpoint id_tail (s : string) : bool :=
  match s with
  | EmptyString => true
  | String c s' =>
      if id_char c then id_tail s'
      else Ascii.eqb c Py.nl && match s' with EmptyString => true | _ => false end
  end.

(** [re.match(r'^[a-zA-Z0-9_-]+$', s)] as a truth value. *)
Definition match_doc_id (s : string) : bool :=
  match s with
  | EmptyString => false
  | String c s' => id_char c && id_tail s'
  end.

(** Equality of characters under the [flags] of a search. *)
Definition char_eq (ignorecase : bool) (a b : ascii) : bool :=
  if ignorecase then Ascii.eqb (Py.lower_char a) (Py.lower_char b)
  else Ascii.eqb a b.

(** Whether the literal [q] matches at the start of [s]. *)
Definition match_here (ignorecase : bool) (q s : string) : bool :=
  Py.startswith_by (char_eq ignorecase) q s.

(** Start offsets of [re.finditer(re.escape(q), s, flags)]: the matches
    of the literal [q], left to right, without overlap.  [pos] is the
    offset of [s] in the text and [skip] the number of characters of the
    last match still to be passed.  An empty [q] matches at every offset,
    the end included. *)
Fixpoint finditer_go (ic : bool) (q : string) (skip pos : nat) (s : string)
  : list nat :=
  match s with
  | EmptyString =>
      match skip, q with
      | O, EmptyString => [pos]
      | _, _ => []
      end
  | String _ s' =>
      match skip with
      | S k => finditer_go ic q k (S pos) s'
      | O =>
          if match_here ic q s
          then pos :: finditer_go ic q (String.length q - 1) (S pos) s'
          else finditer_go ic q 0 (S pos) s'
      end
  end.

Definition finditer (ignorecase : bool) (q s : string) : list nat :=
  finditer_go ignorecase q 0 0 s.

End Re.

(** ** Dates and times *)

Record datetime : Type := mkDatetime {
  year : nat; month : nat; day : nat;
  hour : nat; minute : nat; second : nat
}.

Module Datetime.

(** A number in decimal, zero-padded on the left to [width] digits. *)
Definition pad (width n : nat) : string :=
  let digits := Py.str_of_nat n in
  Py.repeat_char "0" (width - String.length digits) +:+ digits.

(** [strftime("%Y%m%d_%H%M%S")]. *)
Definition strftime_version (t : datetime) : string :=
  pad 4 (year t) +:+ pad 2 (month t) +:+ pad 2 (day t) +:+ "_" +:+
  pad 2 (hour t) +:+ pad 2 (minute t) +:+ pad 2 (second t).

(** [strftime("%Y-%m-%d %H:%M:%S")]. *)
Definition strftime_display (t : datetime) : string :=
  pad 4 (year t) +:+ "-" +:+ pad 2 (month t) +:+ "-" +:+ pad 2 (day t) +:+ " " +:+
  pad 2 (hour t) +:+ ":" +:+ pad 2 (minute t) +:+ ":" +:+ pad 2 (second t).

(** [isoformat()] of a time without a fraction of a second. *)
Definition isoformat (t : datetime) : string :=
  pad 4 (year t) +:+ "-" +:+ pad 2 (month t) +:+ "-" +:+ pad 2 (day t) +:+ "T" +:+
  pad 2 (hour t) +:+ ":" +:+ pad 2 (minute t) +:+ ":" +:+ pad 2 (second t).

Definition digit (c : ascii) : option nat := Ascii.is_nat c.

(** One directive of [strptime] is an alternation tried in order; a
    parser returns every way to read a prefix, first choice first. *)
Definition parser : Type := string -> list (nat * string).

Definition one_digit (ok : nat -> bool) : parser := fun s =>
  match s with
  | String a rest =>
      match digit a with
      | Some x => if ok x then [(x, rest)] else []
      | None => []
      end
  | EmptyString => []
  end.

Definition two_digits (ok1 ok2 : nat -> bool) : parser := fun s =>
  match s with
  | String a (String b rest) =>
      match digit a, digit b with
      | Some x, Some y => if ok1 x && ok2 y then [(10 * x + y, rest)] else []
      | _, _ => []
      end
  | _ => []
  end.

Definition any (_ : nat) : bool := true.
Definition upto (hi : nat) (x : nat) : bool := x <=? hi.
Definition within (lo hi : nat) (x : nat) : bool := (lo <=? x) && (x <=? hi).

(** [%Y]: four digits. *)
Definition parse_Y : parser := fun s =>
  '(hi, rest) ← two_digits any any s;
  '(lo, rest') ← two_digits any any rest;
  [(100 * hi + lo, rest')].

(** [%m]: [1[0-2]|0[1-9]|[1-9]]. *)
Definition parse_m : parser := fun s =>
  two_digits (within 1 1) (upto 2) s ++ two_digits (upto 0) (within 1 9) s
  ++ one_digit (within 1 9) s.

(** [%d]: [3[0-1]|[1-2]\d|0[1-9]|[1-9]| [1-9]]. *)
Definition parse_d : parser := fun s =>
  two_digits (within 3 3) (upto 1) s ++ two_digits (within 1 2) any s
  ++ two_digits (upto 0) (within 1 9) s ++ one_digit (within 1 9) s
  ++ match s with
     | String " " rest => one_digit (within 1 9) rest
     | _ => []
     end.

(** [%H]: [2[0-3]|[0-1]\d|\d]. *)
Definition parse_H : parser := fun s =>
  two_digits (within 2 2) (upto 3) s ++ two_digits (upto 1) any s
  ++ one_digit any s.

(** [%M]: [[0-5]\d|\d]. *)
Definition parse_M : parser := fun s =>
  two_digits (upto 5) any s ++ one_digit any s.

(** [%S]: [6[0-1]|[0-5]\d|\d]. *)
Definition parse_S : parser := fun s =>
  two_digits (within 6 6) (upto 1) s ++ two_digits (upto 5) any s
  ++ one_digit any s.

Definition literal (c : ascii) (s : string) : list string :=
  match s with
  | String a rest => if Ascii.eqb a c then [rest] else []
  | EmptyString => []
  end.

Definition leap (y : nat) : bool :=
  ((y mod 4 =? 0) && negb (y mod 100 =? 0)) || (y mod 400 =? 0).

Definition days_in_month (y m : nat) : nat :=
  match m with
  | 2 => if leap y then 29 else 28
  | 4 | 6 | 9 | 11 => 30
  | _ => 31
  end.

(** What the [datetime] constructor accepts. *)
Definition valid (t : datetime) : bool :=
  within 1 9999 (year t) && within 1 12 (month t)
  && within 1 (days_in_month (year t) (month t)) (day t)
  && upto 23 (hour t) && upto 59 (minute t) && upto 59 (second t).

(** [datetime.strptime(s, "%Y%m%d_%H%M%S")]; [None] is [ValueError].  The
    first way to match the format is taken, and it must use the whole
    text and name a real date and time. *)
Definition strptime_version (s : string) : option datetime :=
  let parses :=
    '(y, s1) ← parse_Y s;
    '(m, s2) ← parse_m s1;
    '(d, s3) ← parse_d s2;
    s4 ← literal "_" s3;
    '(h, s5) ← parse_H s4;
    '(mi, s6) ← parse_M s5;
    '(sec, s7) ← parse_S s6;
    [(mkDatetime y m d h mi sec, s7)] in
  match parses with
  | (t, EmptyString) :: _ => if valid t then Some t else None
  | _ => None
  end.

End Datetime.

(** ** Python dictionaries

    Keys keep the order of their first insertion; assigning to a key that
    is present replaces its value in place. *)

Module Dict.
Section Dict.
Context {V : Type}.

Definition t : Type := list (string * V).

Definition empty : t := [].

Fixpoint get (k : string) (d : t) : option V :=
  match d with
  | [] => None
  | (k', v) :: d' => if String.eqb k k' then Some v else get k d'
  end.

Definition mem (k : string) (d : t) : bool :=
  match get k d with Some _ => true | None => false end.

(** [d[k] = v]. *)
Fixpoint set (k : string) (v : V) (d : t) : t :=
  match d with
  | [] => [(k, v)]
  | (k', v') :: d' =>
      if String.eqb k k' then (k, v) :: d' else (k', v') :: set k v d'
  end.

(** [del d[k]] for a key that is present: no entry of [k] is left. *)
Fixpoint del (k : string) (d : t) : t :=
  match d with
  | [] => []
  | (k', v') :: d' => if String.eqb k k' then del k d' else (k', v') :: del k d'
  end.

Definition keys (d : t) : list string := map fst d.
Definition values (d : t) : list V := map snd d.
Definition items (d : t) : list (string * V) := d.
End Dict.
Arguments t : clear implicits.
End Dict.

(** ** The file system *)

Record file : Type := mkFile { text : string; mtime : datetime }.

Module Fs.

Abbreviation directory := (gmap string file).

(** [(DIR / name).exists()]. *)
Definition exists_ (name : string) (dir : directory) : bool :=
  bool_decide (is_Some (dir !! name)).

(** [(DIR / name).write_text(data)] at the time [now]. *)
Definition write_text (now : datetime) (name data : string) (dir : directory)
  : directory :=
  <[name := mkFile data now]> dir.

(** [(DIR / name).read_text()]: the text, read in text mode. *)
Definition read_text (name : string) (dir : directory) : option string :=
  Py.universal_newlines ∘ text <$> dir !! name.

(** [(DIR / name).unlink()]; [None] is [FileNotFoundError]. *)
Definition unlink (name : string) (dir : directory) : option directory :=
  if exists_ name dir then Some (delete name dir) else None.

(** [DIR.glob(pattern)]: the entries whose name matches, in the order in
    which the directory yields them. *)
Definition glob (pattern : string) (dir : directory) : list (string * file) :=
  filter (fun e => Glob.fnmatch pattern e.1 = true) (map_to_list dir).

(** [stat().st_size]. *)
Definition st_size (f : file) : nat := Py.utf8_len (text f).

(** [PurePath.stem]: the name without its last suffix; a dot that starts
    or ends the name starts no suffix. *)
Definition stem (name : string) : string :=
  match Py.rfind "." name with
  | Some i =>
      if (0 <? i) && (i <? String.length name - 1) then Py.take i name
      else name
  | None => name
  end.

End Fs.

(** ** The state of the server *)

(** One entry of [document_cache]. *)
Record document : Type := mkDocument {
  id : string;
  filename : string;
  path : string;
  content : string;
  size : nat;
  modified : string
}.

Abbreviation tag_index := (Dict.t (list string)).

Record state : Type := mkState {
  documents_dir : Fs.directory;        (* the regular files of DOCUMENTS_DIR *)
  versions_dir : Fs.directory;         (* the files of VERSIONS_DIR *)
  tags_file : option tag_index;        (* what TAGS_FILE holds, if it exists *)
  document_cache : Dict.t document;
  tags_cache : tag_index
}.

Definition with_documents_dir (dir : Fs.directory) (s : state) : state :=
  mkState dir (versions_dir s) (tags_file s) (document_cache s) (tags_cache s).
Definition with_versions_dir (dir : Fs.directory) (s : state) : state :=
  mkState (documents_dir s) dir (tags_file s) (document_cache s) (tags_cache s).
Definition with_tags_file (f : option tag_index) (s : state) : state :=
  mkState (documents_dir s) (versions_dir s) f (document_cache s) (tags_cache s).
Definition with_document_cache (c : Dict.t document) (s : state) : state :=
  mkState (documents_dir s) (versions_dir s) (tags_file s) c (tags_cache s).
Definition with_tags_cache (c : tag_index) (s : state) : state :=
  mkState (documents_dir s) (versions_dir s) (tags_file s) (document_cache s) c.

Inductive exception : Type :=
| FileNotFoundError (name : string).

(** How a call ends. *)
Inductive outcome : Type :=
| Return (value : string)
| Raise (exc : exception).

(** [str(DOCUMENTS_DIR)], for a server started in its own directory. *)
Definition DOCUMENTS_DIR : string := "documents".

Definition doc_file (doc_id : string) : string := doc_id +:+ ".md".

Definition version_file (doc_id version_id : string) : string :=
  doc_id +:+ "_" +:+ version_id +:+ ".md".

(** The cache entry [load_documents] builds for one file. *)
Definition document_of (name : string) (f : file) : document :=
  {| id := Fs.stem name;
     filename := name;
     path := DOCUMENTS_DIR +:+ "/" +:+ name;
     content := Py.universal_newlines (text f);
     size := Fs.st_size f;
     modified := Datetime.isoformat (mtime f) |}.

Definition load_entry (cache : Dict.t document) (e : string * file)
  : Dict.t document :=
  Dict.set (Fs.stem e.1) (document_of e.1 e.2) cache.

(** [load_documents()].  The documents directory is created when the module
    is loaded and never removed, so the scan always takes place. *)
Definition load_documents (s : state) : state :=
  with_document_cache
    (fold_left load_entry (Fs.glob "*.md" (documents_dir s)) Dict.empty) s.

(** [load_tags()]: the JSON text of the file, decoded. *)
Definition load_tags (s : state) : state :=
  with_tags_cache (default Dict.empty (tags_file s)) s.

(** [save_tags()]: the whole index, encoded as JSON. *)
Definition save_tags (s : state) : state :=
  with_tags_file (Some (tags_cache s)) s.

(** [_save_version(doc_id)]. *)
Definition _save_version (now : datetime) (doc_id : string) (s : state) : state :=
  match Dict.get doc_id (document_cache s) with
  | None => s
  | Some doc =>
      let timestamp := Datetime.strftime_version now in
      with_versions_dir
        (Fs.write_text now (version_file doc_id timestamp) (content doc)
           (versions_dir s)) s
  end.

(** ** Core tools *)

(** One entry of [results] in [search_documents]. *)
Record search_result : Type := mkResult {
  r_doc_id : string;
  r_filename : string;
  r_match_count : nat;
  r_excerpt : string
}.

(** The excerpt built around the first match, which starts at [m_start]. *)
Definition excerpt_of (query content : string) (m_start : nat) : string :=
  let m_end := m_start + String.length query in
  let start := Nat.max 0 (m_start - 50) in
  let end_ := Nat.min (String.length content) (m_end + 50) in
  let excerpt := Py.replace (String Py.nl "") " " (Py.slice start end_ content) in
  let excerpt := if 0 <? start then "..." +:+ excerpt else excerpt in
  let excerpt := if end_ <? String.length content then excerpt +:+ "..." else excerpt in
  excerpt.

(** The body of the loop over [document_cache.items()]. *)
Definition search_one (query : string) (case_sensitive : bool)
    (e : string * document) : list search_result :=
  let matches := Re.finditer (negb case_sensitive) query (content e.2) in
  match matches with
  | [] => []
  | first_match :: _ =>
      [ {| r_doc_id := e.1;
           r_filename := filename e.2;
           r_match_count := length matches;
           r_excerpt := excerpt_of query (content e.2) first_match |} ]
  end.

Definition search_results (query : string) (case_sensitive : bool) (s : state)
  : list search_result :=
  flat_map (search_one query case_sensitive) (Dict.items (document_cache s)).

Definition result_lines (r : search_result) : list string :=
  [ String Py.nl "Document: " +:+ r_doc_id r;
    "  Matches: " +:+ Py.str_of_nat (r_match_count r);
    "  Excerpt: " +:+ r_excerpt r ].

(** [search_documents(query, case_sensitive)]. *)
Definition search_documents (query : string) (case_sensitive : bool) (s : state)
  : string :=
  match Py.strip query with
  | EmptyString => "Error: Please provide a search query."
  | _ =>
      let results := search_results query case_sensitive s in
      match results with
      | [] => "No documents found containing '" +:+ query +:+ "'."
      | _ =>
          Py.join (String Py.nl "")
            ([ "Found " +:+ Py.str_of_nat (length results)
                 +:+ " document(s) matching '" +:+ query +:+ "':";
               Py.repeat_char "=" 50 ]
             ++ flat_map result_lines results)
      end
  end.

(** ** Document creation *)

(** [create_document(doc_id, content, overwrite)]. *)
Definition create_document (now : datetime) (doc_id content : string)
    (overwrite : bool) (s : state) : outcome * state :=
  if String.eqb doc_id "" || negb (Re.match_doc_id doc_id) then
    (Return "Error: doc_id must contain only letters, numbers, underscores, and hyphens.", s)
  else
    let filepath := doc_file doc_id in
    if Fs.exists_ filepath (documents_dir s) && negb overwrite then
      (Return ("Error: Document '" +:+ doc_id
               +:+ "' already exists. Use overwrite=True to replace it."), s)
    else
      let s1 := if Fs.exists_ filepath (documents_dir s) && overwrite
                then _save_version now doc_id s else s in
      let s2 := with_documents_dir
                  (Fs.write_text now filepath content (documents_dir s1)) s1 in
      let s3 := load_documents s2 in
      (Return ("Successfully created document '" +:+ doc_id +:+ "' ("
               +:+ Py.str_of_nat (String.length content) +:+ " characters)"), s3).

(** [delete_document(doc_id, confirm)]. *)
Definition delete_document (now : datetime) (doc_id : string) (confirm : bool)
    (s : state) : outcome * state :=
  if negb (Dict.mem doc_id (document_cache s)) then
    (Return ("Error: Document '" +:+ doc_id +:+ "' not found."), s)
  else if negb confirm then
    (Return ("Warning: This will delete '" +:+ doc_id
             +:+ "'. Call again with confirm=True to proceed."), s)
  else
    let s1 := _save_version now doc_id s in
    let filepath := doc_file doc_id in
    match Fs.unlink filepath (documents_dir s1) with
    | None => (Raise (FileNotFoundError filepath), s1)
    | Some dir =>
        let s2 := with_documents_dir dir s1 in
        let s3 := if Dict.mem doc_id (tags_cache s2)
                  then save_tags (with_tags_cache (Dict.del doc_id (tags_cache s2)) s2)
                  else s2 in
        let s4 := load_documents s3 in
        (Return ("Successfully deleted document '" +:+ doc_id +:+ "'"), s4)
    end.

(** ** Tag support *)

(** [tag in tags] for a list of strings. *)
Definition tag_in (tag : string) (tags : list string) : bool :=
  existsb (String.eqb tag) tags.

(** [tags.remove(tag)]: the first occurrence goes. *)
Fixpoint list_remove (tag : string) (tags : list string) : list string :=
  match tags with
  | [] => []
  | t :: tags' => if String.eqb tag t then tags' else t :: list_remove tag tags'
  end.

(** [tags_cache[doc_id]] where the key is known to be present. *)
Definition tags_at (doc_id : string) (tags : tag_index) : list string :=
  default [] (Dict.get doc_id tags).

(** [add_tag(doc_id, tag)]. *)
Definition add_tag (doc_id tag : string) (s : state) : outcome * state :=
  if negb (Dict.mem doc_id (document_cache s)) then
    (Return ("Error: Document '" +:+ doc_id +:+ "' not found."), s)
  else
    let tag := Py.strip (Py.lower tag) in
    match tag with
    | EmptyString => (Return "Error: Tag cannot be empty.", s)
    | _ =>
        let s1 := if negb (Dict.mem doc_id (tags_cache s))
                  then with_tags_cache (Dict.set doc_id [] (tags_cache s)) s
                  else s in
        if tag_in tag (tags_at doc_id (tags_cache s1)) then
          (Return ("Tag '" +:+ tag +:+ "' already exists on document '"
                   +:+ doc_id +:+ "'."), s1)
        else
          let s2 := with_tags_cache
                      (Dict.set doc_id (tags_at doc_id (tags_cache s1) ++ [tag])
                         (tags_cache s1)) s1 in
          (Return ("Added tag '" +:+ tag +:+ "' to document '" +:+ doc_id +:+ "'"),
           save_tags s2)
    end.

(** [remove_tag(doc_id, tag)]. *)
Definition remove_tag (doc_id tag : string) (s : state) : outcome * state :=
  if negb (Dict.mem doc_id (document_cache s)) then
    (Return ("Error: Document '" +:+ doc_id +:+ "' not found."), s)
  else
    let tag := Py.strip (Py.lower tag) in
    if negb (Dict.mem doc_id (tags_cache s))
       || negb (tag_in tag (tags_at doc_id (tags_cache s))) then
      (Return ("Tag '" +:+ tag +:+ "' not found on document '" +:+ doc_id +:+ "'."), s)
    else
      let s1 := with_tags_cache
                  (Dict.set doc_id (list_remove tag (tags_at doc_id (tags_cache s)))
                     (tags_cache s)) s in
      (Return ("Removed tag '" +:+ tag +:+ "' from document '" +:+ doc_id +:+ "'"),
       save_tags s1).

(** The dictionary [tag_counts] that [list_tags] builds. *)
Definition count_tag (counts : Dict.t nat) (tag : string) : Dict.t nat :=
  Dict.set tag (default 0 (Dict.get tag counts) + 1) counts.

Definition tag_counts (tags : tag_index) : Dict.t nat :=
  fold_left (fun counts doc_tags => fold_left count_tag doc_tags counts)
    (Dict.values tags) Dict.empty.

(** The order of [sorted] on the items of a dictionary: by key, the keys
    being distinct. *)
Definition item_le {V : Type} (a b : string * V) : Prop := String.le a.1 b.1.

#[global] Instance item_le_dec {V : Type} : RelDecision (@item_le V).
Proof. intros a b. unfold item_le. apply _. Defined.

Definition tag_line (item : string * nat) : string :=
  "  " +:+ item.1 +:+ ": " +:+ Py.str_of_nat item.2 +:+ " document(s)".

(** [list_tags()]. *)
Definition list_tags (s : state) : string :=
  match tag_counts (tags_cache s) with
  | [] => "No tags defined."
  | counts =>
      Py.join (String Py.nl "")
        ([ "All Tags:"; Py.repeat_char "=" 40 ]
         ++ map tag_line (merge_sort item_le (Dict.items counts)))
  end.

(** ** Version history *)

(** [update_document(doc_id, new_content)]. *)
Definition update_document (now : datetime) (doc_id new_content : string)
    (s : state) : outcome * state :=
  if negb (Dict.mem doc_id (document_cache s)) then
    (Return ("Error: Document '" +:+ doc_id +:+ "' not found."), s)
  else
    let s1 := _save_version now doc_id s in
    let filepath := doc_file doc_id in
    let s2 := with_documents_dir
                (Fs.write_text now filepath new_content (documents_dir s1)) s1 in
    let s3 := load_documents s2 in
    (Return ("Updated document '" +:+ doc_id +:+ "'. Previous version saved."), s3).

(** The order of [sorted(versions, reverse=True)] on paths of one
    directory: by name, greatest first. *)
Definition path_ge (a b : string * file) : Prop := String.le b.1 a.1.

#[global] Instance path_ge_dec : RelDecision path_ge.
Proof. intros a b. unfold path_ge. apply _. Defined.

(** The body of the loop of [list_versions]: the lines for one path. *)
Definition version_lines (doc_id : string) (version_path : string * file)
  : list string :=
  let timestamp_str := Py.replace (doc_id +:+ "_") "" (Fs.stem version_path.1) in
  let formatted_time :=
    match Datetime.strptime_version timestamp_str with
    | Some timestamp => Datetime.strftime_display timestamp
    | None => timestamp_str
    end in
  [ String Py.nl "  Version: " +:+ timestamp_str;
    "    Date: " +:+ formatted_time;
    "    Size: " +:+ Py.str_of_nat (Fs.st_size version_path.2) +:+ " bytes" ].

(** [list_versions(doc_id)]. *)
Definition list_versions (doc_id : string) (s : state) : string :=
  let versions := Fs.glob (doc_id +:+ "_*.md") (versions_dir s) in
  match versions with
  | [] => "No previous versions found for '" +:+ doc_id +:+ "'."
  | _ =>
      Py.join (String Py.nl "")
        ([ "Versions of '" +:+ doc_id +:+ "':"; Py.repeat_char "=" 40 ]
         ++ flat_map (version_lines doc_id) (merge_sort path_ge versions))
  end.

(** [restore_version(doc_id, version_id)]. *)
Definition restore_version (now : datetime) (doc_id version_id : string)
    (s : state) : outcome * state :=
  let version_path := version_file doc_id version_id in
  if negb (Fs.exists_ version_path (versions_dir s)) then
    (Return ("Error: Version '" +:+ version_id +:+ "' not found for document '"
             +:+ doc_id +:+ "'."), s)
  else
    let s1 := if Dict.mem doc_id (document_cache s)
              then _save_version now doc_id s else s in
    match Fs.read_text version_path (versions_dir s1) with
    | None => (Raise (FileNotFoundError version_path), s1)
    | Some content =>
        let filepath := doc_file doc_id in
        let s2 := with_documents_dir
                    (Fs.write_text now filepath content (documents_dir s1)) s1 in
        let s3 := load_documents s2 in
        (Return ("Restored document '" +:+ doc_id +:+ "' to version '"
                 +:+ version_id +:+ "'"), s3)
    end.

(** ** Resources *)

(** [get_document(doc_id)]. *)
Definition get_document (doc_id : string) (s : state) : string :=
  match Dict.get doc_id (document_cache s) with
  | None => "Error: Document '" +:+ doc_id +:+ "' not found."
  | Some doc => content doc
  end.

(** [get_document_version(doc_id, version_id)]. *)
Definition get_document_version (doc_id version_id : string) (s : state) : string :=
  match Fs.read_text (version_file doc_id version_id) (versions_dir s) with
  | None => "Error: Version '" +:+ version_id +:+ "' not found for document '"
            +:+ doc_id +:+ "'."
  | Some content => content
  end.

(** ** Start of the server *)

(** The state after the module is loaded over the given files. *)
Definition startup (docs versions : Fs.directory) (tags : option tag_index)
  : state :=
  load_tags (load_documents (mkState docs versions tags Dict.empty Dict.empty)).

(** * Properties *)

(** ** Strings *)

Lemma append_cons (c : ascii) (a b : string) :
  String c a +:+ b = String c (a +:+ b).
Proof. reflexivity. Qed.

Lemma append_nil_l (b : string) : "" +:+ b = b.
Proof. reflexivity. Qed.

Lemma append_nil_r (s : string) : s +:+ "" = s.
Proof. induction s as [|c s IH]; [done | by rewrite append_cons, IH]. Qed.

Lemma append_assoc (a b c : string) : (a +:+ b) +:+ c = a +:+ (b +:+ c).
Proof. induction a as [|x a IH]; [done | by rewrite !append_cons, IH]. Qed.

Lemma length_append (a b : string) :
  String.length (a +:+ b) = String.length a + String.length b.
Proof. induction a as [|x a IH]; [done | rewrite append_cons; simpl; by rewrite IH]. Qed.

Lemma take_append (a b : string) : Py.take (String.length a) (a +:+ b) = a.
Proof.
  induction a as [|x a IH]; [by destruct b |].
  rewrite append_cons. simpl. by rewrite IH.
Qed.

Lemma drop_append (a b : string) : Py.drop (String.length a) (a +:+ b) = b.
Proof. induction a as [|x a IH]; [done | by rewrite append_cons]. Qed.

(** ** File names *)

Lemma matches_star_cons (ts : list Glob.token) (c : ascii) (s : string) :
  Glob.matches (Glob.Star :: ts) (String c s)
  = Glob.matches ts (String c s) || Glob.matches (Glob.Star :: ts) s.
Proof. reflexivity. Qed.

Lemma matches_star_nil (ts : list Glob.token) :
  Glob.matches (Glob.Star :: ts) "" = Glob.matches ts "".
Proof. simpl. by rewrite orb_false_r. Qed.

Lemma matches_lits_md (name : string) :
  Glob.matches [Glob.Lit "."; Glob.Lit "m"; Glob.Lit "d"] name = true
  <-> name = ".md".
Proof.
  split; [| by intros ->].
  destruct name as [|a [|b [|c [|? ?]]]]; cbn [Glob.matches];
    rewrite ?andb_false_r; try done.
  rewrite !andb_true_iff, !Ascii.eqb_eq. by intros (<- & <- & <- & _).
Qed.

(** The files that [glob("*.md")] yields are those named [stem.md]. *)
Lemma tokens_md :
  Glob.tokens (String.length "*.md") "*.md"
  = [Glob.Star; Glob.Lit "."; Glob.Lit "m"; Glob.Lit "d"].
Proof. reflexivity. Qed.

Lemma fnmatch_md (name : string) :
  Glob.fnmatch "*.md" name = true <-> exists s, name = s +:+ ".md".
Proof.
  unfold Glob.fnmatch. rewrite tokens_md.
  induction name as [|c name IH].
  - rewrite matches_star_nil. split; [done|].
    intros [[|? ?] H]; discriminate.
  - rewrite matches_star_cons, orb_true_iff, matches_lits_md, IH. split.
    + intros [H | [s ->]]; [by exists "" | by exists (String c s)].
    + intros [[|x s] H].
      * by left.
      * rewrite append_cons in H. injection H as -> ->. right. by exists s.
Qed.

Lemma rfind_dot_md (s : string) : Py.rfind "." (s +:+ ".md") = Some (String.length s).
Proof.
  induction s as [|c s IH]; [done |].
  rewrite append_cons. simpl. by rewrite IH.
Qed.

(** The stem of [s.md] is [s], unless [s] is empty: [.md] is a hidden file
    without a suffix. *)
Lemma stem_md (s : string) : s <> "" -> Fs.stem (s +:+ ".md") = s.
Proof.
  intros Hs. unfold Fs.stem. rewrite rfind_dot_md, length_append.
  assert (0 < String.length s) by (destruct s; [done | simpl; lia]).
  change (String.length ".md") with 3.
  rewrite (proj2 (Nat.ltb_lt 0 _)) by done.
  rewrite (proj2 (Nat.ltb_lt _ _)) by lia.
  apply take_append.
Qed.

Lemma stem_dot_md : Fs.stem ".md" = ".md".
Proof. reflexivity. Qed.

(** A name without a path separator is one path component: [DIR / name] is
    then the entry [name] of [DIR].  With a separator in it the code follows
    the path the name spells, which the directories here do not hold. *)
Fixpoint has_separator (name : string) : bool :=
  match name with
  | EmptyString => false
  | String c name' => Ascii.eqb c "/" || has_separator name'
  end.

(** An identifier that is the stem of one file name only. *)
Definition plain_id (doc_id : string) : Prop := doc_id <> "" /\ doc_id <> ".md".

(** For a plain identifier, the only file that [load_documents] files under
    it is its own. *)
Lemma stem_plain (doc_id name : string) :
  plain_id doc_id ->
  Glob.fnmatch "*.md" name = true ->
  Fs.stem name = doc_id <-> name = doc_file doc_id.
Proof.
  intros [Hne Hmd] [s ->]%fnmatch_md. unfold doc_file. split.
  - destruct s as [|c s].
    + rewrite append_nil_l, stem_dot_md. by intros <-.
    + rewrite stem_md by done. by intros ->.
  - intros ->. by apply stem_md.
Qed.

(** ** Dictionaries *)

Section DictFacts.
Context {V : Type}.
Implicit Types (d : Dict.t V) (k : string) (v : V).

Lemma get_set_eq k v d : Dict.get k (Dict.set k v d) = Some v.
Proof.
  induction d as [|[k' v'] d IH]; simpl.
  - by rewrite String.eqb_refl.
  - destruct (String.eqb_spec k k'); simpl.
    + by rewrite String.eqb_refl.
    + by destruct (String.eqb_spec k k').
Qed.

Lemma get_set_ne k k' v d : k <> k' -> Dict.get k (Dict.set k' v d) = Dict.get k d.
Proof.
  intros Hne. induction d as [|[k0 v0] d IH]; simpl.
  - by destruct (String.eqb_spec k k').
  - destruct (String.eqb_spec k' k0) as [->|]; simpl.
    + by destruct (String.eqb_spec k k0).
    + by rewrite IH.
Qed.

Lemma get_del_eq k d : Dict.get k (Dict.del k d) = None.
Proof.
  induction d as [|[k' v'] d IH]; simpl; [done|].
  destruct (String.eqb_spec k k') as [->|Hne]; simpl; [done|].
  by destruct (String.eqb_spec k k').
Qed.

Lemma get_del_ne k k' d : k <> k' -> Dict.get k (Dict.del k' d) = Dict.get k d.
Proof.
  intros Hne. induction d as [|[k0 v0] d IH]; simpl; [done|].
  destruct (String.eqb_spec k' k0) as [->|]; simpl.
  - by destruct (String.eqb_spec k k0).
  - by rewrite IH.
Qed.

Lemma mem_get k d : Dict.mem k d = true <-> is_Some (Dict.get k d).
Proof.
  unfold Dict.mem. destruct (Dict.get k d); split; intros H; done.
Qed.

Lemma mem_false k d : Dict.mem k d = false <-> Dict.get k d = None.
Proof. unfold Dict.mem. by destruct (Dict.get k d). Qed.

Lemma get_elem_of k v d : Dict.get k d = Some v -> (k, v) ∈ Dict.items d.
Proof.
  induction d as [|[k' v'] d IH]; simpl; [done|].
  destruct (String.eqb_spec k k') as [->|].
  - intros [= ->]. left.
  - intros H. right. by apply IH.
Qed.
End DictFacts.

(** ** Reloading the cache *)

Section Load.
Variable doc_id : string.
Hypothesis Hplain : plain_id doc_id.

Let markdown (l : list (string * file)) : Prop :=
  Forall (fun e => Glob.fnmatch "*.md" e.1 = true) l.

Lemma fold_load_other (l : list (string * file)) (acc : Dict.t document) :
  markdown l -> doc_file doc_id ∉ l.*1 ->
  Dict.get doc_id (fold_left load_entry l acc) = Dict.get doc_id acc.
Proof using Hplain.
  revert acc. induction l as [|[name f] l IH]; intros acc Hmd Hnot; [done|].
  apply Forall_cons in Hmd as [Hname Hmd]. simpl in *.
  apply not_elem_of_cons in Hnot as [Hne Hnot].
  rewrite IH by done. unfold load_entry. simpl.
  apply get_set_ne. intros Hstem. symmetry in Hstem.
  by apply stem_plain in Hstem.
Qed.

Lemma fold_load_own (l : list (string * file)) (acc : Dict.t document) (f : file) :
  markdown l -> NoDup l.*1 -> (doc_file doc_id, f) ∈ l ->
  Dict.get doc_id (fold_left load_entry l acc)
  = Some (document_of (doc_file doc_id) f).
Proof using Hplain.
  revert acc. induction l as [|[name g] l IH]; intros acc Hmd Hnd Hin.
  { by apply elem_of_nil in Hin. }
  apply Forall_cons in Hmd as [Hname Hmd].
  simpl in Hnd. apply NoDup_cons in Hnd as [Hfresh Hnd].
  apply elem_of_cons in Hin as [[= <- <-] | Hin]; simpl.
  - rewrite fold_load_other by done. unfold load_entry. simpl.
    replace (Fs.stem (doc_file doc_id)) with doc_id; [apply get_set_eq|].
    symmetry. by apply stem_plain.
  - by apply IH.
Qed.

(** After a reload, the entry of a plain identifier is built from its own
    file, and is absent when the file is. *)
Lemma load_documents_get (s : state) :
  Dict.get doc_id (document_cache (load_documents s))
  = document_of (doc_file doc_id) <$> documents_dir s !! doc_file doc_id.
Proof using Hplain.
  unfold load_documents, Fs.glob. simpl.
  set (l := filter _ _).
  assert (markdown l) as Hmd.
  { apply Forall_forall. intros e He. by apply list_elem_of_filter in He as [? _]. }
  assert (NoDup l.*1) as Hnd.
  { eapply sublist_NoDup; [apply (NoDup_fst_map_to_list (documents_dir s)) |].
    apply fmap_sublist, sublist_filter. }
  destruct (documents_dir s !! doc_file doc_id) as [f|] eqn:Hf; simpl.
  - apply fold_load_own; [done..|].
    apply list_elem_of_filter. split.
    + apply fnmatch_md. by exists doc_id.
    + by apply elem_of_map_to_list.
  - rewrite fold_load_other; [done..|].
    intros [[name f] [Heq [_ Hin%elem_of_map_to_list]%list_elem_of_filter]]%list_elem_of_fmap.
    simpl in Heq. subst. congruence.
Qed.
End Load.

(** The cache holds what a scan of the documents directory yields. *)
Definition consistent (s : state) : Prop :=
  document_cache s = document_cache (load_documents s).

Lemma load_documents_consistent (s : state) : consistent (load_documents s).
Proof. reflexivity. Qed.

(** Text that reading in text mode leaves as it is. *)
Fixpoint no_cr (s : string) : bool :=
  match s with
  | EmptyString => true
  | String c s' => negb (Ascii.eqb c Py.cr) && no_cr s'
  end.

Lemma universal_newlines_no_cr (s : string) :
  no_cr s = true -> Py.universal_newlines s = s.
Proof.
  induction s as [|c s IH]; [done|]. cbn [no_cr Py.universal_newlines].
  intros [Hc Hs]%andb_prop. apply negb_true_iff in Hc. rewrite Hc.
  by rewrite IH.
Qed.

Lemma universal_newlines_sound (s : string) : no_cr (Py.universal_newlines s) = true.
Proof.
  induction s as [|c s IH]; [done|]. cbn [Py.universal_newlines].
  destruct (Ascii.eqb c Py.cr) eqn:Hc.
  - destruct s as [|c' s']; [done|].
    destruct (Ascii.eqb c' Py.nl); [done|].
    cbn [no_cr]. by rewrite IH.
  - cbn [no_cr]. by rewrite Hc, IH.
Qed.

Lemma universal_newlines_idemp (s : string) :
  Py.universal_newlines (Py.universal_newlines s) = Py.universal_newlines s.
Proof. apply universal_newlines_no_cr, universal_newlines_sound. Qed.

(** ** Tag removal on a document that is not cached *)

(** C10: [remove_tag(d, t)] on a document absent from the document cache
    returns the not-found error and leaves the whole state, the tag index
    included, as it was, whatever the tag index holds for [d]. *)
Theorem remove_tag_uncached (s : state) (d t : string) :
  Dict.get d (document_cache s) = None ->
  remove_tag d t s = (Return ("Error: Document '" +:+ d +:+ "' not found."), s).
Proof.
  intros Hd. unfold remove_tag.
  by rewrite (proj2 (mem_false d (document_cache s)) Hd).
Qed.

(** A state with no document, where the tag index still has [draft] on
    [ghost]. *)
Definition stale_tags : state :=
  mkState ∅ ∅ (Some [("ghost", ["draft"])]) Dict.empty [("ghost", ["draft"])].

Lemma remove_tag_uncached_witness :
  Dict.get "ghost" (document_cache stale_tags) = None
  /\ tag_in (Py.strip (Py.lower " Draft ")) (tags_at "ghost" (tags_cache stale_tags)) = true
  /\ remove_tag "ghost" " Draft " stale_tags
     = (Return "Error: Document 'ghost' not found.", stale_tags).
Proof.
  split; [reflexivity |]. split; [reflexivity |].
  apply (remove_tag_uncached stale_tags "ghost" " Draft "). reflexivity.
Defined.

(** ** Deletion without confirmation *)

(** C3: [delete_document(d, confirm=False)] changes nothing, neither files
    nor tags nor versions nor the cache, and for a cached document it
    returns the warning that asks for confirmation. *)
Theorem delete_document_unconfirmed (s : state) (now : datetime) (d : string) :
  (delete_document now d false s).2 = s
  /\ (Dict.mem d (document_cache s) = true ->
      (delete_document now d false s).1
      = Return ("Warning: This will delete '" +:+ d
                +:+ "'. Call again with confirm=True to proceed.")).
Proof.
  unfold delete_document.
  destruct (Dict.mem d (document_cache s)); simpl; [split; [done | by intros _] |].
  split; [done | by intros ?].
Qed.

(** ** Snapshots *)

(** The name of the snapshot a call at [now] writes for [doc_id]. *)
Definition snapshot_name (now : datetime) (doc_id : string) : string :=
  version_file doc_id (Datetime.strftime_version now).

Lemma save_version_cached (s : state) (now : datetime) (d : string) (doc : document) :
  Dict.get d (document_cache s) = Some doc ->
  _save_version now d s
  = with_versions_dir
      (<[snapshot_name now d := mkFile (content doc) now]> (versions_dir s)) s.
Proof. intros Hd. unfold _save_version. by rewrite Hd. Qed.

Lemma save_version_uncached (s : state) (now : datetime) (d : string) :
  Dict.get d (document_cache s) = None -> _save_version now d s = s.
Proof. intros Hd. unfold _save_version. by rewrite Hd. Qed.

(** What [get_document] returns once [data] has been written to the file
    of a plain identifier and the cache reloaded. *)
Lemma get_document_written (s : state) (now : datetime) (d data : string) :
  plain_id d ->
  get_document d
    (load_documents
       (with_documents_dir (Fs.write_text now (doc_file d) data (documents_dir s)) s))
  = Py.universal_newlines data.
Proof.
  intros Hd. unfold get_document. rewrite load_documents_get by done.
  unfold Fs.write_text. simpl. by rewrite lookup_insert_eq.
Qed.

(** ** Updates *)

(** C1, as amended: for a document [d] of the cache with content [c1],
    [d] not being the bare name [.md], and when no snapshot of [d] carries
    the time stamp of the current second yet, [update_document(d, c2)]
    succeeds, adds exactly one snapshot to the archive, holding [c1], and
    afterwards [get_document(d)] returns [c2] as text mode reads it back
    ([c2] itself when it has no carriage return). *)
Theorem update_document_snapshot (s : state) (now : datetime) (d c2 : string)
    (doc : document) :
  plain_id d ->
  Dict.get d (document_cache s) = Some doc ->
  versions_dir s !! snapshot_name now d = None ->
  let r := update_document now d c2 s in
  r.1 = Return ("Updated document '" +:+ d +:+ "'. Previous version saved.")
  /\ versions_dir r.2
     = <[snapshot_name now d := mkFile (content doc) now]> (versions_dir s)
  /\ base.size (versions_dir r.2) = S (base.size (versions_dir s))
  /\ get_document d r.2 = Py.universal_newlines c2
  /\ (no_cr c2 = true -> get_document d r.2 = c2)
  /\ consistent r.2.
Proof.
  intros Hplain Hd Hfresh r. subst r. unfold update_document.
  rewrite (proj2 (mem_get d (document_cache s))) by (rewrite Hd; eauto).
  rewrite (save_version_cached _ _ _ _ Hd). cbn [negb fst snd].
  split; [done|]. split; [done|].
  split; [by apply map_size_insert_None|].
  rewrite get_document_written by done.
  split; [done|]. split; [| apply load_documents_consistent].
  intros Hc. by apply universal_newlines_no_cr.
Qed.

(** ** A session of the specification

    The store is empty at the start; [a] is created with "hello world" and
    updated to "new" one second later. *)

Definition half_past : datetime := mkDatetime 2024 3 15 14 30 22.
Definition a_second_later : datetime := mkDatetime 2024 3 15 14 30 23.
Definition two_seconds_later : datetime := mkDatetime 2024 3 15 14 30 24.

Definition fresh : state := startup ∅ ∅ None.
Definition s_hello : state :=
  (create_document half_past "a" "hello world" false fresh).2.
Definition s_new : state :=
  (update_document a_second_later "a" "new" s_hello).2.

Lemma plain_id_a : plain_id "a".
Proof. split; discriminate. Qed.

Definition hello_doc : document :=
  document_of "a.md" (mkFile "hello world" half_past).

Lemma update_document_snapshot_witness :
  plain_id "a"
  /\ Dict.get "a" (document_cache s_hello) = Some hello_doc
  /\ versions_dir s_hello !! snapshot_name a_second_later "a" = None
  /\ versions_dir s_new
     = <[snapshot_name a_second_later "a" := mkFile "hello world" a_second_later]>
         (versions_dir s_hello)
  /\ get_document "a" s_new = "new".
Proof.
  pose proof plain_id_a as Hplain.
  assert (Dict.get "a" (document_cache s_hello) = Some hello_doc) as Hd
    by reflexivity.
  assert (versions_dir s_hello !! snapshot_name a_second_later "a" = None) as Hfresh
    by reflexivity.
  destruct (update_document_snapshot s_hello a_second_later "a" "new" hello_doc
              Hplain Hd Hfresh) as (_ & Hv & _ & _ & Hget & _).
  split; [exact Hplain|]. split; [exact Hd|]. split; [exact Hfresh|].
  split; [exact Hv | exact (Hget eq_refl)].
Defined.

(** C1 fails as stated: a second update of [a] within the second of the
    first one overwrites the snapshot of that second, so the archive gains
    no snapshot (and the one holding "hello world" is lost). *)
Lemma update_document_same_second :
  let r := update_document a_second_later "a" "newer" s_new in
  get_document "a" s_new = "new"
  /\ Dict.mem "a" (document_cache s_new) = true
  /\ r.1 = Return "Updated document 'a'. Previous version saved."
  /\ ~ (exists name, versions_dir s_new !! name = None
                     /\ is_Some (versions_dir r.2 !! name)).
Proof.
  split; [reflexivity|]. split; [reflexivity|]. split; [reflexivity|].
  intros (name & Hnone & Hsome).
  apply not_elem_of_dom in Hnone. apply elem_of_dom in Hsome.
  apply Hnone. revert Hsome.
  assert (dom (versions_dir (update_document a_second_later "a" "newer" s_new).2)
          = dom (versions_dir s_new)) as -> by (vm_compute; reflexivity).
  done.
Qed.

(** ** Confirmed deletion *)

(** C2, as amended: for a document [d] of the cache whose file [d.md] is in
    the documents directory, and when no snapshot of [d] carries the time
    stamp of the current second yet, [delete_document(d, confirm=True)]
    removes the file, removes the entry of [d] from the tag index, and adds
    exactly one snapshot to the archive, holding the content [d] had. *)
Theorem delete_document_confirmed (s : state) (now : datetime) (d : string)
    (doc : document) (f : file) :
  Dict.get d (document_cache s) = Some doc ->
  documents_dir s !! doc_file d = Some f ->
  versions_dir s !! snapshot_name now d = None ->
  let r := delete_document now d true s in
  r.1 = Return ("Successfully deleted document '" +:+ d +:+ "'")
  /\ documents_dir r.2 = delete (doc_file d) (documents_dir s)
  /\ documents_dir r.2 !! doc_file d = None
  /\ Dict.get d (tags_cache r.2) = None
  /\ versions_dir r.2
     = <[snapshot_name now d := mkFile (content doc) now]> (versions_dir s)
  /\ base.size (versions_dir r.2) = S (base.size (versions_dir s))
  /\ consistent r.2.
Proof.
  intros Hd Hf Hfresh r. subst r. unfold delete_document.
  rewrite (proj2 (mem_get d (document_cache s))) by (rewrite Hd; eauto).
  rewrite (save_version_cached _ _ _ _ Hd). cbn [negb].
  unfold Fs.unlink, Fs.exists_. cbn [documents_dir with_versions_dir].
  rewrite bool_decide_eq_true_2 by (rewrite Hf; eauto).
  assert (forall s', Dict.get d
            (tags_cache (if Dict.mem d (tags_cache s')
                         then save_tags (with_tags_cache (Dict.del d (tags_cache s')) s')
                         else s')) = None) as Htags.
  { intros s'. destruct (Dict.mem d (tags_cache s')) eqn:Hm; simpl.
    - apply get_del_eq.
    - by apply mem_false. }
  cbn [fst snd]. split; [done|].
  split; [by destruct (Dict.mem d _)|].
  split; [destruct (Dict.mem d _); simpl; apply lookup_delete_eq|].
  split; [apply Htags|].
  split; [by destruct (Dict.mem d _)|].
  split; [| apply load_documents_consistent].
  destruct (Dict.mem d _); simpl; by apply map_size_insert_None.
Qed.

Lemma delete_document_confirmed_witness :
  let r := delete_document a_second_later "a" true s_hello in
  Dict.get "a" (document_cache s_hello) = Some hello_doc
  /\ documents_dir s_hello !! doc_file "a" = Some (mkFile "hello world" half_past)
  /\ versions_dir s_hello !! snapshot_name a_second_later "a" = None
  /\ documents_dir r.2 !! doc_file "a" = None
  /\ versions_dir r.2
     = <[snapshot_name a_second_later "a" := mkFile "hello world" a_second_later]>
         (versions_dir s_hello).
Proof.
  assert (Dict.get "a" (document_cache s_hello) = Some hello_doc) as Hd
    by reflexivity.
  assert (documents_dir s_hello !! doc_file "a"
          = Some (mkFile "hello world" half_past)) as Hf by reflexivity.
  assert (versions_dir s_hello !! snapshot_name a_second_later "a" = None) as Hfresh
    by reflexivity.
  destruct (delete_document_confirmed s_hello a_second_later "a" hello_doc _
              Hd Hf Hfresh) as (_ & _ & Hgone & _ & Hv & _).
  split; [exact Hd|]. split; [exact Hf|]. split; [exact Hfresh|].
  split; [exact Hgone | exact Hv].
Defined.

(** C2 fails as stated: deleting [a] within the second of its last update
    overwrites the snapshot of that second, so the archive gains no
    snapshot. *)
Lemma delete_document_same_second :
  let r := delete_document a_second_later "a" true s_new in
  Dict.mem "a" (document_cache s_new) = true
  /\ r.1 = Return "Successfully deleted document 'a'"
  /\ ~ (exists name, versions_dir s_new !! name = None
                     /\ is_Some (versions_dir r.2 !! name)).
Proof.
  split; [reflexivity|]. split; [reflexivity|].
  intros (name & Hnone & Hsome).
  apply not_elem_of_dom in Hnone. apply elem_of_dom in Hsome.
  apply Hnone. revert Hsome.
  assert (dom (versions_dir (delete_document a_second_later "a" true s_new).2)
          = dom (versions_dir s_new)) as -> by (vm_compute; reflexivity).
  done.
Qed.

Lemma delete_document_unconfirmed_witness :
  (delete_document a_second_later "a" false s_new).2 = s_new
  /\ Dict.mem "a" (document_cache s_new) = true
  /\ (delete_document a_second_later "a" false s_new).1
     = Return "Warning: This will delete 'a'. Call again with confirm=True to proceed.".
Proof.
  destruct (delete_document_unconfirmed s_new a_second_later "a") as [Hs Hw].
  split; [exact Hs|]. split; [reflexivity | exact (Hw eq_refl)].
Defined.

(** ** Restoring a version *)

Lemma exists_true (name : string) (dir : Fs.directory) (f : file) :
  dir !! name = Some f -> Fs.exists_ name dir = true.
Proof. intros H. unfold Fs.exists_. apply bool_decide_eq_true_2. rewrite H. eauto. Qed.

Lemma exists_false (name : string) (dir : Fs.directory) :
  dir !! name = None -> Fs.exists_ name dir = false.
Proof.
  intros H. unfold Fs.exists_. apply bool_decide_eq_false_2. rewrite H.
  by intros [? ?].
Qed.

(** C5, as amended: for [d] and [v] without a path separator,
    [restore_version(d, v)] fails with not-found when no snapshot is named
    by [d] and [v]; when the snapshot exists, [d] is in the cache (and is
    not the bare name [.md]) and no snapshot of [d] carries the time stamp
    of the current second yet, it first adds one snapshot that holds the
    content [d] had, then writes the content of snapshot [v] to the
    document, then reloads the cache, so that [get_document(d)] returns the
    content of snapshot [v]. *)
Theorem restore_version_cached (s : state) (now : datetime) (d v : string) :
  has_separator d = false ->
  has_separator v = false ->
  (versions_dir s !! version_file d v = None ->
   restore_version now d v s
   = (Return ("Error: Version '" +:+ v +:+ "' not found for document '"
              +:+ d +:+ "'."), s))
  /\ (forall (doc : document) (fv : file),
        plain_id d ->
        Dict.get d (document_cache s) = Some doc ->
        versions_dir s !! version_file d v = Some fv ->
        versions_dir s !! snapshot_name now d = None ->
        let r := restore_version now d v s in
        r.1 = Return ("Restored document '" +:+ d +:+ "' to version '" +:+ v +:+ "'")
        /\ versions_dir r.2
           = <[snapshot_name now d := mkFile (content doc) now]> (versions_dir s)
        /\ base.size (versions_dir r.2) = S (base.size (versions_dir s))
        /\ documents_dir r.2
           = <[doc_file d := mkFile (Py.universal_newlines (text fv)) now]>
               (documents_dir s)
        /\ get_document d r.2 = get_document_version d v s
        /\ consistent r.2).
Proof.
  intros _ _. split.
  - intros Hv. unfold restore_version. by rewrite (exists_false _ _ Hv).
  - intros doc fv Hplain Hd Hv Hfresh r. subst r. unfold restore_version.
    rewrite (exists_true _ _ _ Hv). cbn [negb].
    rewrite (proj2 (mem_get d (document_cache s))) by (rewrite Hd; eauto).
    rewrite (save_version_cached _ _ _ _ Hd).
    unfold Fs.read_text. cbn [versions_dir with_versions_dir].
    rewrite lookup_insert_ne by congruence. rewrite Hv. cbn [fmap option_fmap option_map].
    cbn [fst snd]. split; [done|]. split; [done|].
    split; [by apply map_size_insert_None|]. split; [done|].
    split; [| apply load_documents_consistent].
    rewrite get_document_written by done.
    unfold get_document_version, Fs.read_text. rewrite Hv. simpl.
    apply universal_newlines_idemp.
Qed.

Lemma restore_version_cached_witness :
  let r := restore_version two_seconds_later "a" "20240315_143023" s_new in
  has_separator "ghost" = false
  /\ has_separator "a" = false
  /\ has_separator "20240315_143023" = false
  /\ versions_dir s_new !! version_file "ghost" "20240315_143023" = None
  /\ restore_version two_seconds_later "ghost" "20240315_143023" s_new
     = (Return "Error: Version '20240315_143023' not found for document 'ghost'.",
        s_new)
  /\ plain_id "a"
  /\ Dict.get "a" (document_cache s_new)
     = Some (document_of "a.md" (mkFile "new" a_second_later))
  /\ versions_dir s_new !! version_file "a" "20240315_143023"
     = Some (mkFile "hello world" a_second_later)
  /\ versions_dir s_new !! snapshot_name two_seconds_later "a" = None
  /\ get_document "a" r.2 = "hello world"
  /\ versions_dir r.2
     = <[snapshot_name two_seconds_later "a" := mkFile "new" two_seconds_later]>
         (versions_dir s_new).
Proof.
  assert (versions_dir s_new !! version_file "ghost" "20240315_143023" = None)
    as Hnone by reflexivity.
  pose proof plain_id_a as Hplain.
  assert (Dict.get "a" (document_cache s_new)
          = Some (document_of "a.md" (mkFile "new" a_second_later))) as Hd
    by reflexivity.
  assert (versions_dir s_new !! version_file "a" "20240315_143023"
          = Some (mkFile "hello world" a_second_later)) as Hv by reflexivity.
  assert (versions_dir s_new !! snapshot_name two_seconds_later "a" = None)
    as Hfresh by reflexivity.
  assert (has_separator "ghost" = false) as Hflat by reflexivity.
  assert (has_separator "20240315_143023" = false) as Hflat' by reflexivity.
  assert (has_separator "a" = false) as Hflat_a by reflexivity.
  pose proof (proj1 (restore_version_cached s_new two_seconds_later "ghost"
                       "20240315_143023" Hflat Hflat') Hnone) as Herr.
  destruct (proj2 (restore_version_cached s_new two_seconds_later "a"
                     "20240315_143023" Hflat_a Hflat') _ _ Hplain Hd Hv Hfresh)
    as (_ & Hsnap & _ & _ & Hget & _).
  split; [exact Hflat|]. split; [exact Hflat_a|]. split; [exact Hflat'|].
  split; [exact Hnone|]. split; [exact Herr|]. split; [exact Hplain|].
  split; [exact Hd|]. split; [exact Hv|]. split; [exact Hfresh|].
  split; [exact Hget | exact Hsnap].
Defined.

(** C5 fails as stated: restoring the snapshot of the current second first
    overwrites that very snapshot with the current content, so the document
    keeps the content it had ("new", not the "hello world" the snapshot
    held), and the archive gains no snapshot. *)
Lemma restore_version_same_second :
  let r := restore_version a_second_later "a" "20240315_143023" s_new in
  get_document "a" s_new = "new"
  /\ get_document_version "a" "20240315_143023" s_new = "hello world"
  /\ r.1 = Return "Restored document 'a' to version '20240315_143023'"
  /\ get_document "a" r.2 = "new"
  /\ ~ (exists name, versions_dir s_new !! name = None
                     /\ is_Some (versions_dir r.2 !! name)).
Proof.
  split; [reflexivity|]. split; [reflexivity|]. split; [reflexivity|].
  split; [reflexivity|].
  intros (name & Hnone & Hsome).
  apply not_elem_of_dom in Hnone. apply elem_of_dom in Hsome.
  apply Hnone. revert Hsome.
  assert (dom (versions_dir
                 (restore_version a_second_later "a" "20240315_143023" s_new).2)
          = dom (versions_dir s_new)) as -> by (vm_compute; reflexivity).
  done.
Qed.

(** C9: when [d] is absent from the cache and a snapshot is named by [d]
    and [v], [restore_version(d, v)] succeeds, writes the content of the
    snapshot to the file of [d] and leaves the version archive as it was;
    after the reload the document is served again. *)
Theorem restore_version_uncached (s : state) (now : datetime) (d v : string)
    (fv : file) :
  Dict.get d (document_cache s) = None ->
  versions_dir s !! version_file d v = Some fv ->
  let r := restore_version now d v s in
  r.1 = Return ("Restored document '" +:+ d +:+ "' to version '" +:+ v +:+ "'")
  /\ versions_dir r.2 = versions_dir s
  /\ documents_dir r.2
     = <[doc_file d := mkFile (Py.universal_newlines (text fv)) now]>
         (documents_dir s)
  /\ Fs.read_text (doc_file d) (documents_dir r.2)
     = Fs.read_text (version_file d v) (versions_dir s)
  /\ consistent r.2
  /\ (plain_id d -> get_document d r.2 = get_document_version d v s).
Proof.
  intros Hd Hv r. subst r. unfold restore_version.
  rewrite (exists_true _ _ _ Hv). cbn [negb].
  rewrite (proj2 (mem_false d (document_cache s))) by done.
  assert (Fs.read_text (version_file d v) (versions_dir s)
          = Some (Py.universal_newlines (text fv))) as Hread.
  { unfold Fs.read_text. by rewrite Hv. }
  rewrite Hread. cbn [fst snd]. split; [done|]. split; [done|]. split; [done|].
  split; [| split; [apply load_documents_consistent|]].
  - unfold Fs.read_text, Fs.write_text. simpl.
    rewrite lookup_insert_eq. simpl. by rewrite universal_newlines_idemp.
  - intros Hplain. rewrite get_document_written by done.
    unfold get_document_version. rewrite Hread.
    apply universal_newlines_idemp.
Qed.

(** The session goes on: [a] is deleted, its two snapshots stay. *)
Definition s_deleted : state :=
  (delete_document two_seconds_later "a" true s_new).2.

Definition a_minute_later : datetime := mkDatetime 2024 3 15 14 31 22.

Lemma restore_version_uncached_witness :
  let r := restore_version a_minute_later "a" "20240315_143023" s_deleted in
  Dict.get "a" (document_cache s_deleted) = None
  /\ versions_dir s_deleted !! version_file "a" "20240315_143023"
     = Some (mkFile "hello world" a_second_later)
  /\ versions_dir r.2 = versions_dir s_deleted
  /\ documents_dir r.2
     = <[doc_file "a" := mkFile "hello world" a_minute_later]>
         (documents_dir s_deleted)
  /\ get_document "a" r.2 = "hello world".
Proof.
  assert (Dict.get "a" (document_cache s_deleted) = None) as Hd by reflexivity.
  assert (versions_dir s_deleted !! version_file "a" "20240315_143023"
          = Some (mkFile "hello world" a_second_later)) as Hv by reflexivity.
  destruct (restore_version_uncached s_deleted a_minute_later "a"
              "20240315_143023" _ Hd Hv) as (_ & Hsame & Hdocs & _ & _ & Hget).
  split; [exact Hd|]. split; [exact Hv|]. split; [exact Hsame|].
  split; [exact Hdocs|].
  exact (Hget plain_id_a).
Defined.

(** ** Creating a document *)

(** Identifiers in the words of the specification: letters, digits,
    underscore and hyphen, at least one of them. *)
Definition letter (c : ascii) : bool := Py.between 97 122 c || Py.between 65 90 c.
Definition decimal_digit (c : ascii) : bool := Py.between 48 57 c.
Definition identifier_char (c : ascii) : bool :=
  letter c || decimal_digit c || Ascii.eqb c "_" || Ascii.eqb c "-".

Fixpoint all_chars (p : ascii -> bool) (s : string) : bool :=
  match s with
  | EmptyString => true
  | String c s' => p c && all_chars p s'
  end.

Definition is_identifier (d : string) : bool :=
  negb (String.eqb d "") && all_chars identifier_char d.

Lemma identifier_char_id_char (c : ascii) : identifier_char c = Re.id_char c.
Proof. reflexivity. Qed.

Lemma id_tail_all (s : string) : all_chars identifier_char s = true -> Re.id_tail s = true.
Proof.
  induction s as [|c s IH]; [done|]. cbn [all_chars Re.id_tail].
  intros [Hc Hs]%andb_prop. rewrite <- identifier_char_id_char, Hc. by apply IH.
Qed.

(** The check of [create_document] accepts every identifier. *)
Lemma identifier_accepted (d : string) :
  is_identifier d = true -> String.eqb d "" = false /\ Re.match_doc_id d = true.
Proof.
  unfold is_identifier. intros [Hne Hall]%andb_prop.
  apply negb_true_iff in Hne. split; [done|].
  destruct d as [|c d]; [done|]. cbn [all_chars] in Hall.
  apply andb_prop in Hall as [Hc Hd]. cbn [Re.match_doc_id].
  by rewrite <- identifier_char_id_char, Hc, id_tail_all.
Qed.

Lemma identifier_plain (d : string) : is_identifier d = true -> plain_id d.
Proof.
  unfold is_identifier. intros [Hne Hall]%andb_prop. split.
  - intros ->. discriminate.
  - intros ->. discriminate.
Qed.

Lemma save_version_documents_dir (s : state) (now : datetime) (d : string) :
  documents_dir (_save_version now d s) = documents_dir s.
Proof. unfold _save_version. by destruct (Dict.get d (document_cache s)). Qed.

(** C4, as amended: for an identifier [d] made of letters, digits,
    underscores and hyphens and any content [c], when [d] has no file yet or
    [overwrite] is set, [create_document(d, c, overwrite)] succeeds and
    [get_document(d)] then returns [c] as text mode reads it back ([c]
    itself when it has no carriage return). *)
Theorem create_document_then_get (s : state) (now : datetime) (d c : string)
    (overwrite : bool) :
  is_identifier d = true ->
  Fs.exists_ (doc_file d) (documents_dir s) = false \/ overwrite = true ->
  let r := create_document now d c overwrite s in
  r.1 = Return ("Successfully created document '" +:+ d +:+ "' ("
                +:+ Py.str_of_nat (String.length c) +:+ " characters)")
  /\ get_document d r.2 = Py.universal_newlines c
  /\ (no_cr c = true -> get_document d r.2 = c)
  /\ consistent r.2.
Proof.
  intros Hid Hnew r. subst r. unfold create_document.
  destruct (identifier_accepted d Hid) as [-> ->]. cbn [negb orb].
  replace (Fs.exists_ (doc_file d) (documents_dir s) && negb overwrite) with false
    by (destruct Hnew as [-> | ->]; [done | by rewrite andb_false_r]).
  set (s1 := if Fs.exists_ (doc_file d) (documents_dir s) && overwrite
             then _save_version now d s else s).
  cbn [fst snd]. split; [done|].
  assert (get_document d
            (load_documents
               (with_documents_dir
                  (Fs.write_text now (doc_file d) c (documents_dir s1)) s1))
          = Py.universal_newlines c) as Hget
    by (apply get_document_written, identifier_plain, Hid).
  split; [done|]. split; [| apply load_documents_consistent].
  intros Hc. rewrite Hget. by apply universal_newlines_no_cr.
Qed.

Lemma create_document_then_get_witness :
  is_identifier "a" = true
  /\ (Fs.exists_ (doc_file "a") (documents_dir fresh) = false \/ false = true)
  /\ get_document "a" s_hello = "hello world".
Proof.
  assert (is_identifier "a" = true) as Hid by reflexivity.
  assert (Fs.exists_ (doc_file "a") (documents_dir fresh) = false \/ false = true)
    as Hnew by (left; reflexivity).
  destruct (create_document_then_get fresh half_past "a" "hello world" false
              Hid Hnew) as (_ & _ & Hget & _).
  split; [exact Hid|]. split; [exact Hnew|]. exact (Hget eq_refl).
Defined.

(** C4 fails as stated: [a] exists with "hello world", and
    [create_document("a", "new")] is refused (overwrite is off by default),
    so that reading [a] does not yield "new". *)
Lemma create_document_existing :
  let r := create_document a_second_later "a" "new" false s_hello in
  is_identifier "a" = true
  /\ r.1 = Return "Error: Document 'a' already exists. Use overwrite=True to replace it."
  /\ get_document "a" r.2 = "hello world"
  /\ get_document "a" r.2 <> "new".
Proof.
  assert (get_document "a"
            (create_document a_second_later "a" "new" false s_hello).2
          = "hello world") as Hget by (vm_compute; reflexivity).
  split; [reflexivity|]. split; [vm_compute; reflexivity|].
  split; [exact Hget|]. cbv zeta. rewrite Hget. discriminate.
Qed.

(** Reading back is in text mode: a carriage return that was written comes
    back as a newline. *)
Example create_document_carriage_return :
  get_document "b"
    (create_document half_past "b" (String Py.cr "x") false fresh).2
  = String Py.nl "x".
Proof. reflexivity. Qed.

(** ** Listing versions *)

(** The session goes on from [s_new]: a second document, [a_b], is created
    and updated once, which leaves one snapshot of [a_b] in the archive
    next to the one of [a]. *)
Definition s_two_documents : state :=
  (update_document a_minute_later "a_b" "final"
     (create_document two_seconds_later "a_b" "draft" false s_new).2).2.

(** C6 does not hold on the code: [list_versions("a")] also lists the
    snapshot of the other document [a_b], as a version [b_20240315_143122]
    of [a], above the one snapshot that [a] has. *)
Theorem list_versions_foreign_snapshot :
  dom (versions_dir s_two_documents)
  = {[ "a_20240315_143023.md"; "a_b_20240315_143122.md" ]}
  /\ list_versions "a" s_two_documents
     = Py.join (String Py.nl "")
         [ "Versions of 'a':";
           "========================================";
           String Py.nl "  Version: b_20240315_143122";
           "    Date: b_20240315_143122";
           "    Size: 5 bytes";
           String Py.nl "  Version: 20240315_143023";
           "    Date: 2024-03-15 14:30:23";
           "    Size: 11 bytes" ].
Proof. split; [vm_compute; reflexivity | reflexivity]. Qed.

(** The same listing has a second defect: every occurrence of [doc_id_] is
    cut out of the file name, not only the prefix, so that the snapshot
    [20240315_143023] of a document named [5] is listed under an identifier
    that names no snapshot. *)
Example list_versions_mangled_identifier :
  let s := (update_document a_second_later "5" "new"
              (create_document half_past "5" "old" false fresh).2).2 in
  dom (versions_dir s) = {[ "5_20240315_143023.md" ]}
  /\ list_versions "5" s
     = Py.join (String Py.nl "")
         [ "Versions of '5':";
           "========================================";
           String Py.nl "  Version: 2024031143023";
           "    Date: 2024031143023";
           "    Size: 3 bytes" ].
Proof. split; [vm_compute; reflexivity | reflexivity]. Qed.

(** ** Tags *)

(** How often [tag] is on one list, on the whole index, and on the entries
    of the documents other than [d]. *)
Definition tag_count (tag : string) (tags : list string) : nat :=
  count_occ string_dec tags tag.

Definition tag_total (tag : string) (idx : tag_index) : nat :=
  list_sum (map (tag_count tag) (Dict.values idx)).

Fixpoint tag_others (d tag : string) (idx : tag_index) : nat :=
  match idx with
  | [] => 0
  | (k, tags) :: idx' =>
      (if String.eqb k d then 0 else tag_count tag tags) + tag_others d tag idx'
  end.

(** The tag index is a dictionary of duplicate-free lists. *)
Definition tags_wf (idx : tag_index) : Prop :=
  NoDup (Dict.keys idx) /\ Forall (fun e => NoDup e.2) idx.

Lemma tag_in_In (tag : string) (tags : list string) :
  tag_in tag tags = true <-> In tag tags.
Proof.
  unfold tag_in. rewrite existsb_exists. split.
  - intros (x & Hx & ->%String.eqb_eq). done.
  - intros H. exists tag. by rewrite String.eqb_refl.
Qed.

Lemma tag_in_count (tag : string) (tags : list string) :
  tag_in tag tags = false <-> tag_count tag tags = 0.
Proof.
  unfold tag_count. rewrite <- count_occ_not_In, <- tag_in_In.
  by destruct (tag_in tag tags).
Qed.

Lemma get_count_tags (tag : string) (tags : list string) (acc : Dict.t nat) :
  Dict.get tag (fold_left count_tag tags acc)
  = match tag_count tag tags with
    | 0 => Dict.get tag acc
    | S n => Some (default 0 (Dict.get tag acc) + S n)
    end.
Proof.
  revert acc. induction tags as [|x tags IH]; intros acc; [done|].
  cbn [fold_left]. rewrite IH. unfold count_tag, tag_count. cbn [count_occ].
  destruct (string_dec x tag) as [->|Hne].
  - rewrite get_set_eq. cbn [default].
    destruct (count_occ string_dec tags tag); unfold Datatypes.id; f_equal; lia.
  - by rewrite get_set_ne by done.
Qed.

Lemma get_tag_counts_fold (tag : string) (lists : list (list string))
    (acc : Dict.t nat) :
  Dict.get tag
    (fold_left (fun counts doc_tags => fold_left count_tag doc_tags counts) lists acc)
  = match list_sum (map (tag_count tag) lists) with
    | 0 => Dict.get tag acc
    | S n => Some (default 0 (Dict.get tag acc) + S n)
    end.
Proof.
  revert acc. induction lists as [|l lists IH]; intros acc; [done|].
  cbn [fold_left]. rewrite IH, get_count_tags.
  change (list_sum (map (tag_count tag) (l :: lists)))
    with (tag_count tag l + list_sum (map (tag_count tag) lists)).
  destruct (tag_count tag l) as [|n], (list_sum (map (tag_count tag) lists)) as [|m];
    cbn [default from_option plus]; unfold Datatypes.id; try done; f_equal; lia.
Qed.

(** [list_tags] counts, for each tag, the entries of the index that carry
    it. *)
Lemma get_tag_counts (tag : string) (idx : tag_index) :
  Dict.get tag (tag_counts idx)
  = match tag_total tag idx with 0 => None | S n => Some (S n) end.
Proof.
  unfold tag_counts, tag_total. rewrite get_tag_counts_fold.
  by destruct (list_sum _).
Qed.

Lemma tag_others_absent (d tag : string) (idx : tag_index) :
  d ∉ Dict.keys idx -> tag_others d tag idx = tag_total tag idx.
Proof.
  intros Hd. induction idx as [|[k l] idx IH]; [done|].
  apply not_elem_of_cons in Hd as [Hk Hd]. simpl in Hk.
  cbn [tag_others]. destruct (String.eqb_spec k d); [congruence|].
  rewrite IH by done. reflexivity.
Qed.

(** The entries of a tag split into those of [d] and those of the others. *)
Lemma tag_total_split (d tag : string) (idx : tag_index) :
  NoDup (Dict.keys idx) ->
  tag_total tag idx = tag_count tag (tags_at d idx) + tag_others d tag idx.
Proof.
  induction idx as [|[k l] idx IH]; [done|].
  intros [Hk Hnd]%NoDup_cons. unfold tags_at. cbn [Dict.get tag_others].
  change (tag_total tag ((k, l) :: idx)) with (tag_count tag l + tag_total tag idx).
  destruct (String.eqb_spec d k) as [->|Hne].
  - rewrite String.eqb_refl, (tag_others_absent k tag idx) by exact Hk.
    cbn [default from_option]. unfold Datatypes.id. lia.
  - destruct (String.eqb_spec k d); [congruence|].
    fold (tags_at d idx). rewrite (IH Hnd). lia.
Qed.

Lemma elem_of_keys_set {V : Type} (k k' : string) (v : V) (d : Dict.t V) :
  k' ∈ Dict.keys (Dict.set k v d) -> k' = k \/ k' ∈ Dict.keys d.
Proof.
  induction d as [|[k0 v0] d IH]; cbn [Dict.set Dict.keys map fst].
  - intros ->%list_elem_of_singleton. by left.
  - destruct (String.eqb_spec k k0) as [->|Hne]; cbn [map fst].
    + intros [-> | H]%elem_of_cons; [by left | right; by right].
    + intros [-> | H]%elem_of_cons; [right; by left |].
      destruct (IH H) as [-> | H']; [by left | right; by right].
Qed.

Lemma keys_set {V : Type} (k : string) (v : V) (d : Dict.t V) :
  NoDup (Dict.keys d) -> NoDup (Dict.keys (Dict.set k v d)).
Proof.
  induction d as [|[k0 v0] d IH]; cbn [Dict.set Dict.keys map fst].
  - intros _. apply NoDup_singleton.
  - intros [Hk0 Hnd]%NoDup_cons.
    destruct (String.eqb_spec k k0) as [->|Hne]; cbn [map fst].
    + by apply NoDup_cons.
    + apply NoDup_cons. split; [| by apply IH].
      intros [-> | H]%elem_of_keys_set; done.
Qed.

Lemma tag_others_set (d tag : string) (l : list string) (idx : tag_index) :
  tag_others d tag (Dict.set d l idx) = tag_others d tag idx.
Proof.
  induction idx as [|[k l0] idx IH]; cbn [Dict.set tag_others].
  - by rewrite String.eqb_refl.
  - destruct (String.eqb_spec d k) as [->|Hne]; cbn [tag_others].
    + by rewrite String.eqb_refl.
    + by rewrite IH.
Qed.

Lemma tags_at_set (d : string) (l : list string) (idx : tag_index) :
  tags_at d (Dict.set d l idx) = l.
Proof. unfold tags_at. by rewrite get_set_eq. Qed.

Lemma set_set {V : Type} (k : string) (v v' : V) (d : Dict.t V) :
  Dict.set k v (Dict.set k v' d) = Dict.set k v d.
Proof.
  induction d as [|[k0 v0] d IH]; simpl.
  - by rewrite String.eqb_refl.
  - destruct (String.eqb_spec k k0) as [->|Hne]; simpl.
    + by rewrite String.eqb_refl.
    + destruct (String.eqb_spec k k0); [done | by rewrite IH].
Qed.

(** What [add_tag] does to the index, for a cached document and a tag
    that is not empty once normalized. *)
Lemma add_tag_index (s : state) (d t : string) :
  Dict.mem d (document_cache s) = true ->
  Py.strip (Py.lower t) <> "" ->
  let tag := Py.strip (Py.lower t) in
  let l := tags_at d (tags_cache s) in
  document_cache (add_tag d t s).2 = document_cache s
  /\ tags_cache (add_tag d t s).2
     = if tag_in tag l then tags_cache s else Dict.set d (l ++ [tag]) (tags_cache s).
Proof.
  intros Hd Htag tag l. unfold add_tag. rewrite Hd. cbn [negb].
  fold tag. destruct tag as [|c tag'] eqn:Etag; [done|]. rewrite <- Etag. clear Etag.
  destruct (Dict.mem d (tags_cache s)) eqn:Hm; cbn [negb].
  - fold l. destruct (tag_in tag l); simpl; done.
  - cbn [tags_cache with_tags_cache]. rewrite tags_at_set.
    assert (l = []) as Hl.
    { subst l. unfold tags_at. by rewrite (proj1 (mem_false _ _) Hm). }
    rewrite Hl. cbn [tag_in existsb app]. simpl. by rewrite set_set.
Qed.

Lemma tags_wf_at (d : string) (idx : tag_index) :
  tags_wf idx -> NoDup (tags_at d idx).
Proof.
  intros [_ Hall]. unfold tags_at.
  destruct (Dict.get d idx) as [l|] eqn:Hl; [| apply NoDup_nil_2].
  apply get_elem_of in Hl. rewrite Forall_forall in Hall. apply (Hall _ Hl).
Qed.

(** C7, as amended: for a cached document [d] and two tags that normalize
    to the same non-empty tag, on a tag index without duplicates,
    [add_tag(d, t1)] and then [add_tag(d, t2)] leave exactly one entry of
    that tag on [d], and [list_tags] reports for it one plus the number of
    other documents that carry it, which is 1 when no other document does. *)
Theorem add_tag_idempotent (s : state) (d t1 t2 tag : string) :
  Dict.mem d (document_cache s) = true ->
  Py.strip (Py.lower t1) = tag ->
  Py.strip (Py.lower t2) = tag ->
  tag <> "" ->
  tags_wf (tags_cache s) ->
  let s2 := (add_tag d t2 (add_tag d t1 s).2).2 in
  let n := 1 + tag_others d tag (tags_cache s) in
  tag_count tag (tags_at d (tags_cache s2)) = 1
  /\ Dict.get tag (tag_counts (tags_cache s2)) = Some n
  /\ exists lines,
       list_tags s2 = Py.join (String Py.nl "") lines
       /\ "  " +:+ tag +:+ ": " +:+ Py.str_of_nat n +:+ " document(s)" ∈ lines.
Proof.
  intros Hd Ht1 Ht2 Htag Hwf s2 n.
  destruct (add_tag_index s d t1 Hd) as [Hc1 Hi1]; [by rewrite Ht1|].
  rewrite Ht1 in Hi1. set (l := tags_at d (tags_cache s)) in *.
  set (s1 := (add_tag d t1 s).2) in *.
  assert (NoDup l) as Hl by by apply tags_wf_at.
  (* the index after the first call *)
  assert (tag_count tag (tags_at d (tags_cache s1)) = 1
          /\ NoDup (Dict.keys (tags_cache s1))
          /\ tag_others d tag (tags_cache s1) = tag_others d tag (tags_cache s))
    as (Hone & Hkeys & Hothers).
  { rewrite Hi1. destruct (tag_in tag l) eqn:Hin.
    - split; [| split; [apply Hwf | done]].
      apply tag_in_In in Hin. fold l. unfold tag_count.
      apply NoDup_ListNoDup in Hl.
      exact (proj1 (NoDup_count_occ' string_dec l) Hl tag Hin).
    - split; [| split; [by apply keys_set, Hwf | apply tag_others_set]].
      rewrite tags_at_set. unfold tag_count. rewrite count_occ_app.
      apply tag_in_count in Hin. unfold tag_count in Hin. rewrite Hin. simpl.
      by destruct (string_dec tag tag). }
  (* the second call finds the tag *)
  assert (tags_cache s2 = tags_cache s1) as Hsame.
  { destruct (add_tag_index s1 d t2) as [_ Hi2]; [by rewrite Hc1 | by rewrite Ht2 |].
    subst s2. rewrite Hi2, Ht2.
    replace (tag_in tag (tags_at d (tags_cache s1))) with true; [done|].
    symmetry.
    destruct (tag_in tag (tags_at d (tags_cache s1))) eqn:Hin; [done|].
    apply tag_in_count in Hin. congruence. }
  rewrite Hsame.
  assert (Dict.get tag (tag_counts (tags_cache s1)) = Some n) as Hget.
  { rewrite get_tag_counts, (tag_total_split d) by done.
    rewrite Hone, Hothers. done. }
  split; [done|]. split; [done|].
  unfold list_tags. rewrite Hsame.
  destruct (tag_counts (tags_cache s1)) as [|item counts] eqn:Hcounts; [done|].
  eexists. split; [reflexivity|].
  apply elem_of_app. right.
  apply (list_elem_of_fmap_2 tag_line _ (tag, n)).
  rewrite merge_sort_Permutation. by apply get_elem_of.
Qed.

Definition s_tagged_twice : state :=
  (add_tag "a" " draft " (add_tag "a" "Draft" s_hello).2).2.

Lemma add_tag_idempotent_witness :
  Dict.mem "a" (document_cache s_hello) = true
  /\ Py.strip (Py.lower "Draft") = "draft"
  /\ Py.strip (Py.lower " draft ") = "draft"
  /\ "draft" <> ""
  /\ tags_wf (tags_cache s_hello)
  /\ tag_count "draft" (tags_at "a" (tags_cache s_tagged_twice)) = 1
  /\ Dict.get "draft" (tag_counts (tags_cache s_tagged_twice)) = Some 1.
Proof.
  assert (Dict.mem "a" (document_cache s_hello) = true) as Hd by reflexivity.
  assert (Py.strip (Py.lower "Draft") = "draft") as Ht1 by reflexivity.
  assert (Py.strip (Py.lower " draft ") = "draft") as Ht2 by reflexivity.
  assert ("draft" <> "") as Htag by discriminate.
  assert (tags_wf (tags_cache s_hello)) as Hwf
    by (split; [apply NoDup_nil_2 | apply Forall_nil_2]).
  destruct (add_tag_idempotent s_hello "a" "Draft" " draft " "draft"
              Hd Ht1 Ht2 Htag Hwf) as (Hone & Hcount & _).
  split; [exact Hd|]. split; [exact Ht1|]. split; [exact Ht2|].
  split; [exact Htag|]. split; [exact Hwf|]. split; [exact Hone | exact Hcount].
Defined.

(** The scenario of the specification: one document, the tag added twice. *)
Example list_tags_draft_once :
  list_tags s_tagged_twice
  = Py.join (String Py.nl "")
      [ "All Tags:"; "========================================";
        "  draft: 1 document(s)" ].
Proof. reflexivity. Qed.

(** C7 fails as stated: when another cached document, [b], carries the tag
    already, [list_tags] reports 2 for it after the two calls on [a]. *)
Lemma add_tag_shared_tag :
  let s := (add_tag "b" "draft"
              (create_document a_second_later "b" "notes" false s_hello).2).2 in
  let s2 := (add_tag "a" " draft " (add_tag "a" "Draft" s).2).2 in
  Dict.mem "a" (document_cache s) = true
  /\ Py.strip (Py.lower "Draft") = Py.strip (Py.lower " draft ")
  /\ tags_cache s2 = [("b", ["draft"]); ("a", ["draft"])]
  /\ Dict.get "draft" (tag_counts (tags_cache s2)) = Some 2
  /\ list_tags s2
     = Py.join (String Py.nl "")
         [ "All Tags:"; "========================================";
           "  draft: 2 document(s)" ].
Proof. repeat split; reflexivity. Qed.

(** ** Search *)

Lemma take_drop (n : nat) (s : string) : Py.take n s +:+ Py.drop n s = s.
Proof.
  revert n. induction s as [|c s IH]; intros [|n]; try done.
  cbn [Py.take Py.drop]. by rewrite append_cons, IH.
Qed.

Lemma length_take (n : nat) (s : string) :
  n <= String.length s -> String.length (Py.take n s) = n.
Proof.
  revert n. induction s as [|c s IH]; intros [|n] Hn; simpl in *; try done; [lia|].
  rewrite IH; [done | lia].
Qed.

Lemma length_drop (n : nat) (s : string) :
  String.length (Py.drop n s) = String.length s - n.
Proof. revert n. induction s as [|c s IH]; intros [|n]; simpl; try done. Qed.

Lemma take_all (n : nat) (s : string) : String.length s <= n -> Py.take n s = s.
Proof.
  revert n. induction s as [|c s IH]; intros [|n] Hn; simpl in *; try done; [lia|].
  rewrite IH; [done | lia].
Qed.

Lemma drop_all (n : nat) (s : string) : String.length s <= n -> Py.drop n s = "".
Proof.
  revert n. induction s as [|c s IH]; intros [|n] Hn; simpl in *; try done; [lia|].
  apply IH. lia.
Qed.

Lemma drop_append_le (n : nat) (a b : string) :
  n <= String.length a -> Py.drop n (a +:+ b) = Py.drop n a +:+ b.
Proof.
  revert n. induction a as [|c a IH]; intros [|n] Hn; try done.
  - simpl in Hn. lia.
  - rewrite append_cons. cbn [Py.drop]. apply IH. simpl in Hn. lia.
Qed.

Lemma take_append_add (n : nat) (a b : string) :
  Py.take (String.length a + n) (a +:+ b) = a +:+ Py.take n b.
Proof.
  induction a as [|c a IH]; [done|].
  rewrite !append_cons. cbn [String.length plus Py.take]. by rewrite IH.
Qed.

Lemma take_min_length (n : nat) (s : string) :
  Py.take (Nat.min (String.length s) n) s = Py.take n s.
Proof.
  destruct (Nat.le_gt_cases (String.length s) n) as [H|H].
  - rewrite Nat.min_l by done. by rewrite !take_all.
  - by rewrite Nat.min_r by lia.
Qed.

(** The text with every newline turned into a space. *)
Fixpoint flatten_newlines (s : string) : string :=
  match s with
  | EmptyString => EmptyString
  | String c s' =>
      String (if Ascii.eqb c Py.nl then " "%char else c) (flatten_newlines s')
  end.

Lemma replace_newlines (s : string) :
  Py.replace (String Py.nl "") " " s = flatten_newlines s.
Proof.
  unfold Py.replace. induction s as [|c s IH]; [done|].
  cbn [Py.replace_go flatten_newlines Py.startswith Py.startswith_by String.length].
  rewrite Ascii.eqb_sym. destruct (Ascii.eqb c Py.nl); cbn [andb Nat.sub].
  - by rewrite IH.
  - by rewrite IH.
Qed.

(** The excerpt in the words of the specification: up to 50 characters
    before the match, the match, up to 50 characters after it, newlines
    flattened, and an ellipsis on each side where text was cut off. *)
Definition last_chars (n : nat) (s : string) : string :=
  Py.drop (String.length s - n) s.

Definition excerpt_spec (before matched after : string) : string :=
  (if 50 <? String.length before then "..." else "")
  +:+ flatten_newlines (last_chars 50 before +:+ matched +:+ Py.take 50 after)
  +:+ (if 50 <? String.length after then "..." else "").

Lemma excerpt_of_spec (query before matched after : string) :
  String.length matched = String.length query ->
  excerpt_of query (before +:+ matched +:+ after) (String.length before)
  = excerpt_spec before matched after.
Proof.
  intros Hlen. unfold excerpt_of, excerpt_spec, Py.slice.
  rewrite replace_newlines, Nat.max_0_l, !length_append, <- Hlen.
  set (L := String.length before). set (M := String.length matched).
  set (A := String.length after).
  rewrite drop_append_le by (subst L; lia). fold (last_chars 50 before).
  assert (String.length (last_chars 50 before) = L - (L - 50)) as HX
    by (unfold last_chars; apply length_drop).
  replace (Nat.min (L + (M + A)) (L + M + 50) - (L - 50))
    with (String.length (last_chars 50 before) + (M + Nat.min A 50)) by lia.
  rewrite take_append_add. subst M. rewrite take_append_add.
  subst A. rewrite take_min_length.
  fold (last_chars 50 before).
  assert ((0 <? L - 50) = (50 <? L)) as ->.
  { destruct (Nat.ltb_spec 50 L), (Nat.ltb_spec 0 (L - 50)); try done; lia. }
  set (len := L + (String.length matched + String.length after)).
  assert ((Nat.min len (L + String.length matched + 50) <? len)
          = (50 <? String.length after)) as ->.
  { destruct (Nat.ltb_spec 50 (String.length after)),
      (Nat.ltb_spec (Nat.min len (L + String.length matched + 50)) len);
      try done; lia. }
  destruct (50 <? L), (50 <? String.length after);
    rewrite ?append_nil_l, ?append_nil_r, ?append_assoc; done.
Qed.

(** The first offset [finditer] yields is the first one at which the query
    matches. *)
Lemma finditer_go_first (ic : bool) (q s : string) (pos p : nat) (rest : list nat) :
  Re.finditer_go ic q 0 pos s = p :: rest ->
  exists j, p = pos + j
            /\ Re.match_here ic q (Py.drop j s) = true
            /\ forall k, k < j -> Re.match_here ic q (Py.drop k s) = false.
Proof.
  revert pos. induction s as [|c s IH]; intros pos; cbn [Re.finditer_go].
  - destruct q as [|? ?]; [| done]. intros [= <- <-]. exists 0.
    split; [lia|]. split; [done | lia].
  - destruct (Re.match_here ic q (String c s)) eqn:Hm.
    + intros [= <- <-]. exists 0. split; [lia|]. split; [done | lia].
    + intros (j & -> & Hj & Hfirst)%IH. exists (S j).
      split; [lia|]. split; [done|].
      intros [|k] Hk; [done|]. apply Hfirst. lia.
Qed.

(** A match of the literal covers as many characters as the query has. *)
Lemma match_here_split (ic : bool) (q s : string) :
  Re.match_here ic q s = true ->
  exists matched after, s = matched +:+ after
                        /\ String.length matched = String.length q.
Proof.
  unfold Re.match_here. revert s. induction q as [|a q IH]; intros s.
  - intros _. by exists "", s.
  - destruct s as [|b s]; [done|]. cbn [Py.startswith_by].
    intros [_ (matched & after & -> & Hlen)%IH]%andb_prop.
    exists (String b matched), after. split; [done|]. simpl. by rewrite Hlen.
Qed.

Lemma strip_nonempty (q : string) : Py.strip q <> "" -> q <> "".
Proof. by intros H ->. Qed.

Lemma search_one_results (query : string) (cs : bool) (s : state)
    (e : string * document) (r : search_result) :
  e ∈ Dict.items (document_cache s) ->
  r ∈ search_one query cs e ->
  r ∈ search_results query cs s.
Proof.
  intros He Hr. unfold search_results. apply list_elem_of_In, in_flat_map.
  exists e. split; by apply list_elem_of_In.
Qed.

(** C8, as amended: for every query that is not empty or made of white
    space only and every cached document with at least one match,
    [search_documents] reports the document with its number of matches and
    the excerpt of the first match: the content splits into what comes
    before the first match, the match and what comes after it, and the
    excerpt is the last 50 characters before, the match and the first 50
    characters after, with newlines turned into spaces and an ellipsis on
    each side exactly where the content goes on beyond the window. *)
Theorem search_documents_excerpt (s : state) (query : string)
    (case_sensitive : bool) (d : string) (doc : document) :
  Py.strip query <> "" ->
  (d, doc) ∈ Dict.items (document_cache s) ->
  Re.finditer (negb case_sensitive) query (content doc) <> [] ->
  exists before matched after,
    content doc = before +:+ matched +:+ after
    /\ String.length matched = String.length query
    /\ Re.match_here (negb case_sensitive) query (matched +:+ after) = true
    /\ (forall k, k < String.length before ->
          Re.match_here (negb case_sensitive) query (Py.drop k (content doc)) = false)
    /\ let r := {| r_doc_id := d;
                   r_filename := filename doc;
                   r_match_count :=
                     length (Re.finditer (negb case_sensitive) query (content doc));
                   r_excerpt := excerpt_spec before matched after |} in
       r ∈ search_results query case_sensitive s
       /\ exists lines,
            search_documents query case_sensitive s
            = Py.join (String Py.nl "") lines
            /\ forall line, line ∈ result_lines r -> line ∈ lines.
Proof.
  intros Hq Hd Hm.
  destruct (Re.finditer (negb case_sensitive) query (content doc))
    as [|p rest] eqn:Hfind; [done|]. clear Hm.
  destruct (finditer_go_first _ _ _ _ _ _ Hfind) as (j & Hp & Hj & Hfirst).
  simpl in Hp. subst p.
  destruct (match_here_split _ _ _ Hj) as (matched & after & Hsplit & Hlen).
  assert (j < String.length (content doc)) as Hlt.
  { destruct (Nat.le_gt_cases (String.length (content doc)) j) as [Hge|]; [|done].
    rewrite drop_all in Hj by done.
    destruct query; [by apply strip_nonempty in Hq | done]. }
  set (before := Py.take j (content doc)).
  assert (String.length before = j) as Hbefore by (apply length_take; lia).
  assert (content doc = before +:+ matched +:+ after) as Hcontent.
  { rewrite <- Hsplit. symmetry. apply take_drop. }
  exists before, matched, after.
  split; [done|]. split; [done|]. split; [by rewrite <- Hsplit|].
  split; [by rewrite Hbefore|].
  set (r := mkResult _ _ _ _).
  assert (r ∈ search_results query case_sensitive s) as Hr.
  { apply (search_one_results _ _ _ (d, doc)); [done|].
    unfold search_one. cbn [fst snd]. rewrite Hfind.
    apply list_elem_of_singleton. subst r. f_equal.
    rewrite <- Hbefore, Hcontent. symmetry. by apply excerpt_of_spec. }
  split; [done|].
  unfold search_documents.
  destruct (Py.strip query) as [|c q']; [done|].
  destruct (search_results query case_sensitive s) as [|r0 results] eqn:Hres.
  { by apply elem_of_nil in Hr. }
  eexists. split; [reflexivity|].
  intros line Hline. apply elem_of_app. right.
  apply list_elem_of_In, in_flat_map. exists r. split; by apply list_elem_of_In.
Qed.

Lemma search_documents_excerpt_witness :
  Py.strip "WORLD" <> ""
  /\ ("a", hello_doc) ∈ Dict.items (document_cache s_hello)
  /\ Re.finditer (negb false) "WORLD" (content hello_doc) <> []
  /\ exists before matched after,
       content hello_doc = before +:+ matched +:+ after
       /\ String.length matched = String.length "WORLD"
       /\ Re.match_here (negb false) "WORLD" (matched +:+ after) = true
       /\ (forall k, k < String.length before ->
             Re.match_here (negb false) "WORLD" (Py.drop k (content hello_doc))
             = false)
       /\ let r := {| r_doc_id := "a";
                      r_filename := filename hello_doc;
                      r_match_count :=
                        length (Re.finditer (negb false) "WORLD" (content hello_doc));
                      r_excerpt := excerpt_spec before matched after |} in
          r ∈ search_results "WORLD" false s_hello
          /\ exists lines,
               search_documents "WORLD" false s_hello
               = Py.join (String Py.nl "") lines
               /\ forall line, line ∈ result_lines r -> line ∈ lines.
Proof.
  assert (Py.strip "WORLD" <> "") as Hq by discriminate.
  assert (("a", hello_doc) ∈ Dict.items (document_cache s_hello)) as Hd.
  { replace (document_cache s_hello) with [("a", hello_doc)] by reflexivity.
    apply list_elem_of_singleton. reflexivity. }
  assert (Re.finditer (negb false) "WORLD" (content hello_doc) <> []) as Hm
    by discriminate.
  split; [exact Hq|]. split; [exact Hd|]. split; [exact Hm|].
  exact (search_documents_excerpt s_hello "WORLD" false "a" hello_doc Hq Hd Hm).
Defined.

(** The output for a match in the middle of a longer text: 50 characters
    on each side, the newline flattened, an ellipsis on both sides. *)
Example search_documents_window :
  let text :=
    "0123456789012345678901234567890123456789012345678901234567890123456789"
    +:+ String Py.nl "needle "
    +:+ "0123456789012345678901234567890123456789012345678901234567890123456789" in
  search_documents "Needle" false
    (create_document half_past "long" text false fresh).2
  = Py.join (String Py.nl "")
      [ "Found 1 document(s) matching 'Needle':";
        "==================================================";
        String Py.nl "Document: long";
        "  Matches: 1";
        "  Excerpt: ...1234567890123456789012345678901234567890123456789 needle 0123456789012345678901234567890123456789012345678..." ].
Proof. vm_compute. reflexivity. Qed.

(** C8 fails as stated: the query of one space is not empty and matches
    in the cached "hello world", yet the call reports nothing but the
    validation error. *)
Lemma search_documents_blank_query :
  " " <> ""
  /\ ("a", hello_doc) ∈ Dict.items (document_cache s_hello)
  /\ Re.finditer (negb false) " " (content hello_doc) = [5]
  /\ search_documents " " false s_hello = "Error: Please provide a search query.".
Proof.
  split; [discriminate|]. split; [| split; reflexivity].
  replace (document_cache s_hello) with [("a", hello_doc)] by reflexivity.
  apply list_elem_of_singleton. reflexivity.
Qed.

(** * Further properties of the document assistant *)

(** ** What a call does to the state

    The state after each mutating tool, as one equation per path of the
    source. *)

Definition not_found (doc_id : string) : string :=
  "Error: Document '" +:+ doc_id +:+ "' not found.".

(** The files of the documents directory after [data] was written to the
    file of [doc_id], and the state after the reload that follows. *)
Definition written (now : datetime) (doc_id data : string) (s : state) : state :=
  load_documents
    (with_documents_dir
       (Fs.write_text now (doc_file doc_id) data (documents_dir s)) s).

Lemma update_document_cached (s : state) (now : datetime) (d c2 : string)
    (doc : document) :
  Dict.get d (document_cache s) = Some doc ->
  update_document now d c2 s
  = (Return ("Updated document '" +:+ d +:+ "'. Previous version saved."),
     written now d c2 (_save_version now d s)).
Proof.
  intros Hd. unfold update_document.
  by rewrite (proj2 (mem_get d (document_cache s))) by (rewrite Hd; eauto).
Qed.

Lemma restore_version_found (s : state) (now : datetime) (d v : string) (fv : file) :
  versions_dir s !! version_file d v = Some fv ->
  versions_dir s !! snapshot_name now d = None
  \/ Dict.get d (document_cache s) = None ->
  restore_version now d v s
  = (Return ("Restored document '" +:+ d +:+ "' to version '" +:+ v +:+ "'"),
     written now d (Py.universal_newlines (text fv))
       (if Dict.mem d (document_cache s) then _save_version now d s else s)).
Proof.
  intros Hv Hfresh. unfold restore_version.
  rewrite (exists_true _ _ _ Hv). cbn [negb].
  assert (Fs.read_text (version_file d v)
            (versions_dir (if Dict.mem d (document_cache s)
                           then _save_version now d s else s))
          = Some (Py.universal_newlines (text fv))) as ->; [| done].
  unfold Fs.read_text.
  destruct (Dict.get d (document_cache s)) as [doc|] eqn:Hd.
  - rewrite (proj2 (mem_get d (document_cache s))) by (rewrite Hd; eauto).
    rewrite (save_version_cached _ _ _ _ Hd). cbn [versions_dir with_versions_dir].
    destruct Hfresh as [Hfresh | ?]; [| done].
    rewrite lookup_insert_ne by congruence. by rewrite Hv.
  - rewrite (proj2 (mem_false d (document_cache s))) by done. by rewrite Hv.
Qed.

Lemma delete_document_cached (s : state) (now : datetime) (d : string)
    (doc : document) (f : file) :
  Dict.get d (document_cache s) = Some doc ->
  documents_dir s !! doc_file d = Some f ->
  delete_document now d true s
  = (Return ("Successfully deleted document '" +:+ d +:+ "'"),
     let s1 := _save_version now d s in
     let s2 := with_documents_dir (delete (doc_file d) (documents_dir s1)) s1 in
     load_documents
       (if Dict.mem d (tags_cache s2)
        then save_tags (with_tags_cache (Dict.del d (tags_cache s2)) s2)
        else s2)).
Proof.
  intros Hd Hf. unfold delete_document.
  rewrite (proj2 (mem_get d (document_cache s))) by (rewrite Hd; eauto).
  cbn [negb]. unfold Fs.unlink.
  rewrite save_version_documents_dir, (exists_true _ _ _ Hf). done.
Qed.

Lemma written_versions_dir (now : datetime) (d data : string) (s : state) :
  versions_dir (written now d data s) = versions_dir s.
Proof. reflexivity. Qed.

Lemma written_get (now : datetime) (d data : string) (s : state) :
  plain_id d -> get_document d (written now d data s) = Py.universal_newlines data.
Proof. apply get_document_written. Qed.

(** ** The cache after a reload *)

Lemma fold_load_sound (l : list (string * file)) (acc : Dict.t document)
    (P : string -> document -> Prop) :
  (forall k doc, Dict.get k acc = Some doc -> P k doc) ->
  (forall name f, (name, f) ∈ l -> P (Fs.stem name) (document_of name f)) ->
  forall k doc, Dict.get k (fold_left load_entry l acc) = Some doc -> P k doc.
Proof.
  revert acc. induction l as [|[name f] l IH]; intros acc Hacc Hl k doc; [apply Hacc|].
  cbn [fold_left]. apply IH.
  - intros k' doc'. unfold load_entry. cbn [fst snd].
    destruct (String.eqb_spec k' (Fs.stem name)) as [->|Hne].
    + rewrite get_set_eq. intros [= <-]. apply Hl. left.
    + rewrite get_set_ne by done. apply Hacc.
  - intros name' f' Hin. apply Hl. by right.
Qed.

Lemma fold_load_keys (l : list (string * file)) (acc : Dict.t document) :
  NoDup (Dict.keys acc) -> NoDup (Dict.keys (fold_left load_entry l acc)).
Proof.
  revert acc. induction l as [|e l IH]; intros acc Hacc; [done|].
  cbn [fold_left]. apply IH. by apply keys_set.
Qed.

(** X1: after [load_documents], every entry of the cache was built from a
    file of the documents directory whose name ends in [.md] and whose stem
    is the key; its content is the text of that file as text mode reads it,
    so it holds no carriage return, and its size is the byte size of the
    file.  No key occurs twice. *)
Theorem load_documents_sound (s : state) (d : string) (doc : document) :
  Dict.get d (document_cache (load_documents s)) = Some doc ->
  NoDup (Dict.keys (document_cache (load_documents s)))
  /\ exists name f,
       documents_dir s !! name = Some f
       /\ (exists stem, name = stem +:+ ".md")
       /\ Fs.stem name = d
       /\ doc = document_of name f
       /\ content doc = Py.universal_newlines (text f)
       /\ no_cr (content doc) = true
       /\ size doc = Py.utf8_len (text f).
Proof.
  intros Hd. split.
  { unfold load_documents. cbn [document_cache with_document_cache].
    apply fold_load_keys. apply NoDup_nil_2. }
  revert d doc Hd. unfold load_documents. cbn [document_cache with_document_cache].
  apply fold_load_sound; [done|].
  intros name f [Hmd Hin%elem_of_map_to_list]%list_elem_of_filter.
  exists name, f. cbn [fst] in Hmd.
  split; [done|]. split; [by apply fnmatch_md|].
  split; [done|]. split; [done|]. split; [done|].
  split; [apply universal_newlines_sound | done].
Qed.

Lemma load_documents_sound_witness :
  Dict.get "a" (document_cache (load_documents s_hello)) = Some hello_doc
  /\ exists name f,
       documents_dir s_hello !! name = Some f
       /\ (exists stem, name = stem +:+ ".md")
       /\ Fs.stem name = "a"
       /\ hello_doc = document_of name f
       /\ content hello_doc = Py.universal_newlines (text f)
       /\ no_cr (content hello_doc) = true
       /\ size hello_doc = Py.utf8_len (text f).
Proof.
  assert (Dict.get "a" (document_cache (load_documents s_hello)) = Some hello_doc)
    as Hd by reflexivity.
  split; [exact Hd|].
  exact (proj2 (load_documents_sound s_hello "a" hello_doc Hd)).
Defined.

(** X2: after [load_documents], [get_document(d)] returns, for an
    identifier other than the empty one and the bare [.md], the text that
    reading [d.md] gives, and the not-found error when there is no such
    file. *)
Theorem get_document_after_reload (s : state) (d : string) :
  plain_id d ->
  get_document d (load_documents s)
  = default (not_found d) (Fs.read_text (doc_file d) (documents_dir s)).
Proof.
  intros Hplain. unfold get_document, Fs.read_text.
  rewrite load_documents_get by done.
  by destruct (documents_dir s !! doc_file d).
Qed.

Lemma get_document_after_reload_witness :
  plain_id "a"
  /\ get_document "a" (load_documents s_new) = "new"
  /\ plain_id "b"
  /\ get_document "b" (load_documents s_new) = "Error: Document 'b' not found.".
Proof.
  assert (plain_id "b") as Hb by (split; discriminate).
  split; [exact plain_id_a|].
  split; [exact (get_document_after_reload s_new "a" plain_id_a)|].
  split; [exact Hb | exact (get_document_after_reload s_new "b" Hb)].
Defined.

(** The two file names whose stem is [.md]: which of them the cache serves
    under [.md] is decided by the order of the scan. *)
Example stem_collision : Fs.stem ".md" = Fs.stem ".md.md".
Proof. reflexivity. Qed.

(** ** The cache matches the disk *)

Lemma consistent_frame (s s' : state) :
  documents_dir s' = documents_dir s ->
  document_cache s' = document_cache s ->
  consistent s -> consistent s'.
Proof.
  unfold consistent, load_documents. cbn [document_cache with_document_cache].
  by intros -> ->.
Qed.

Lemma save_version_document_cache (s : state) (now : datetime) (d : string) :
  document_cache (_save_version now d s) = document_cache s.
Proof. unfold _save_version. by destruct (Dict.get d (document_cache s)). Qed.

(** X3: every tool keeps the cache equal to what a scan of the documents
    directory yields: a call that writes or removes a document file reloads
    the cache afterwards, and every other path, the refusals and the
    [FileNotFoundError] of [delete_document] included, leaves both the
    directory and the cache alone. *)
Theorem consistent_preserved (s : state) (now : datetime) (d data v tag : string)
    (flag : bool) :
  consistent s ->
  consistent (create_document now d data flag s).2
  /\ consistent (update_document now d data s).2
  /\ consistent (delete_document now d flag s).2
  /\ consistent (restore_version now d v s).2
  /\ consistent (add_tag d tag s).2
  /\ consistent (remove_tag d tag s).2.
Proof.
  intros Hs. repeat split.
  - unfold create_document.
    destruct (String.eqb d "" || negb (Re.match_doc_id d)); [done|].
    destruct (Fs.exists_ (doc_file d) (documents_dir s) && negb flag); [done|].
    apply load_documents_consistent.
  - unfold update_document.
    destruct (Dict.mem d (document_cache s)); [apply load_documents_consistent | done].
  - unfold delete_document.
    destruct (Dict.mem d (document_cache s)); [| done]. cbn [negb].
    destruct flag; [| done]. cbn [negb].
    destruct (Fs.unlink _ _); [apply load_documents_consistent |].
    cbn [snd]. eapply consistent_frame; [| | exact Hs].
    + apply save_version_documents_dir.
    + apply save_version_document_cache.
  - unfold restore_version.
    destruct (Fs.exists_ _ _); [| done]. cbn [negb].
    destruct (Fs.read_text _ _); [apply load_documents_consistent |].
    cbn [snd]. destruct (Dict.mem d (document_cache s)); [| done].
    eapply consistent_frame; [| | exact Hs].
    + apply save_version_documents_dir.
    + apply save_version_document_cache.
  - unfold add_tag.
    destruct (Dict.mem d (document_cache s)); [| done]. cbn [negb].
    destruct (Py.strip (Py.lower tag)) as [|c t]; [done|].
    destruct (negb (Dict.mem d (tags_cache s)));
      destruct (tag_in _ _); cbn [snd];
      by eapply consistent_frame; [| | exact Hs].
  - unfold remove_tag.
    destruct (Dict.mem d (document_cache s)); [| done]. cbn [negb].
    destruct (negb (Dict.mem d (tags_cache s)) || _); [done|].
    cbn [snd]. by eapply consistent_frame; [| | exact Hs].
Qed.

Lemma consistent_preserved_witness :
  consistent s_new
  /\ consistent (delete_document two_seconds_later "a" true s_new).2
  /\ consistent (add_tag "a" "draft" s_new).2.
Proof.
  assert (consistent s_new) as Hs by apply load_documents_consistent.
  destruct (consistent_preserved s_new two_seconds_later "a" "" "" "draft" true Hs)
    as (_ & _ & Hdel & _ & Hadd & _).
  split; [exact Hs|]. split; [exact Hdel | exact Hadd].
Defined.

(** ** Calls on a document that is not cached *)

(** X4: on an identifier absent from the cache, [update_document],
    [delete_document] (confirmed or not) and [add_tag] return the not-found
    error and change nothing, and [get_document] returns the same error
    text. *)
Theorem uncached_not_found (s : state) (now : datetime) (d data tag : string)
    (confirm : bool) :
  Dict.get d (document_cache s) = None ->
  update_document now d data s = (Return (not_found d), s)
  /\ delete_document now d confirm s = (Return (not_found d), s)
  /\ add_tag d tag s = (Return (not_found d), s)
  /\ get_document d s = not_found d.
Proof.
  intros Hd. apply mem_false in Hd as Hm.
  unfold update_document, delete_document, add_tag, get_document.
  by rewrite Hm, Hd.
Qed.

Lemma uncached_not_found_witness :
  Dict.get "b" (document_cache s_new) = None
  /\ update_document two_seconds_later "b" "text" s_new
     = (Return "Error: Document 'b' not found.", s_new)
  /\ delete_document two_seconds_later "b" true s_new
     = (Return "Error: Document 'b' not found.", s_new).
Proof.
  assert (Dict.get "b" (document_cache s_new) = None) as Hd by reflexivity.
  destruct (uncached_not_found s_new two_seconds_later "b" "text" "t" true Hd)
    as (Hu & Hdel & _).
  split; [exact Hd|]. split; [exact Hu | exact Hdel].
Defined.

(** ** Which identifiers [create_document] accepts *)

(** What [re.match(r'^[a-zA-Z0-9_-]+$', doc_id)] lets through: an
    identifier, or an identifier followed by one newline ([$] also matches
    just before a newline that ends the string). *)
Definition accepted_id (d : string) : Prop :=
  exists w, is_identifier w = true /\ (d = w \/ d = w +:+ String Py.nl "").

Lemma id_tail_spec (s : string) :
  Re.id_tail s = true ->
  exists w, all_chars identifier_char w = true
            /\ (s = w \/ s = w +:+ String Py.nl "").
Proof.
  induction s as [|c s IH]; [by exists ""; split; [| left]|].
  cbn [Re.id_tail]. destruct (Re.id_char c) eqn:Hc.
  - intros (w & Hw & Hs)%IH. exists (String c w). split.
    + cbn [all_chars]. by rewrite identifier_char_id_char, Hc.
    + destruct Hs as [-> | ->]; [by left | by right].
  - intros [->%Ascii.eqb_eq Hs]%andb_prop. destruct s; [| done].
    exists "". split; [done | by right].
Qed.

Lemma id_tail_newline (w : string) :
  all_chars identifier_char w = true -> Re.id_tail (w +:+ String Py.nl "") = true.
Proof.
  induction w as [|c w IH]; [done|]. cbn [all_chars].
  intros [Hc Hw]%andb_prop. rewrite append_cons. cbn [Re.id_tail].
  rewrite <- identifier_char_id_char, Hc. by apply IH.
Qed.

Lemma match_doc_id_accepted (d : string) :
  Re.match_doc_id d = true <-> accepted_id d.
Proof.
  split.
  - destruct d as [|c d]; [done|]. cbn [Re.match_doc_id].
    intros [Hc (w & Hw & Hd)%id_tail_spec]%andb_prop.
    exists (String c w). split.
    + unfold is_identifier. cbn [String.eqb negb andb all_chars].
      by rewrite identifier_char_id_char, Hc.
    + destruct Hd as [-> | ->]; [by left | by right].
  - intros (w & Hw & [-> | ->]).
    + by apply identifier_accepted.
    + unfold is_identifier in Hw. apply andb_prop in Hw as [Hne Hall].
      destruct w as [|c w]; [done|]. cbn [all_chars] in Hall.
      apply andb_prop in Hall as [Hc Hw]. rewrite append_cons.
      cbn [Re.match_doc_id]. rewrite <- identifier_char_id_char, Hc.
      by apply id_tail_newline.
Qed.

Definition invalid_doc_id : string :=
  "Error: doc_id must contain only letters, numbers, underscores, and hyphens.".

(** X5: [create_document] returns the validation error, and changes
    nothing, exactly when the identifier is neither made of letters,
    digits, underscores and hyphens only, nor such an identifier followed
    by one newline; an identifier with a trailing newline passes the
    check. *)
Theorem create_document_validation (s : state) (now : datetime) (d c : string)
    (overwrite : bool) :
  (~ accepted_id d ->
   create_document now d c overwrite s = (Return invalid_doc_id, s))
  /\ (accepted_id d ->
      (create_document now d c overwrite s).1 <> Return invalid_doc_id).
Proof.
  split.
  - intros Hd. unfold create_document.
    destruct (Re.match_doc_id d) eqn:Hm.
    + by apply match_doc_id_accepted in Hm.
    + by rewrite orb_true_r.
  - intros Hd. unfold create_document.
    assert (String.eqb d "" = false) as ->.
    { destruct Hd as (w & Hw & [-> | ->]); destruct w; done. }
    rewrite (proj2 (match_doc_id_accepted d) Hd). cbn [negb orb].
    destruct (Fs.exists_ _ _ && negb overwrite); cbn [fst]; intros [= H].
Qed.

Lemma create_document_validation_witness :
  ~ accepted_id "a b"
  /\ create_document half_past "a b" "text" false fresh = (Return invalid_doc_id, fresh)
  /\ accepted_id ("a" +:+ String Py.nl "")
  /\ (create_document half_past ("a" +:+ String Py.nl "") "text" false fresh).1
     <> Return invalid_doc_id.
Proof.
  assert (~ accepted_id "a b") as Hbad.
  { intros Hacc%match_doc_id_accepted. discriminate. }
  assert (accepted_id ("a" +:+ String Py.nl "")) as Hnl.
  { exists "a". split; [reflexivity | by right]. }
  destruct (create_document_validation fresh half_past "a b" "text" false)
    as [Hrej _].
  destruct (create_document_validation fresh half_past ("a" +:+ String Py.nl "")
              "text" false) as [_ Hacc].
  split; [exact Hbad|]. split; [exact (Hrej Hbad)|].
  split; [exact Hnl | exact (Hacc Hnl)].
Defined.

(** The document that the newline-terminated identifier creates. *)
Example create_document_trailing_newline :
  let d := "a" +:+ String Py.nl "" in
  let r := create_document half_past d "text" false fresh in
  dom (documents_dir r.2) = {[ d +:+ ".md" ]} /\ get_document d r.2 = "text".
Proof. split; [vm_compute; reflexivity | reflexivity]. Qed.

(** ** Overwriting through [create_document] *)

Lemma create_document_accepted (s : state) (now : datetime) (d c : string)
    (overwrite : bool) :
  is_identifier d = true ->
  Fs.exists_ (doc_file d) (documents_dir s) = false \/ overwrite = true ->
  create_document now d c overwrite s
  = (Return ("Successfully created document '" +:+ d +:+ "' ("
             +:+ Py.str_of_nat (String.length c) +:+ " characters)"),
     written now d c
       (if Fs.exists_ (doc_file d) (documents_dir s) && overwrite
        then _save_version now d s else s)).
Proof.
  intros Hid Hnew. unfold create_document.
  destruct (identifier_accepted d Hid) as [-> ->]. cbn [negb orb].
  replace (Fs.exists_ (doc_file d) (documents_dir s) && negb overwrite) with false
    by (destruct Hnew as [-> | ->]; [done | by rewrite andb_false_r]).
  done.
Qed.

(** X6: [create_document(d, c, overwrite=True)] on a cached document whose
    file exists snapshots the content it replaces: when no snapshot of [d]
    carries the time stamp of the current second yet, the archive gains
    exactly the snapshot of the old content, and [get_document(d)] then
    returns [c] as text mode reads it back. *)
Theorem create_document_overwrite (s : state) (now : datetime) (d c : string)
    (doc : document) (f : file) :
  is_identifier d = true ->
  Dict.get d (document_cache s) = Some doc ->
  documents_dir s !! doc_file d = Some f ->
  versions_dir s !! snapshot_name now d = None ->
  let r := create_document now d c true s in
  r.1 = Return ("Successfully created document '" +:+ d +:+ "' ("
                +:+ Py.str_of_nat (String.length c) +:+ " characters)")
  /\ versions_dir r.2
     = <[snapshot_name now d := mkFile (content doc) now]> (versions_dir s)
  /\ base.size (versions_dir r.2) = S (base.size (versions_dir s))
  /\ get_document d r.2 = Py.universal_newlines c.
Proof.
  intros Hid Hd Hf Hfresh r. subst r.
  rewrite create_document_accepted by (done || by right).
  rewrite (exists_true _ _ _ Hf). cbn [andb fst snd].
  rewrite written_versions_dir, (save_version_cached _ _ _ _ Hd).
  cbn [versions_dir with_versions_dir].
  split; [done|]. split; [done|]. split; [by apply map_size_insert_None|].
  apply written_get, identifier_plain, Hid.
Qed.

Lemma create_document_overwrite_witness :
  let r := create_document a_second_later "a" "rewritten" true s_hello in
  is_identifier "a" = true
  /\ Dict.get "a" (document_cache s_hello) = Some hello_doc
  /\ documents_dir s_hello !! doc_file "a" = Some (mkFile "hello world" half_past)
  /\ versions_dir s_hello !! snapshot_name a_second_later "a" = None
  /\ versions_dir r.2
     = <[snapshot_name a_second_later "a" := mkFile "hello world" a_second_later]>
         (versions_dir s_hello)
  /\ get_document "a" r.2 = "rewritten".
Proof.
  assert (is_identifier "a" = true) as Hid by reflexivity.
  assert (Dict.get "a" (document_cache s_hello) = Some hello_doc) as Hd
    by reflexivity.
  assert (documents_dir s_hello !! doc_file "a"
          = Some (mkFile "hello world" half_past)) as Hf by reflexivity.
  assert (versions_dir s_hello !! snapshot_name a_second_later "a" = None)
    as Hfresh by reflexivity.
  destruct (create_document_overwrite s_hello a_second_later "a" "rewritten"
              hello_doc _ Hid Hd Hf Hfresh) as (_ & Hv & _ & Hget).
  split; [exact Hid|]. split; [exact Hd|]. split; [exact Hf|].
  split; [exact Hfresh|]. split; [exact Hv | exact Hget].
Defined.

(** ** The archive only grows *)

(** The archive [after] a call at [now] on [d]: no snapshot has gone, and
    only the snapshot named by [d] and the current second can have been
    written. *)
Definition archive_kept (now : datetime) (d : string) (before after : state) : Prop :=
  (forall name, is_Some (versions_dir before !! name) ->
                is_Some (versions_dir after !! name))
  /\ (forall name, name <> snapshot_name now d ->
                   versions_dir after !! name = versions_dir before !! name).

Lemma archive_kept_refl (now : datetime) (d : string) (s s' : state) :
  versions_dir s' = versions_dir s -> archive_kept now d s s'.
Proof. unfold archive_kept. intros ->. by split. Qed.

Lemma archive_kept_save (now : datetime) (d : string) (s s' : state) :
  versions_dir s' = versions_dir (_save_version now d s) -> archive_kept now d s s'.
Proof.
  unfold archive_kept. intros ->. unfold _save_version, snapshot_name.
  destruct (Dict.get d (document_cache s)) as [doc|]; [| by split].
  cbn [versions_dir with_versions_dir]. unfold Fs.write_text. split.
  - intros name Hname.
    destruct (decide (version_file d (Datetime.strftime_version now) = name))
      as [<-|Hne]; [rewrite lookup_insert_eq; eauto | by rewrite lookup_insert_ne].
  - intros name Hne. by rewrite lookup_insert_ne.
Qed.

(** X7: for an identifier [d] and a version [v] without a path separator,
    no tool removes a snapshot, and a call of [create_document],
    [update_document], [delete_document] or [restore_version] on [d] leaves
    every snapshot untouched except the one named by [d] and the current
    second; the tag tools do not touch the archive. *)
Theorem archive_only_grows (s : state) (now : datetime) (d data v tag : string)
    (flag : bool) :
  has_separator d = false ->
  has_separator v = false ->
  archive_kept now d s (create_document now d data flag s).2
  /\ archive_kept now d s (update_document now d data s).2
  /\ archive_kept now d s (delete_document now d flag s).2
  /\ archive_kept now d s (restore_version now d v s).2
  /\ versions_dir (add_tag d tag s).2 = versions_dir s
  /\ versions_dir (remove_tag d tag s).2 = versions_dir s.
Proof.
  intros _ _. split_and!.
  - unfold create_document.
    destruct (String.eqb d "" || negb (Re.match_doc_id d));
      [by apply archive_kept_refl|].
    destruct (Fs.exists_ (doc_file d) (documents_dir s) && negb flag);
      [by apply archive_kept_refl|].
    destruct (Fs.exists_ (doc_file d) (documents_dir s) && flag);
      [by apply archive_kept_save | by apply archive_kept_refl].
  - unfold update_document.
    destruct (Dict.mem d (document_cache s));
      [by apply archive_kept_save | by apply archive_kept_refl].
  - unfold delete_document.
    destruct (Dict.mem d (document_cache s)); [| by apply archive_kept_refl].
    destruct flag; [| by apply archive_kept_refl]. cbn [negb].
    destruct (Fs.unlink _ _); [| by apply archive_kept_save].
    apply archive_kept_save. cbn [snd].
    by destruct (Dict.mem d _).
  - unfold restore_version.
    destruct (Fs.exists_ _ _); [| by apply archive_kept_refl]. cbn [negb].
    destruct (Dict.mem d (document_cache s)).
    + destruct (Fs.read_text _ _); by apply archive_kept_save.
    + destruct (Fs.read_text _ _); by apply archive_kept_refl.
  - unfold add_tag.
    destruct (Dict.mem d (document_cache s)); [| done]. cbn [negb].
    destruct (Py.strip (Py.lower tag)); [done|].
    by destruct (negb (Dict.mem d (tags_cache s))), (tag_in _ _).
  - unfold remove_tag.
    destruct (Dict.mem d (document_cache s)); [| done]. cbn [negb].
    by destruct (negb (Dict.mem d (tags_cache s)) || _).
Qed.

Lemma archive_only_grows_witness :
  let r := restore_version two_seconds_later "a" "20240315_143023" s_new in
  has_separator "a" = false
  /\ has_separator "20240315_143023" = false
  /\ archive_kept two_seconds_later "a" s_new r.2
  /\ versions_dir (add_tag "a" "draft" s_new).2 = versions_dir s_new.
Proof.
  assert (has_separator "a" = false) as Hd by reflexivity.
  assert (has_separator "20240315_143023" = false) as Hv by reflexivity.
  destruct (archive_only_grows s_new two_seconds_later "a" "" "20240315_143023"
              "draft" false Hd Hv) as (_ & _ & _ & Hrestore & Htag & _).
  split; [exact Hd|]. split; [exact Hv|]. split; [exact Hrestore | exact Htag].
Defined.

(** ** Undoing an update or a deletion *)

Lemma written_cache (now : datetime) (d data : string) (s : state) :
  plain_id d ->
  Dict.get d (document_cache (written now d data s))
  = Some (document_of (doc_file d) (mkFile data now)).
Proof.
  intros Hd. unfold written. rewrite load_documents_get by done.
  unfold Fs.write_text. cbn [documents_dir with_documents_dir].
  by rewrite lookup_insert_eq.
Qed.

(** X8: an update can be undone.  When [update_document(d, c2)] has taken
    its snapshot under a fresh name, [restore_version] of that version in
    another second (again under a fresh name) succeeds, [get_document(d)]
    returns the content [d] had before the update, and the version taken
    by the restore holds [c2]; contents are as text mode reads them. *)
Theorem update_then_restore (s : state) (t1 t2 : datetime) (d c2 : string)
    (doc : document) :
  plain_id d ->
  Dict.get d (document_cache s) = Some doc ->
  versions_dir s !! snapshot_name t1 d = None ->
  versions_dir s !! snapshot_name t2 d = None ->
  snapshot_name t1 d <> snapshot_name t2 d ->
  let s1 := (update_document t1 d c2 s).2 in
  let r := restore_version t2 d (Datetime.strftime_version t1) s1 in
  r.1 = Return ("Restored document '" +:+ d +:+ "' to version '"
                +:+ Datetime.strftime_version t1 +:+ "'")
  /\ get_document d r.2 = Py.universal_newlines (content doc)
  /\ get_document_version d (Datetime.strftime_version t2) r.2
     = Py.universal_newlines c2.
Proof.
  intros Hplain Hd Hf1 Hf2 Hne s1 r. subst r s1.
  rewrite (update_document_cached _ _ _ _ _ Hd). cbn [snd].
  set (s1 := written t1 d c2 (_save_version t1 d s)).
  assert (versions_dir s1
          = <[snapshot_name t1 d := mkFile (content doc) t1]> (versions_dir s))
    as Hv1.
  { subst s1. by rewrite written_versions_dir, (save_version_cached _ _ _ _ Hd). }
  assert (Dict.get d (document_cache s1)
          = Some (document_of (doc_file d) (mkFile c2 t1))) as Hd1
    by by apply written_cache.
  rewrite (restore_version_found s1 t2 d _ (mkFile (content doc) t1)).
  - cbn [fst snd]. split; [done|].
    split; [rewrite written_get by done; apply universal_newlines_idemp|].
    unfold get_document_version, Fs.read_text.
    rewrite written_versions_dir.
    rewrite (proj2 (mem_get d (document_cache s1))) by (rewrite Hd1; eauto).
    rewrite (save_version_cached _ _ _ _ Hd1).
    cbn [versions_dir with_versions_dir].
    fold (snapshot_name t2 d). rewrite lookup_insert_eq. simpl.
    apply universal_newlines_idemp.
  - rewrite Hv1. apply lookup_insert_eq.
  - left. rewrite Hv1. by rewrite lookup_insert_ne.
Qed.

Lemma update_then_restore_witness :
  let r := restore_version two_seconds_later "a" "20240315_143023" s_new in
  plain_id "a"
  /\ Dict.get "a" (document_cache s_hello) = Some hello_doc
  /\ versions_dir s_hello !! snapshot_name a_second_later "a" = None
  /\ versions_dir s_hello !! snapshot_name two_seconds_later "a" = None
  /\ snapshot_name a_second_later "a" <> snapshot_name two_seconds_later "a"
  /\ get_document "a" r.2 = "hello world"
  /\ get_document_version "a" "20240315_143024" r.2 = "new".
Proof.
  assert (Dict.get "a" (document_cache s_hello) = Some hello_doc) as Hd
    by reflexivity.
  assert (versions_dir s_hello !! snapshot_name a_second_later "a" = None) as Hf1
    by reflexivity.
  assert (versions_dir s_hello !! snapshot_name two_seconds_later "a" = None)
    as Hf2 by reflexivity.
  assert (snapshot_name a_second_later "a" <> snapshot_name two_seconds_later "a")
    as Hne by (vm_compute; discriminate).
  destruct (update_then_restore s_hello a_second_later two_seconds_later "a" "new"
              hello_doc plain_id_a Hd Hf1 Hf2 Hne) as (_ & Hget & Hver).
  split; [exact plain_id_a|]. split; [exact Hd|]. split; [exact Hf1|].
  split; [exact Hf2|]. split; [exact Hne|]. split; [exact Hget | exact Hver].
Defined.

(** X9: a confirmed deletion can be undone.  After
    [delete_document(d, confirm=True)] has taken its snapshot under a fresh
    name, [get_document(d)] is the not-found error, and [restore_version]
    of that snapshot, at any later time, brings the document back with the
    content it had, without adding a snapshot. *)
Theorem delete_then_restore (s : state) (t1 t2 : datetime) (d : string)
    (doc : document) (f : file) :
  plain_id d ->
  Dict.get d (document_cache s) = Some doc ->
  documents_dir s !! doc_file d = Some f ->
  versions_dir s !! snapshot_name t1 d = None ->
  let s1 := (delete_document t1 d true s).2 in
  let r := restore_version t2 d (Datetime.strftime_version t1) s1 in
  get_document d s1 = not_found d
  /\ r.1 = Return ("Restored document '" +:+ d +:+ "' to version '"
                   +:+ Datetime.strftime_version t1 +:+ "'")
  /\ get_document d r.2 = Py.universal_newlines (content doc)
  /\ versions_dir r.2 = versions_dir s1.
Proof.
  intros Hplain Hd Hf Hfresh s1 r. subst r s1.
  rewrite (delete_document_cached _ _ _ _ _ Hd Hf). cbn [snd].
  set (s1 := load_documents _).
  assert (versions_dir s1
          = <[snapshot_name t1 d := mkFile (content doc) t1]> (versions_dir s))
    as Hv1.
  { subst s1. rewrite (save_version_cached _ _ _ _ Hd). cbn.
    by destruct (Dict.mem d (tags_cache s)). }
  assert (Dict.get d (document_cache s1) = None) as Hd1.
  { subst s1. rewrite load_documents_get by done.
    rewrite (save_version_cached _ _ _ _ Hd). cbn.
    destruct (Dict.mem d (tags_cache s)); cbn; by rewrite lookup_delete_eq. }
  split; [unfold get_document; by rewrite Hd1|].
  rewrite (restore_version_found s1 t2 d _ (mkFile (content doc) t1)).
  - cbn [fst snd]. rewrite (proj2 (mem_false d (document_cache s1))) by done.
    split; [done|].
    split; [rewrite written_get by done; apply universal_newlines_idemp | done].
  - rewrite Hv1. apply lookup_insert_eq.
  - by right.
Qed.

Lemma delete_then_restore_witness :
  let s1 := (delete_document two_seconds_later "a" true s_new).2 in
  let r := restore_version a_minute_later "a" "20240315_143024" s1 in
  plain_id "a"
  /\ Dict.get "a" (document_cache s_new)
     = Some (document_of "a.md" (mkFile "new" a_second_later))
  /\ documents_dir s_new !! doc_file "a" = Some (mkFile "new" a_second_later)
  /\ versions_dir s_new !! snapshot_name two_seconds_later "a" = None
  /\ get_document "a" s1 = "Error: Document 'a' not found."
  /\ get_document "a" r.2 = "new".
Proof.
  assert (Dict.get "a" (document_cache s_new)
          = Some (document_of "a.md" (mkFile "new" a_second_later))) as Hd
    by reflexivity.
  assert (documents_dir s_new !! doc_file "a" = Some (mkFile "new" a_second_later))
    as Hf by reflexivity.
  assert (versions_dir s_new !! snapshot_name two_seconds_later "a" = None)
    as Hfresh by reflexivity.
  destruct (delete_then_restore s_new two_seconds_later a_minute_later "a" _ _
              plain_id_a Hd Hf Hfresh) as (Hgone & _ & Hget & _).
  split; [exact plain_id_a|]. split; [exact Hd|]. split; [exact Hf|].
  split; [exact Hfresh|]. split; [exact Hgone | exact Hget].
Defined.

(** ** The other documents *)

Lemma append_inj_r (a b c : string) : a +:+ c = b +:+ c -> a = b.
Proof.
  revert b. induction a as [|x a IH]; intros [|y b] H; [done | | |].
  - apply (f_equal String.length) in H.
    rewrite append_nil_l, append_cons in H. simpl in H.
    rewrite length_append in H. lia.
  - apply (f_equal String.length) in H.
    rewrite append_nil_l, append_cons in H. simpl in H.
    rewrite length_append in H. lia.
  - rewrite !append_cons in H. injection H as -> H. f_equal. by apply IH.
Qed.

Lemma doc_file_inj (d d' : string) : doc_file d = doc_file d' -> d = d'.
Proof. apply append_inj_r. Qed.

(** The entry of a plain identifier after a reload depends on its own file
    only. *)
Lemma load_frame (s s' : state) (d : string) :
  plain_id d ->
  documents_dir s' !! doc_file d = documents_dir s !! doc_file d ->
  Dict.get d (document_cache (load_documents s'))
  = Dict.get d (document_cache (load_documents s)).
Proof. intros Hd H. by rewrite !load_documents_get, H. Qed.

Lemma written_frame (now : datetime) (d d' data : string) (s0 s : state) :
  plain_id d' -> d' <> d ->
  documents_dir s = documents_dir s0 ->
  consistent s0 ->
  Dict.get d' (document_cache (written now d data s))
  = Dict.get d' (document_cache s0).
Proof.
  intros Hplain Hne Hdir Hs0. rewrite Hs0. apply load_frame; [done|].
  unfold Fs.write_text. cbn [documents_dir with_documents_dir].
  rewrite lookup_insert_ne, Hdir; [done|].
  intros H%doc_file_inj. by apply Hne.
Qed.

(** X10: a call on [d] does not touch the other documents: for [d] and [v]
    without a path separator, from a state whose cache matches the disk,
    [create_document], [update_document], [delete_document] and
    [restore_version] on [d] leave the cache entry of every other
    identifier [d'] (other than the empty one and the bare [.md]) as it
    was. *)
Theorem other_documents_untouched (s : state) (now : datetime)
    (d d' data v : string) (flag : bool) :
  has_separator d = false -> has_separator v = false ->
  plain_id d' -> d' <> d -> consistent s ->
  Dict.get d' (document_cache (create_document now d data flag s).2)
  = Dict.get d' (document_cache s)
  /\ Dict.get d' (document_cache (update_document now d data s).2)
     = Dict.get d' (document_cache s)
  /\ Dict.get d' (document_cache (delete_document now d flag s).2)
     = Dict.get d' (document_cache s)
  /\ Dict.get d' (document_cache (restore_version now d v s).2)
     = Dict.get d' (document_cache s).
Proof.
  intros _ _ Hplain Hne Hs. split_and!.
  - unfold create_document.
    destruct (String.eqb d "" || negb (Re.match_doc_id d)); [done|].
    destruct (Fs.exists_ (doc_file d) (documents_dir s) && negb flag); [done|].
    cbn [snd]. apply (written_frame now d d' data s); [done.. | | done].
    destruct (_ && _); [apply save_version_documents_dir | done].
  - unfold update_document.
    destruct (Dict.mem d (document_cache s)); [| done]. cbn [negb snd].
    apply (written_frame now d d' data s); [done.. | | done].
    apply save_version_documents_dir.
  - unfold delete_document.
    destruct (Dict.mem d (document_cache s)); [| done].
    destruct flag; [| done]. cbn [negb]. unfold Fs.unlink.
    destruct (Fs.exists_ _ _); cbn [snd];
      [| by rewrite save_version_document_cache].
    rewrite Hs. apply load_frame; [done|].
    rewrite save_version_documents_dir.
    assert (doc_file d <> doc_file d') as Hfile
      by (intros H%doc_file_inj; by apply Hne).
    destruct (Dict.mem d _); cbn; by rewrite lookup_delete_ne.
  - unfold restore_version.
    destruct (Fs.exists_ _ _); [| done]. cbn [negb].
    destruct (Fs.read_text _ _) as [c|]; cbn [snd].
    + apply (written_frame now d d' c s); [done.. | | done].
      destruct (Dict.mem d _); [apply save_version_documents_dir | done].
    + destruct (Dict.mem d _); [by rewrite save_version_document_cache | done].
Qed.

Lemma other_documents_untouched_witness :
  has_separator "a_b" = false /\ has_separator "" = false
  /\ plain_id "a" /\ "a" <> "a_b" /\ consistent s_new
  /\ Dict.get "a"
       (document_cache (create_document two_seconds_later "a_b" "draft" false s_new).2)
     = Dict.get "a" (document_cache s_new)
  /\ Dict.get "a"
       (document_cache (restore_version two_seconds_later "a_b" "" s_new).2)
     = Dict.get "a" (document_cache s_new).
Proof.
  assert (has_separator "a_b" = false) as Hd by reflexivity.
  assert (has_separator "" = false) as Hv by reflexivity.
  assert ("a" <> "a_b") as Hne by discriminate.
  assert (consistent s_new) as Hs by apply load_documents_consistent.
  destruct (other_documents_untouched s_new two_seconds_later "a_b" "a" "draft" ""
              false Hd Hv plain_id_a Hne Hs) as (Hc & _ & _ & Hr).
  split; [exact Hd|]. split; [exact Hv|].
  split; [exact plain_id_a|]. split; [exact Hne|]. split; [exact Hs|].
  split; [exact Hc | exact Hr].
Defined.

(** ** The tag index stays well formed *)

Lemma Forall_set {V : Type} (P : string * V -> Prop) (k : string) (v : V)
    (d : Dict.t V) :
  Forall P d -> P (k, v) -> Forall P (Dict.set k v d).
Proof.
  intros Hd Hkv. induction d as [|[k0 v0] d IH]; cbn [Dict.set].
  - by apply Forall_singleton.
  - apply Forall_cons in Hd as [H0 Hd].
    destruct (String.eqb k k0); apply Forall_cons; split; auto.
Qed.

Lemma del_sublist {V : Type} (k : string) (d : Dict.t V) : Dict.del k d `sublist_of` d.
Proof.
  induction d as [|[k0 v0] d IH]; cbn [Dict.del]; [done|].
  destruct (String.eqb k k0); [by apply sublist_cons | by apply sublist_skip].
Qed.

Lemma list_remove_sublist (tag : string) (tags : list string) :
  list_remove tag tags `sublist_of` tags.
Proof.
  induction tags as [|t tags IH]; cbn [list_remove]; [done|].
  destruct (String.eqb tag t); [by apply sublist_cons | by apply sublist_skip].
Qed.

Lemma tags_wf_set (d : string) (l : list string) (idx : tag_index) :
  tags_wf idx -> NoDup l -> tags_wf (Dict.set d l idx).
Proof.
  intros [Hk Hl] Hnd. split; [by apply keys_set | by apply Forall_set].
Qed.

Lemma tags_wf_del (d : string) (idx : tag_index) :
  tags_wf idx -> tags_wf (Dict.del d idx).
Proof.
  intros [Hk Hl]. split.
  - eapply sublist_NoDup; [exact Hk|]. apply fmap_sublist, del_sublist.
  - rewrite Forall_forall in Hl. apply Forall_forall. intros e He.
    apply Hl. eapply elem_of_sublist; [exact He | apply del_sublist].
Qed.

(** X11: the tag tools keep the index a dictionary of duplicate-free tag
    lists: when no document identifier occurs twice in the index and no tag
    twice on one document, the same holds after [add_tag], [remove_tag] and
    [delete_document]. *)
Theorem tags_wf_preserved (s : state) (now : datetime) (d tag : string)
    (confirm : bool) :
  tags_wf (tags_cache s) ->
  tags_wf (tags_cache (add_tag d tag s).2)
  /\ tags_wf (tags_cache (remove_tag d tag s).2)
  /\ tags_wf (tags_cache (delete_document now d confirm s).2).
Proof.
  intros Hwf. split_and!.
  - unfold add_tag.
    destruct (Dict.mem d (document_cache s)); [| done]. cbn [negb].
    destruct (Py.strip (Py.lower tag)) as [|c t] eqn:Etag; [done|].
    set (s1 := if negb (Dict.mem d (tags_cache s)) then _ else s).
    assert (tags_wf (tags_cache s1)) as Hwf1.
    { subst s1. destruct (negb (Dict.mem d (tags_cache s))); [| done].
      apply tags_wf_set; [done | apply NoDup_nil_2]. }
    destruct (tag_in (String c t) (tags_at d (tags_cache s1))) eqn:Hin; [done|].
    cbn [snd tags_cache save_tags with_tags_file with_tags_cache].
    apply tags_wf_set; [done|].
    apply NoDup_app. split; [by apply tags_wf_at|].
    split; [| apply NoDup_singleton].
    intros x Hx ->%list_elem_of_singleton.
    apply list_elem_of_In, tag_in_In in Hx. congruence.
  - unfold remove_tag.
    destruct (Dict.mem d (document_cache s)); [| done]. cbn [negb].
    destruct (negb (Dict.mem d (tags_cache s)) || _); [done|].
    cbn [snd tags_cache save_tags with_tags_file with_tags_cache].
    apply tags_wf_set; [done|].
    eapply sublist_NoDup; [by apply (tags_wf_at d) | apply list_remove_sublist].
  - unfold delete_document.
    destruct (Dict.mem d (document_cache s)); [| done].
    destruct confirm; [| done]. cbn [negb].
    assert (tags_cache (_save_version now d s) = tags_cache s) as Htags
      by (unfold _save_version; by destruct (Dict.get d (document_cache s))).
    destruct (Fs.unlink _ _); cbn [snd]; [| by rewrite Htags].
    cbn. rewrite Htags.
    destruct (Dict.mem d (tags_cache s)); cbn;
      [by apply tags_wf_del | by rewrite Htags].
Qed.

Lemma tags_wf_preserved_witness :
  tags_wf (tags_cache s_hello)
  /\ tags_wf (tags_cache (add_tag "a" "Draft" s_hello).2).
Proof.
  assert (tags_wf (tags_cache s_hello)) as Hwf
    by (split; [apply NoDup_nil_2 | apply Forall_nil_2]).
  split; [exact Hwf|].
  exact (proj1 (tags_wf_preserved s_hello half_past "a" "Draft" false Hwf)).
Defined.

(** ** The tag index is saved *)

(** The tag file holds the index of the cache: loading it again would give
    the same index. *)
Definition tags_saved (s : state) : Prop :=
  tags_cache (load_tags s) = tags_cache s.

(** X12: every tool keeps the tag file in step with the tag index: when
    loading the file gives the index of the cache before a call, it does so
    after it.  In particular the empty list that [add_tag] enters for a
    document without tags never stays unsaved. *)
Theorem tags_saved_preserved (s : state) (now : datetime) (d data v tag : string)
    (flag : bool) :
  tags_saved s ->
  tags_saved (add_tag d tag s).2
  /\ tags_saved (remove_tag d tag s).2
  /\ tags_saved (delete_document now d flag s).2
  /\ tags_saved (create_document now d data flag s).2
  /\ tags_saved (update_document now d data s).2
  /\ tags_saved (restore_version now d v s).2.
Proof.
  intros Hs.
  assert (forall s', tags_file s' = tags_file s -> tags_cache s' = tags_cache s ->
                     tags_saved s') as Hframe.
  { unfold tags_saved, load_tags in *. cbn in *. by intros s' -> ->. }
  assert (forall s', tags_saved (save_tags s')) as Hsave by done.
  assert (forall now' d', tags_file (_save_version now' d' s) = tags_file s
                          /\ tags_cache (_save_version now' d' s) = tags_cache s)
    as Hsv.
  { intros. unfold _save_version. by destruct (Dict.get d' (document_cache s)). }
  split_and!.
  - unfold add_tag.
    destruct (Dict.mem d (document_cache s)); [| done]. cbn [negb].
    destruct (Py.strip (Py.lower tag)) as [|c t]; [done|].
    destruct (Dict.mem d (tags_cache s)) eqn:Hm; cbn [negb].
    + destruct (tag_in _ _); [done | apply Hsave].
    + cbn [tags_cache with_tags_cache]. rewrite tags_at_set.
      cbn [tag_in existsb]. apply Hsave.
  - unfold remove_tag.
    destruct (Dict.mem d (document_cache s)); [| done]. cbn [negb].
    destruct (negb (Dict.mem d (tags_cache s)) || _); [done | apply Hsave].
  - unfold delete_document.
    destruct (Dict.mem d (document_cache s)); [| done].
    destruct flag; [| done]. cbn [negb].
    destruct (Fs.unlink _ _); cbn [snd]; [| apply Hframe; apply Hsv].
    destruct (Dict.mem d _); [done |]. apply Hframe; cbn; apply Hsv.
  - unfold create_document.
    destruct (String.eqb d "" || negb (Re.match_doc_id d)); [done|].
    destruct (Fs.exists_ (doc_file d) (documents_dir s) && negb flag); [done|].
    destruct (_ && flag); apply Hframe; cbn; done || apply Hsv.
  - unfold update_document.
    destruct (Dict.mem d (document_cache s)); [| done].
    apply Hframe; cbn; apply Hsv.
  - unfold restore_version.
    destruct (Fs.exists_ _ _); [| done]. cbn [negb].
    destruct (Dict.mem d (document_cache s)), (Fs.read_text _ _);
      apply Hframe; cbn; done || apply Hsv.
Qed.

Lemma tags_saved_preserved_witness :
  tags_saved s_hello
  /\ tags_saved (add_tag "a" "Draft" s_hello).2
  /\ tags_file (add_tag "a" "Draft" s_hello).2 = Some [("a", ["draft"])].
Proof.
  assert (tags_saved s_hello) as Hs by reflexivity.
  split; [exact Hs|]. split; [| reflexivity].
  exact (proj1 (tags_saved_preserved s_hello half_past "a" "" "" "Draft" false Hs)).
Defined.

(** ** Adding and removing a tag *)

Lemma list_remove_snoc (tag : string) (tags : list string) :
  tag_in tag tags = false -> list_remove tag (tags ++ [tag]) = tags.
Proof.
  induction tags as [|t tags IH]; cbn [tag_in existsb app list_remove].
  - by rewrite String.eqb_refl.
  - intros [Ht Hin]%orb_false_elim. rewrite Ht. f_equal. by apply IH.
Qed.

Lemma tag_in_snoc (tag : string) (tags : list string) :
  tag_in tag (tags ++ [tag]) = true.
Proof.
  unfold tag_in. rewrite existsb_app. cbn. by rewrite String.eqb_refl, orb_true_r.
Qed.

Lemma mem_set {V : Type} (k : string) (v : V) (d : Dict.t V) :
  Dict.mem k (Dict.set k v d) = true.
Proof. unfold Dict.mem. by rewrite get_set_eq. Qed.

(** The state after [add_tag] has appended a tag. *)
Lemma add_tag_new (s : state) (d t : string) :
  Dict.mem d (document_cache s) = true ->
  Py.strip (Py.lower t) <> "" ->
  tag_in (Py.strip (Py.lower t)) (tags_at d (tags_cache s)) = false ->
  add_tag d t s
  = (Return ("Added tag '" +:+ Py.strip (Py.lower t) +:+ "' to document '"
             +:+ d +:+ "'"),
     save_tags
       (with_tags_cache
          (Dict.set d (tags_at d (tags_cache s) ++ [Py.strip (Py.lower t)])
             (tags_cache s)) s)).
Proof.
  intros Hd Htag Hin. unfold add_tag. rewrite Hd. cbn [negb].
  remember (Py.strip (Py.lower t)) as tag eqn:Etag.
  destruct tag as [|c tag']; [done|].
  destruct (Dict.mem d (tags_cache s)) eqn:Hm; cbn [negb].
  - by rewrite Hin.
  - cbn [tags_cache with_tags_cache]. rewrite tags_at_set.
    cbn [tag_in existsb].
    assert (tags_at d (tags_cache s) = []) as ->.
    { unfold tags_at. by rewrite (proj1 (mem_false _ _) Hm). }
    unfold save_tags, with_tags_cache, with_tags_file. cbn. by rewrite set_set.
Qed.

(** X13: adding a tag and removing it again restores the tag list.  For a
    cached document [d] and a tag that is not empty once normalized and is
    not on [d] yet, [add_tag(d, t)] followed by [remove_tag(d, t)] both
    succeed and leave [d] with the tags it had, in their order; the index
    keeps an entry for [d] (empty when [d] had no tag), and the file holds
    the index. *)
Theorem add_then_remove (s : state) (d t : string) :
  Dict.mem d (document_cache s) = true ->
  Py.strip (Py.lower t) <> "" ->
  tag_in (Py.strip (Py.lower t)) (tags_at d (tags_cache s)) = false ->
  let tag := Py.strip (Py.lower t) in
  let r1 := add_tag d t s in
  let r2 := remove_tag d t r1.2 in
  r1.1 = Return ("Added tag '" +:+ tag +:+ "' to document '" +:+ d +:+ "'")
  /\ r2.1 = Return ("Removed tag '" +:+ tag +:+ "' from document '" +:+ d +:+ "'")
  /\ tags_at d (tags_cache r2.2) = tags_at d (tags_cache s)
  /\ Dict.mem d (tags_cache r2.2) = true
  /\ tags_file r2.2 = Some (tags_cache r2.2).
Proof.
  intros Hd Htag Hin tag r1 r2. subst r2 r1.
  rewrite (add_tag_new s d t Hd Htag Hin). fold tag. cbn [fst snd].
  split; [done|].
  unfold remove_tag.
  cbn [document_cache tags_cache save_tags with_tags_file with_tags_cache].
  rewrite Hd. cbn [negb]. fold tag.
  rewrite mem_set, tags_at_set, tag_in_snoc. cbn [negb orb fst snd].
  cbn [tags_cache save_tags with_tags_file with_tags_cache tags_file].
  rewrite list_remove_snoc by done. rewrite set_set.
  split; [done|]. split; [apply tags_at_set|]. split; [apply mem_set | done].
Qed.

Lemma add_then_remove_witness :
  let r := remove_tag "a" " DRAFT" (add_tag "a" " DRAFT" s_hello).2 in
  Dict.mem "a" (document_cache s_hello) = true
  /\ Py.strip (Py.lower " DRAFT") <> ""
  /\ tag_in (Py.strip (Py.lower " DRAFT")) (tags_at "a" (tags_cache s_hello)) = false
  /\ r.1 = Return "Removed tag 'draft' from document 'a'"
  /\ tags_cache r.2 = [("a", [])].
Proof.
  assert (Dict.mem "a" (document_cache s_hello) = true) as Hd by reflexivity.
  assert (Py.strip (Py.lower " DRAFT") <> "") as Htag by discriminate.
  assert (tag_in (Py.strip (Py.lower " DRAFT")) (tags_at "a" (tags_cache s_hello))
          = false) as Hin by reflexivity.
  destruct (add_then_remove s_hello "a" " DRAFT" Hd Htag Hin) as (_ & Hr & _).
  split; [exact Hd|]. split; [exact Htag|]. split; [exact Hin|].
  split; [exact Hr | reflexivity].
Defined.

(** ** What the search finds *)







Lemma elem_of_search_results (query : string) (cs : bool) (s : state)
    (r : search_result) :
  r ∈ search_results query cs s
  <-> exists e, e ∈ Dict.items (document_cache s) /\ r ∈ search_one query cs e.
Proof.
  unfold search_results. rewrite list_elem_of_In, in_flat_map.
  split; intros (e & He & Hr); exists e; split; by apply list_elem_of_In.
Qed.




(** ** What a search result holds *)

Lemma length_take_le (n : nat) (s : string) : String.length (Py.take n s) <= n.
Proof.
  revert n. induction s as [|c s IH]; intros [|n]; simpl; try lia.
  specialize (IH n). lia.
Qed.

Lemma length_flatten_newlines (s : string) :
  String.length (flatten_newlines s) = String.length s.
Proof. induction s as [|c s IH]; simpl; [done | by rewrite IH]. Qed.

Lemma length_excerpt_of (query text : string) (m_start : nat) :
  String.length (excerpt_of query text m_start) <= String.length query + 106.
Proof.
  unfold excerpt_of, Py.slice. rewrite replace_newlines, Nat.max_0_l.
  set (window := flatten_newlines _).
  assert (String.length window <= String.length query + 100) as Hw.
  { subst window. rewrite length_flatten_newlines.
    etrans; [apply length_take_le|]. lia. }
  destruct (0 <? m_start - 50), (_ <? String.length text);
    rewrite ?length_append; simpl; lia.
Qed.

(** The matches of a query that is not empty do not overlap. *)
Lemma finditer_go_spaced (ic : bool) (q s : string) (skip pos : nat) :
  q <> "" ->
  length (Re.finditer_go ic q skip pos s) * String.length q
  <= String.length s - skip.
Proof.
  intros Hq. revert skip pos.
  induction s as [|c s IH]; intros skip pos; cbn [Re.finditer_go].
  - destruct skip, q; simpl; done || lia.
  - destruct skip as [|k].
    + destruct (Re.match_here ic q (String c s)) eqn:Hm.
      * apply match_here_split in Hm as (m & after & Hs & Hlen).
        apply (f_equal String.length) in Hs. rewrite length_append in Hs.
        specialize (IH (String.length q - 1) (S pos)).
        simpl in *. lia.
      * specialize (IH 0 (S pos)). simpl. lia.
    + specialize (IH k (S pos)). simpl. lia.
Qed.

(** X15: every result of a search with a non-empty query names a cached
    document that has at least one match; its match count times the length
    of the query is at most the length of the content (the matches that are
    counted do not overlap), and its excerpt is at most 106 characters
    longer than the query. *)
Theorem search_result_bounds (s : state) (query : string) (case_sensitive : bool)
    (r : search_result) :
  query <> "" ->
  r ∈ search_results query case_sensitive s ->
  exists doc,
    (r_doc_id r, doc) ∈ Dict.items (document_cache s)
    /\ r_filename r = filename doc
    /\ 1 <= r_match_count r
    /\ r_match_count r * String.length query <= String.length (content doc)
    /\ String.length (r_excerpt r) <= String.length query + 106.
Proof.
  intros Hq ([d doc] & He & Hr)%elem_of_search_results.
  unfold search_one in Hr. cbn [fst snd] in Hr.
  pose proof (finditer_go_spaced (negb case_sensitive) query (content doc) 0 0 Hq)
    as Hspaced. fold (Re.finditer (negb case_sensitive) query (content doc)) in Hspaced.
  destruct (Re.finditer (negb case_sensitive) query (content doc)) as [|p rest];
    [by apply elem_of_nil in Hr|].
  apply list_elem_of_singleton in Hr. subst r. cbn [r_doc_id r_filename
    r_match_count r_excerpt].
  exists doc. split; [done|]. split; [done|].
  split; [simpl; lia|]. split; [lia | apply length_excerpt_of].
Qed.

Lemma search_result_bounds_witness :
  let r := {| r_doc_id := "a"; r_filename := "a.md"; r_match_count := 1;
              r_excerpt := "hello world" |} in
  "world" <> ""
  /\ r ∈ search_results "world" true
           (create_document a_second_later "b" "no match" false s_hello).2
  /\ exists doc,
       (r_doc_id r, doc)
         ∈ Dict.items
             (document_cache
                (create_document a_second_later "b" "no match" false s_hello).2)
       /\ r_filename r = filename doc
       /\ 1 <= r_match_count r
       /\ r_match_count r * String.length "world" <= String.length (content doc)
       /\ String.length (r_excerpt r) <= String.length "world" + 106.
Proof.
  intros r.
  assert ("world" <> "") as Hq by discriminate.
  assert (r ∈ search_results "world" true
                (create_document a_second_later "b" "no match" false s_hello).2)
    as Hr.
  { apply list_elem_of_In. vm_compute. auto. }
  split; [exact Hq|]. split; [exact Hr|].
  exact (search_result_bounds _ "world" true r Hq Hr).
Defined.

(** ** Version identifiers are read back *)

Lemma two_digits_pad (n : nat) (rest : string) :
  n < 100 ->
  Datetime.two_digits Datetime.any Datetime.any (Datetime.pad 2 n +:+ rest)
  = [(n, rest)].
Proof.
  intros Hn.
  do 100 (destruct n as [|n]; [vm_compute; reflexivity|]). lia.
Qed.

Definition pad4_splits (y : nat) : bool :=
  String.eqb (Datetime.pad 4 y)
    (Datetime.pad 2 (y / 100) +:+ Datetime.pad 2 (y mod 100)).

Lemma pad4_split (y : nat) :
  y < 100 * 100 ->
  Datetime.pad 4 y = Datetime.pad 2 (y / 100) +:+ Datetime.pad 2 (y mod 100).
Proof.
  intros Hy.
  assert (forallb pad4_splits (seq 0 (100 * 100)) = true) as Hall
    by (vm_compute; reflexivity).
  rewrite forallb_forall in Hall.
  apply String.eqb_eq, Hall, in_seq. lia.
Qed.

Lemma list_bind_one {A B : Type} (f : A -> list B) (x : A) : [x] ≫= f = f x.
Proof. cbn. apply app_nil_r. Qed.

Lemma parse_Y_pad (y : nat) (rest : string) :
  y < 100 * 100 -> Datetime.parse_Y (Datetime.pad 4 y +:+ rest) = [(y, rest)].
Proof.
  intros Hy. unfold Datetime.parse_Y.
  rewrite pad4_split, append_assoc by done.
  assert (y / 100 < 100) by (apply Nat.Div0.div_lt_upper_bound; lia).
  assert (y mod 100 < 100) by (apply Nat.mod_upper_bound; lia).
  rewrite two_digits_pad, list_bind_one by done. cbv beta iota.
  rewrite two_digits_pad, list_bind_one by done.
  do 2 f_equal. pose proof (Nat.div_mod_eq y 100). lia.
Qed.

Lemma parse_m_pad (n : nat) (rest : string) :
  1 <= n <= 12 ->
  hd_error (Datetime.parse_m (Datetime.pad 2 n +:+ rest)) = Some (n, rest).
Proof.
  intros Hn. do 13 (destruct n as [|n]; [try lia; vm_compute; reflexivity|]). lia.
Qed.

Lemma parse_d_pad (n : nat) (rest : string) :
  1 <= n <= 31 ->
  hd_error (Datetime.parse_d (Datetime.pad 2 n +:+ rest)) = Some (n, rest).
Proof.
  intros Hn. do 32 (destruct n as [|n]; [try lia; vm_compute; reflexivity|]). lia.
Qed.

Lemma parse_H_pad (n : nat) (rest : string) :
  n <= 23 ->
  hd_error (Datetime.parse_H (Datetime.pad 2 n +:+ rest)) = Some (n, rest).
Proof.
  intros Hn. do 24 (destruct n as [|n]; [vm_compute; reflexivity|]). lia.
Qed.

Lemma parse_M_pad (n : nat) (rest : string) :
  n <= 59 ->
  hd_error (Datetime.parse_M (Datetime.pad 2 n +:+ rest)) = Some (n, rest).
Proof.
  intros Hn. do 60 (destruct n as [|n]; [vm_compute; reflexivity|]). lia.
Qed.

Lemma parse_S_pad (n : nat) (rest : string) :
  n <= 59 ->
  hd_error (Datetime.parse_S (Datetime.pad 2 n +:+ rest)) = Some (n, rest).
Proof.
  intros Hn. do 60 (destruct n as [|n]; [vm_compute; reflexivity|]). lia.
Qed.

(** The first choice of a sequence of choices. *)
Lemma bind_hd {A B : Type} (f : A -> list B) (l : list A) (x : A) (y : B) :
  hd_error l = Some x -> hd_error (f x) = Some y -> hd_error (l ≫= f) = Some y.
Proof.
  destruct l as [|x' l]; [done|]. intros [= ->]. cbn.
  by destruct (f x).
Qed.

Lemma days_in_month_le (y m : nat) : Datetime.days_in_month y m <= 31.
Proof.
  unfold Datetime.days_in_month.
  do 12 (destruct m as [|m]; [try destruct (Datetime.leap y); lia|]). lia.
Qed.

(** The two formats agree: for every date and time from the year 1000 on
    that [datetime] can hold (before that year the C library may leave out
    the leading zeros of the year), the text of [strftime("%Y%m%d_%H%M%S")]
    has 15 characters, and parsing it with [strptime] and the same format
    gives the same date and time. *)
Lemma strptime_strftime (t : datetime) :
  1000 <= year t ->
  Datetime.valid t = true ->
  Datetime.strptime_version (Datetime.strftime_version t) = Some t
  /\ String.length (Datetime.strftime_version t) = 15.
Proof.
  intros _.
  destruct t as [y m d h mi sec]. unfold Datetime.valid. cbn [year month day hour minute second].
  unfold Datetime.within, Datetime.upto.
  assert (9999 = 99 * 100 + 99) as -> by (vm_compute; reflexivity).
  rewrite !andb_true_iff, !Nat.leb_le.
  intros ((((([Hy1 Hy2] & [Hm1 Hm2]) & [Hd1 Hd2]) & Hh) & Hmi) & Hs).
  pose proof (days_in_month_le y m) as Hdm.
  assert (Datetime.valid (mkDatetime y m d h mi sec) = true) as Hvalid.
  { unfold Datetime.valid, Datetime.within, Datetime.upto.
    cbn [year month day hour minute second].
    assert (9999 = 99 * 100 + 99) as -> by (vm_compute; reflexivity).
    rewrite !andb_true_iff, !Nat.leb_le. lia. }
  unfold Datetime.strptime_version, Datetime.strftime_version.
  cbn [year month day hour minute second].
  set (parses := mbind _ _).
  assert (hd_error parses = Some (mkDatetime y m d h mi sec, "")) as Hhd.
  { subst parses.
    eapply bind_hd; [by rewrite parse_Y_pad by lia|]. cbn beta iota.
    eapply bind_hd; [by apply parse_m_pad|]. cbn beta iota.
    eapply bind_hd; [apply parse_d_pad; lia|]. cbn beta iota.
    eapply bind_hd; [reflexivity|]. cbn beta iota.
    eapply bind_hd; [by apply parse_H_pad|]. cbn beta iota.
    eapply bind_hd; [by apply parse_M_pad|]. cbn beta iota.
    eapply bind_hd;
      [rewrite <- (append_nil_r (Datetime.pad 2 sec)); by apply parse_S_pad |].
    reflexivity. }
  split.
  - destruct parses as [|[t' rest] tl]; [done|].
    injection Hhd as -> ->. by rewrite Hvalid.
  - assert (forall n, n < 100 -> String.length (Datetime.pad 2 n) = 2) as Hpad.
    { intros n Hn.
      do 100 (destruct n as [|n]; [vm_compute; reflexivity|]). lia. }
    rewrite pad4_split by lia. rewrite !length_append.
    assert (y / 100 < 100) by (apply Nat.Div0.div_lt_upper_bound; lia).
    assert (y mod 100 < 100) by (apply Nat.mod_upper_bound; lia).
    rewrite !Hpad by lia. reflexivity.
Qed.

Lemma strptime_strftime_witness :
  1000 <= year a_second_later
  /\ Datetime.valid a_second_later = true
  /\ Datetime.strftime_version a_second_later = "20240315_143023"
  /\ Datetime.strptime_version "20240315_143023" = Some a_second_later.
Proof.
  assert (1000 <= year a_second_later) as Hy by (cbn; lia).
  assert (Datetime.valid a_second_later = true) as Hv by reflexivity.
  assert (Datetime.strftime_version a_second_later = "20240315_143023") as Hs
    by (vm_compute; reflexivity).
  split; [exact Hy|]. split; [exact Hv|]. split; [exact Hs|].
  rewrite <- Hs. exact (proj1 (strptime_strftime a_second_later Hy Hv)).
Defined.

(** ** The snapshots of an identifier are listed *)

Fixpoint literals (d : string) : list Glob.token :=
  match d with
  | EmptyString => []
  | String c d' => Glob.Lit c :: literals d'
  end.

Lemma identifier_char_literal (c : ascii) :
  identifier_char c = true ->
  Ascii.eqb c "*" = false /\ Ascii.eqb c "?" = false /\ Ascii.eqb c "[" = false.
Proof.
  intros Hc. split_and!; apply Ascii.eqb_neq; intros ->; discriminate.
Qed.

Lemma tokens_identifier (d rest : string) (fuel : nat) :
  all_chars identifier_char d = true ->
  Glob.tokens (String.length d + fuel) (d +:+ rest)
  = literals d ++ Glob.tokens fuel rest.
Proof.
  induction d as [|c d IH]; [done|]. cbn [all_chars].
  intros [Hc Hd]%andb_prop. rewrite append_cons.
  cbn [String.length plus Glob.tokens literals].
  destruct (identifier_char_literal c Hc) as (-> & -> & ->).
  by rewrite IH.
Qed.

Lemma matches_literals (d s : string) (ts : list Glob.token) :
  Glob.matches (literals d ++ ts) (d +:+ s) = Glob.matches ts s.
Proof.
  induction d as [|c d IH]; [done|].
  rewrite append_cons. cbn [literals app Glob.matches].
  by rewrite Ascii.eqb_refl, IH.
Qed.

(** The pattern of [list_versions] matches every snapshot name of an
    identifier. *)
Lemma fnmatch_version_file (d v : string) :
  is_identifier d = true ->
  Glob.fnmatch (d +:+ "_*.md") (version_file d v) = true.
Proof.
  unfold is_identifier. intros [_ Hd]%andb_prop.
  unfold Glob.fnmatch, version_file. rewrite length_append.
  rewrite tokens_identifier by done. rewrite matches_literals.
  change (Glob.tokens (String.length "_*.md") "_*.md")
    with (Glob.Lit "_" :: Glob.tokens (String.length "*.md") "*.md").
  rewrite append_cons. cbn [Glob.matches]. rewrite Ascii.eqb_refl. cbn [andb].
  rewrite append_nil_l. apply fnmatch_md. by exists v.
Qed.

(** X17: [list_versions] never misses a snapshot of its document: for an
    identifier [d] of letters, digits, underscores and hyphens, every file
    [d_v.md] of the archive is yielded by the pattern [d_*.md], the answer
    is not "No previous versions", and the three lines of that snapshot,
    its size among them, are in the output. *)
Theorem own_snapshots_listed (s : state) (d v : string) (f : file) :
  is_identifier d = true ->
  versions_dir s !! version_file d v = Some f ->
  (version_file d v, f) ∈ Fs.glob (d +:+ "_*.md") (versions_dir s)
  /\ list_versions d s <> "No previous versions found for '" +:+ d +:+ "'."
  /\ exists lines,
       list_versions d s = Py.join (String Py.nl "") lines
       /\ "    Size: " +:+ Py.str_of_nat (Py.utf8_len (text f)) +:+ " bytes" ∈ lines
       /\ forall line, line ∈ version_lines d (version_file d v, f) -> line ∈ lines.
Proof.
  intros Hd Hf.
  assert ((version_file d v, f) ∈ Fs.glob (d +:+ "_*.md") (versions_dir s)) as Hin.
  { unfold Fs.glob. apply list_elem_of_filter. split.
    - by apply fnmatch_version_file.
    - by apply elem_of_map_to_list. }
  split; [done|]. unfold list_versions.
  destruct (Fs.glob (d +:+ "_*.md") (versions_dir s)) as [|e versions] eqn:Hglob.
  { by apply elem_of_nil in Hin. }
  split; [intros H; discriminate H|].
  assert (forall line, line ∈ version_lines d (version_file d v, f) ->
            line ∈ ["Versions of '" +:+ d +:+ "':"; Py.repeat_char "=" 40]
                   ++ flat_map (version_lines d) (merge_sort path_ge (e :: versions)))
    as Hlines.
  { intros line Hline. apply elem_of_app. right.
    apply list_elem_of_In, in_flat_map. exists (version_file d v, f).
    split; apply list_elem_of_In; [| done].
    by rewrite merge_sort_Permutation. }
  eexists. split; [reflexivity|]. split; [| exact Hlines].
  apply Hlines. unfold version_lines. cbn [snd]. unfold Fs.st_size.
  right. right. left.
Qed.

Lemma own_snapshots_listed_witness :
  is_identifier "a" = true
  /\ versions_dir s_two_documents !! version_file "a" "20240315_143023"
     = Some (mkFile "hello world" a_second_later)
  /\ (version_file "a" "20240315_143023", mkFile "hello world" a_second_later)
       ∈ Fs.glob ("a" +:+ "_*.md") (versions_dir s_two_documents)
  /\ list_versions "a" s_two_documents <> "No previous versions found for 'a'.".
Proof.
  assert (is_identifier "a" = true) as Hd by reflexivity.
  assert (versions_dir s_two_documents !! version_file "a" "20240315_143023"
          = Some (mkFile "hello world" a_second_later)) as Hf by reflexivity.
  destruct (own_snapshots_listed s_two_documents "a" "20240315_143023" _ Hd Hf)
    as (Hin & Hne & _).
  split; [exact Hd|]. split; [exact Hf|]. split; [exact Hin | exact Hne].
Defined.

(** ** A saved version is listed under its time stamp *)

(** The number of times [c] is in [s]. *)
Fixpoint count_char (c : ascii) (s : string) : nat :=
  match s with
  | EmptyString => 0
  | String x s' => (if Ascii.eqb x c then 1 else 0) + count_char c s'
  end.

Lemma count_char_append (c : ascii) (a b : string) :
  count_char c (a +:+ b) = count_char c a + count_char c b.
Proof.
  induction a as [|x a IH]; [done|].
  rewrite append_cons. cbn [count_char]. rewrite IH. lia.
Qed.

Lemma all_chars_append (p : ascii -> bool) (a b : string) :
  all_chars p (a +:+ b) = all_chars p a && all_chars p b.
Proof.
  induction a as [|x a IH]; [done|].
  rewrite append_cons. cbn [all_chars]. by rewrite IH, andb_assoc.
Qed.

Lemma startswith_append (p s : string) : Py.startswith p (p +:+ s) = true.
Proof.
  unfold Py.startswith. induction p as [|a p IH]; [done|].
  rewrite append_cons. cbn [Py.startswith_by]. by rewrite Ascii.eqb_refl, IH.
Qed.

Lemma startswith_split (p s : string) :
  Py.startswith p s = true -> exists b, s = p +:+ b.
Proof.
  unfold Py.startswith. revert s. induction p as [|a p IH]; intros s.
  - intros _. exists s. by rewrite append_nil_l.
  - destruct s as [|x s]; cbn [Py.startswith_by]; [done|].
    intros [Hax Hp]%andb_prop. apply Ascii.eqb_eq in Hax as ->.
    destruct (IH s Hp) as [b ->]. exists b. by rewrite append_cons.
Qed.

(** Dropping the rest of an occurrence, then going on. *)
Lemma replace_go_skip (old new : string) (k : nat) (s : string) :
  Py.replace_go old new k s = Py.replace_go old new 0 (Py.drop k s).
Proof.
  revert k. induction s as [|c s IH]; intros k; [by destruct k|].
  destruct k as [|k]; [done|]. cbn [Py.replace_go Py.drop]. apply IH.
Qed.

(** [str.replace] on a text that starts with an occurrence. *)
Lemma replace_prefix (old new s : string) :
  old <> "" ->
  Py.replace old new (old +:+ s) = new +:+ Py.replace old new s.
Proof.
  intros Hold. destruct old as [|a old]; [done|]. unfold Py.replace.
  pose proof (startswith_append (String a old) s) as Hst.
  rewrite append_cons in Hst |- *. cbn [Py.replace_go]. rewrite Hst.
  rewrite replace_go_skip.
  change (String.length (String a old) - 1) with (String.length old - 0).
  by rewrite Nat.sub_0_r, drop_append.
Qed.

(** [str.replace] on a text that has too few of some character to hold an
    occurrence. *)
Lemma replace_absent (old new s : string) (c : ascii) :
  count_char c s < count_char c old -> Py.replace old new s = s.
Proof.
  unfold Py.replace. induction s as [|x s IH]; [done|]. intros Hc.
  cbn [Py.replace_go]. destruct (Py.startswith old (String x s)) eqn:Hst.
  - apply startswith_split in Hst as [b Hb].
    rewrite Hb, count_char_append in Hc. lia.
  - rewrite IH; [done|]. cbn [count_char] in Hc.
    destruct (Ascii.eqb x c); lia.
Qed.

Lemma count_char_digits (c : ascii) (s : string) :
  all_chars decimal_digit s = true -> decimal_digit c = false ->
  count_char c s = 0.
Proof.
  intros Hs Hc. induction s as [|x s IH]; [done|].
  cbn [all_chars] in Hs. apply andb_prop in Hs as [Hx Hs].
  cbn [count_char]. rewrite IH by done.
  destruct (Ascii.eqb_spec x c) as [->|_]; [congruence | done].
Qed.

Lemma not_all_digits (d : string) :
  all_chars decimal_digit d = false ->
  exists c, decimal_digit c = false /\ 0 < count_char c d.
Proof.
  induction d as [|x d IH]; [done|]. cbn [all_chars count_char].
  destruct (decimal_digit x) eqn:Hx; cbn [andb].
  - intros (c & Hc & Hn)%IH. exists c. split; [done | lia].
  - intros _. exists x. split; [done|]. rewrite Ascii.eqb_refl. lia.
Qed.

Lemma pad2_digits (n : nat) :
  n < 100 -> all_chars decimal_digit (Datetime.pad 2 n) = true.
Proof.
  intros Hn.
  do 100 (destruct n as [|n]; [vm_compute; reflexivity|]). lia.
Qed.

(** A time stamp is made of digits and one underscore. *)
Lemma count_char_stamp (t : datetime) (c : ascii) :
  Datetime.valid t = true -> decimal_digit c = false ->
  count_char c (Datetime.strftime_version t) = count_char c "_".
Proof.
  destruct t as [y m d h mi sec]. unfold Datetime.valid.
  cbn [year month day hour minute second].
  unfold Datetime.within, Datetime.upto.
  assert (9999 = 99 * 100 + 99) as -> by (vm_compute; reflexivity).
  rewrite !andb_true_iff, !Nat.leb_le.
  intros ((((([Hy1 Hy2] & [Hm1 Hm2]) & [Hd1 Hd2]) & Hh) & Hmi) & Hs) Hc.
  pose proof (days_in_month_le y m) as Hdm.
  unfold Datetime.strftime_version. cbn [year month day hour minute second].
  rewrite pad4_split by lia. rewrite !count_char_append.
  assert (y / 100 < 100) by (apply Nat.Div0.div_lt_upper_bound; lia).
  assert (y mod 100 < 100) by (apply Nat.mod_upper_bound; lia).
  rewrite !(count_char_digits c (Datetime.pad 2 _)) by (try apply pad2_digits; lia || done).
  lia.
Qed.

Lemma stem_version_file (d v : string) :
  Fs.stem (version_file d v) = d +:+ "_" +:+ v.
Proof.
  unfold version_file.
  rewrite <- (append_assoc "_" v ".md"), <- (append_assoc d ("_" +:+ v) ".md").
  apply stem_md. destruct d; [done | by rewrite append_cons].
Qed.

(** For an identifier that is not all digits, cutting [d_] out of the stem
    of a snapshot leaves its time stamp. *)
Lemma stamp_of_snapshot (d : string) (t : datetime) :
  all_chars decimal_digit d = false ->
  Datetime.valid t = true ->
  Py.replace (d +:+ "_") "" (Fs.stem (snapshot_name t d))
  = Datetime.strftime_version t.
Proof.
  intros Hd Ht. unfold snapshot_name. rewrite stem_version_file.
  rewrite <- append_assoc.
  rewrite replace_prefix by (destruct d; [done | by rewrite append_cons]).
  rewrite append_nil_l.
  destruct (not_all_digits d Hd) as (c & Hc & Hn).
  apply (replace_absent _ _ _ c).
  rewrite count_char_append, (count_char_stamp t c Ht Hc). lia.
Qed.

(** The lines that [list_versions] writes for the snapshot taken at [t]. *)
Lemma version_lines_snapshot (d : string) (t : datetime) (f : file) :
  all_chars decimal_digit d = false ->
  1000 <= year t ->
  Datetime.valid t = true ->
  version_lines d (snapshot_name t d, f)
  = [ String Py.nl "  Version: " +:+ Datetime.strftime_version t;
      "    Date: " +:+ Datetime.strftime_display t;
      "    Size: " +:+ Py.str_of_nat (Py.utf8_len (text f)) +:+ " bytes" ].
Proof.
  intros Hd Hy Ht. unfold version_lines. cbn [fst snd].
  rewrite (stamp_of_snapshot d t Hd Ht).
  by rewrite (proj1 (strptime_strftime t Hy Ht)).
Qed.

(** The lines of a snapshot of an identifier are in the listing. *)
Lemma version_lines_listed (s : state) (d v : string) (f : file) :
  is_identifier d = true ->
  versions_dir s !! version_file d v = Some f ->
  exists lines,
    list_versions d s = Py.join (String Py.nl "") lines
    /\ forall line, line ∈ version_lines d (version_file d v, f) -> line ∈ lines.
Proof.
  intros Hd Hf.
  assert ((version_file d v, f) ∈ Fs.glob (d +:+ "_*.md") (versions_dir s)) as Hin.
  { unfold Fs.glob. apply list_elem_of_filter. split.
    - by apply fnmatch_version_file.
    - by apply elem_of_map_to_list. }
  unfold list_versions.
  destruct (Fs.glob (d +:+ "_*.md") (versions_dir s)) as [|e versions] eqn:Hglob.
  { by apply elem_of_nil in Hin. }
  eexists. split; [reflexivity|].
  intros line Hline. apply elem_of_app. right.
  apply list_elem_of_In, in_flat_map. exists (version_file d v, f).
  split; apply list_elem_of_In; [| done].
  by rewrite merge_sort_Permutation.
Qed.

(** X16: the version identifier that [_save_version] writes is read back
    by [list_versions].  For a cached identifier [d] that is not all
    digits, and a date and time [now] from the year 1000 on, the listing of
    [d] after [_save_version] at [now] (which is also the listing after
    [update_document] at [now]) has the [Version] line with the time stamp
    [YYYYMMDD_HHMMSS] of [now], the [Date] line with [now] as
    [YYYY-MM-DD HH:MM:SS], and the [Size] line of the content saved.  (An
    identifier of digits only can occur once more inside the time stamp,
    where [str.replace] cuts it out as well.) *)
Theorem saved_version_listed (s : state) (now : datetime) (d data : string)
    (doc : document) :
  is_identifier d = true ->
  all_chars decimal_digit d = false ->
  Dict.get d (document_cache s) = Some doc ->
  1000 <= year now ->
  Datetime.valid now = true ->
  let s1 := _save_version now d s in
  list_versions d (update_document now d data s).2 = list_versions d s1
  /\ exists lines,
       list_versions d s1 = Py.join (String Py.nl "") lines
       /\ String Py.nl "  Version: " +:+ Datetime.strftime_version now ∈ lines
       /\ "    Date: " +:+ Datetime.strftime_display now ∈ lines
       /\ "    Size: " +:+ Py.str_of_nat (Py.utf8_len (content doc)) +:+ " bytes"
            ∈ lines.
Proof.
  intros Hid Hd Hdoc Hy Hnow s1. split.
  { by rewrite (update_document_cached _ _ _ _ _ Hdoc). }
  assert (versions_dir s1 !! snapshot_name now d = Some (mkFile (content doc) now))
    as Hf.
  { subst s1. rewrite (save_version_cached _ _ _ _ Hdoc).
    cbn [versions_dir with_versions_dir]. apply lookup_insert_eq. }
  destruct (version_lines_listed s1 d _ _ Hid Hf) as (lines & Hlist & Hlines).
  fold (snapshot_name now d) in Hlines.
  rewrite (version_lines_snapshot d now _ Hd Hy Hnow) in Hlines.
  exists lines. split; [exact Hlist|].
  split_and!; apply Hlines; cbn [text]; set_solver.
Qed.

Lemma saved_version_listed_witness :
  is_identifier "a" = true
  /\ all_chars decimal_digit "a" = false
  /\ Dict.get "a" (document_cache s_new)
     = Some (document_of "a.md" (mkFile "new" a_second_later))
  /\ 1000 <= year two_seconds_later
  /\ Datetime.valid two_seconds_later = true
  /\ exists lines,
       list_versions "a" (_save_version two_seconds_later "a" s_new)
       = Py.join (String Py.nl "") lines
       /\ String Py.nl "  Version: 20240315_143024" ∈ lines
       /\ "    Date: 2024-03-15 14:30:24" ∈ lines
       /\ "    Size: 3 bytes" ∈ lines.
Proof.
  assert (is_identifier "a" = true) as Hid by reflexivity.
  assert (all_chars decimal_digit "a" = false) as Hd by reflexivity.
  assert (Dict.get "a" (document_cache s_new)
          = Some (document_of "a.md" (mkFile "new" a_second_later))) as Hdoc
    by reflexivity.
  assert (1000 <= year two_seconds_later) as Hy by (cbn; lia).
  assert (Datetime.valid two_seconds_later = true) as Hnow by reflexivity.
  destruct (saved_version_listed s_new two_seconds_later "a" "" _ Hid Hd Hdoc Hy Hnow)
    as (_ & lines & Hlist & Hversion & Hdate & Hsize).
  split; [exact Hid|]. split; [exact Hd|]. split; [exact Hdoc|].
  split; [exact Hy|]. split; [exact Hnow|].
  exists lines. split; [exact Hlist|].
  split; [exact Hversion|]. split; [exact Hdate | exact Hsize].
Defined.

(** ** Deleting a document whose file is missing *)

(** X18: when a cached identifier has no file [d.md] (the document was
    loaded from the hidden file [.md], whose stem is [.md]), a confirmed
    [delete_document] raises [FileNotFoundError] at [unlink]: by then the
    snapshot has been written, and nothing else has changed; no file is
    removed, the tags stay, the cache is not reloaded. *)
Theorem delete_document_missing_file (s : state) (now : datetime) (d : string)
    (doc : document) :
  Dict.get d (document_cache s) = Some doc ->
  documents_dir s !! doc_file d = None ->
  delete_document now d true s
  = (Raise (FileNotFoundError (doc_file d)),
     with_versions_dir
       (<[snapshot_name now d := mkFile (content doc) now]> (versions_dir s)) s).
Proof.
  intros Hd Hf. unfold delete_document.
  rewrite (proj2 (mem_get d (document_cache s))) by (rewrite Hd; eauto).
  cbn [negb]. unfold Fs.unlink.
  rewrite save_version_documents_dir, (exists_false _ _ Hf).
  by rewrite (save_version_cached _ _ _ _ Hd).
Qed.

(** A store that was started over the one hidden file [.md]. *)
Definition s_hidden : state :=
  startup {[ ".md" := mkFile "notes" half_past ]} ∅ None.

Lemma delete_document_missing_file_witness :
  Dict.get ".md" (document_cache s_hidden)
  = Some (document_of ".md" (mkFile "notes" half_past))
  /\ documents_dir s_hidden !! doc_file ".md" = None
  /\ delete_document a_second_later ".md" true s_hidden
     = (Raise (FileNotFoundError ".md.md"),
        with_versions_dir
          {[ ".md_20240315_143023.md" := mkFile "notes" a_second_later ]} s_hidden).
Proof.
  assert (Dict.get ".md" (document_cache s_hidden)
          = Some (document_of ".md" (mkFile "notes" half_past))) as Hd
    by reflexivity.
  assert (documents_dir s_hidden !! doc_file ".md" = None) as Hf by reflexivity.
  split; [exact Hd|]. split; [exact Hf|].
  exact (delete_document_missing_file s_hidden a_second_later ".md" _ Hd Hf).
Defined.

(** ** Searching by tag *)

(** The lines [search_by_tag] adds for one matching identifier. *)
Definition tagged_lines (s : state) (doc_id : string) : list string :=
  match Dict.get doc_id (document_cache s) with
  | Some doc =>
      [ String Py.nl "- " +:+ doc_id;
        "  Size: " +:+ Py.str_of_nat (size doc) +:+ " bytes";
        "  All tags: "
          +:+ Py.join ", " (default [] (Dict.get doc_id (tags_cache s))) ]
  | None => []
  end.

(** The list [matching_docs] of [search_by_tag]. *)
Definition matching_docs (tag : string) (tags : tag_index) : list string :=
  flat_map (fun e => if tag_in tag e.2 then [e.1] else []) (Dict.items tags).

(** [search_by_tag(tag)]. *)
Definition search_by_tag (tag : string) (s : state) : string :=
  let tag := Py.strip (Py.lower tag) in
  match matching_docs tag (tags_cache s) with
  | [] => "No documents found with tag '" +:+ tag +:+ "'."
  | docs =>
      Py.join (String Py.nl "")
        ([ "Documents with tag '" +:+ tag +:+ "':"; Py.repeat_char "=" 40 ]
         ++ flat_map (tagged_lines s) docs)
  end.

Lemma elem_of_matching_docs (tag d : string) (tags : tag_index) :
  d ∈ matching_docs tag tags
  <-> exists l, (d, l) ∈ Dict.items tags /\ tag_in tag l = true.
Proof.
  unfold matching_docs. rewrite list_elem_of_In, in_flat_map. split.
  - intros ([k l] & He & Hd). cbn [fst snd] in Hd.
    destruct (tag_in tag l) eqn:Hin; [| done].
    destruct Hd as [<- | []]. exists l. split; [by apply list_elem_of_In | done].
  - intros (l & He & Hin). exists (d, l). split; [by apply list_elem_of_In|].
    cbn [fst snd]. rewrite Hin. by left.
Qed.

Lemma item_line_inj (d d' : string) :
  String Py.nl "- " +:+ d = String Py.nl "- " +:+ d' -> d = d'.
Proof. intros H. by simplify_eq/=. Qed.

Lemma elem_of_tagged_lines (s : state) (d d' : string) :
  String Py.nl "- " +:+ d ∈ tagged_lines s d'
  <-> d = d' /\ Dict.mem d (document_cache s) = true.
Proof.
  unfold tagged_lines, Dict.mem. split.
  - destruct (Dict.get d' (document_cache s)) as [doc|] eqn:Hd';
      [| by intros ?%elem_of_nil].
    intros [H | [H | H%list_elem_of_singleton]%elem_of_cons]%elem_of_cons.
    + apply item_line_inj in H as ->. by rewrite Hd'.
    + discriminate H.
    + discriminate H.
  - intros [-> Hd]. destruct (Dict.get d' (document_cache s)); [left | done].
Qed.

(** X19: [search_by_tag(t)] normalizes the tag, answers "No documents
    found" exactly when no entry of the tag index carries the normalized
    tag, and otherwise lists an identifier exactly when an entry of the
    index carries the tag and the document is cached: an entry left behind
    for a document that is not cached is passed over, the header being
    printed all the same. *)
Theorem search_by_tag_lists (s : state) (t : string) :
  let tag := Py.strip (Py.lower t) in
  let carries d := exists l, (d, l) ∈ Dict.items (tags_cache s)
                             /\ tag_in tag l = true in
  (search_by_tag t s = "No documents found with tag '" +:+ tag +:+ "'."
   <-> forall d, ~ carries d)
  /\ ((exists d, carries d) ->
      exists lines,
        search_by_tag t s
        = Py.join (String Py.nl "")
            ([ "Documents with tag '" +:+ tag +:+ "':"; Py.repeat_char "=" 40 ]
             ++ lines)
        /\ forall d, String Py.nl "- " +:+ d ∈ lines
                     <-> carries d /\ Dict.mem d (document_cache s) = true).
Proof.
  intros tag carries. unfold search_by_tag. fold tag.
  assert (forall d, d ∈ matching_docs tag (tags_cache s) <-> carries d) as Hdocs
    by (intros d; apply elem_of_matching_docs).
  destruct (matching_docs tag (tags_cache s)) as [|d0 docs] eqn:Hm.
  - split.
    + split; [| done]. intros _ d Hd. apply Hdocs in Hd. by apply elem_of_nil in Hd.
    + intros [d Hd]. apply Hdocs in Hd. by apply elem_of_nil in Hd.
  - split.
    + split; [intros H; discriminate H|].
      intros Hnone. exfalso. apply (Hnone d0), Hdocs. left.
    + intros _. eexists. split; [reflexivity|]. intros d.
      rewrite list_elem_of_In, in_flat_map. split.
      * intros (d' & Hd'%list_elem_of_In & Hline%list_elem_of_In).
        apply elem_of_tagged_lines in Hline as [-> Hc]. split; [| done].
        by apply Hdocs.
      * intros [Hd%Hdocs Hc]. exists d.
        split; apply list_elem_of_In; [done|]. by apply elem_of_tagged_lines.
Qed.

(** The tag index of [stale_tags] names a document that is not cached: the
    answer is the header alone. *)
Example search_by_tag_stale :
  search_by_tag " Draft" stale_tags
  = Py.join (String Py.nl "")
      [ "Documents with tag 'draft':";
        "========================================" ].
Proof. reflexivity. Qed.

Lemma search_by_tag_lists_witness :
  let s := (add_tag "a" "Draft" s_two_documents).2 in
  (exists d l, (d, l) ∈ Dict.items (tags_cache s)
               /\ tag_in (Py.strip (Py.lower " DRAFT ")) l = true)
  /\ search_by_tag " DRAFT " s
     = Py.join (String Py.nl "")
         [ "Documents with tag 'draft':";
           "========================================";
           String Py.nl "- a";
           "  Size: 3 bytes";
           "  All tags: draft" ].
Proof.
  intros s.
  assert (exists d, exists l, (d, l) ∈ Dict.items (tags_cache s)
                      /\ tag_in (Py.strip (Py.lower " DRAFT ")) l = true) as Hc.
  { exists "a", ["draft"]. split; [| reflexivity].
    replace (tags_cache s) with [("a", ["draft"])] by reflexivity.
    apply list_elem_of_singleton. reflexivity. }
  destruct (proj2 (search_by_tag_lists s " DRAFT ") Hc) as (lines & Hout & _).
  split; [exact Hc | reflexivity].
Defined.

(** ** Normalized tags *)

Lemma lower_char_idemp (c : ascii) : Py.lower_char (Py.lower_char c) = Py.lower_char c.
Proof. destruct c as [[] [] [] [] [] [] [] []]; reflexivity. Qed.

Lemma isspace_lower_char (c : ascii) : Py.isspace (Py.lower_char c) = Py.isspace c.
Proof. destruct c as [[] [] [] [] [] [] [] []]; reflexivity. Qed.

Lemma lower_idemp (s : string) : Py.lower (Py.lower s) = Py.lower s.
Proof.
  induction s as [|c s IH]; [done|]. cbn [Py.lower].
  by rewrite lower_char_idemp, IH.
Qed.

Lemma lower_lstrip (s : string) : Py.lower (Py.lstrip s) = Py.lstrip (Py.lower s).
Proof.
  induction s as [|c s IH]; [done|]. cbn [Py.lstrip Py.lower].
  rewrite isspace_lower_char. by destruct (Py.isspace c).
Qed.

Lemma lower_rstrip (s : string) : Py.lower (Py.rstrip s) = Py.rstrip (Py.lower s).
Proof.
  induction s as [|c s IH]; [done|]. cbn [Py.rstrip Py.lower].
  rewrite <- IH, isspace_lower_char.
  destruct (Py.rstrip s) as [|x r]; cbn [Py.lower]; [by destruct (Py.isspace c) | done].
Qed.

(** Text that does not begin with white space. *)
Definition no_leading_space (s : string) : Prop :=
  match s with
  | EmptyString => True
  | String c _ => Py.isspace c = false
  end.

Lemma lstrip_no_leading_space (s : string) : no_leading_space (Py.lstrip s).
Proof.
  induction s as [|c s IH]; [done|]. cbn [Py.lstrip].
  by destruct (Py.isspace c) eqn:Hc.
Qed.

Lemma lstrip_id (s : string) : no_leading_space s -> Py.lstrip s = s.
Proof. destruct s as [|c s]; [done|]. cbn. by intros ->. Qed.

Lemma rstrip_no_leading_space (s : string) :
  no_leading_space s -> no_leading_space (Py.rstrip s).
Proof.
  destruct s as [|c s]; [done|]. cbn [no_leading_space Py.rstrip]. intros Hc.
  destruct (Py.rstrip s); [by rewrite Hc | done].
Qed.

Lemma rstrip_idemp (s : string) : Py.rstrip (Py.rstrip s) = Py.rstrip s.
Proof.
  induction s as [|c s IH]; [done|]. cbn [Py.rstrip].
  destruct (Py.rstrip s) as [|x r] eqn:Hr.
  - destruct (Py.isspace c) eqn:Hc; [done|]. cbn [Py.rstrip]. by rewrite Hc.
  - cbn [Py.rstrip]. cbn [Py.rstrip] in IH. by rewrite IH.
Qed.

Lemma strip_idemp (s : string) : Py.strip (Py.strip s) = Py.strip s.
Proof.
  unfold Py.strip.
  rewrite (lstrip_id (Py.rstrip (Py.lstrip s)))
    by apply rstrip_no_leading_space, lstrip_no_leading_space.
  apply rstrip_idemp.
Qed.

Lemma normalize_idemp (t : string) :
  Py.strip (Py.lower (Py.strip (Py.lower t))) = Py.strip (Py.lower t).
Proof.
  unfold Py.strip at 2. rewrite lower_rstrip, lower_lstrip, lower_idemp.
  fold (Py.strip (Py.lower t)). apply strip_idemp.
Qed.

(** X20: normalizing a tag twice is normalizing it once, so the text under
    which a tag is stored addresses that tag: [add_tag], [remove_tag] and
    [search_by_tag] do with the normalized text (lower case, no white space
    around it) exactly what they do with the text as given. *)
Theorem normalized_tag_addresses (s : state) (d t : string) :
  let tag := Py.strip (Py.lower t) in
  Py.strip (Py.lower tag) = tag
  /\ add_tag d tag s = add_tag d t s
  /\ remove_tag d tag s = remove_tag d t s
  /\ search_by_tag tag s = search_by_tag t s.
Proof.
  intros tag. pose proof (normalize_idemp t) as Hn. fold tag in Hn.
  split; [done|]. unfold add_tag, remove_tag, search_by_tag. fold tag.
  by rewrite Hn.
Qed.

(** ** Listing the tags *)

Lemma tag_total_zero (tag : string) (idx : tag_index) :
  tag_total tag idx = 0
  <-> forall d l, (d, l) ∈ Dict.items idx -> tag_in tag l = false.
Proof.
  unfold Dict.items. induction idx as [|[k l0] idx IH].
  - split; [| done]. intros _ d l Hin. by apply elem_of_nil in Hin.
  - change (tag_total tag ((k, l0) :: idx))
      with (tag_count tag l0 + tag_total tag idx).
    rewrite Nat.eq_add_0, IH, <- tag_in_count. split.
    + intros [H0 Hidx] d l [[= -> ->] | Hin]%elem_of_cons; [done | by eapply Hidx].
    + intros H. split; [apply (H k); left | intros d l Hin; apply (H d); by right].
Qed.

(** X21: [list_tags] answers "No tags defined." exactly when every tag
    list of the index is empty; the empty entries that [remove_tag] leaves
    behind do not count as tags. *)
Theorem list_tags_none (s : state) :
  list_tags s = "No tags defined."
  <-> forall d l, (d, l) ∈ Dict.items (tags_cache s) -> l = [].
Proof.
  unfold list_tags.
  destruct (tag_counts (tags_cache s)) as [|[tag n] counts] eqn:Hcounts.
  - split; [| done]. intros _ d l Hin. destruct l as [|tag l]; [done|].
    exfalso.
    pose proof (get_tag_counts tag (tags_cache s)) as Hget.
    rewrite Hcounts in Hget. cbn [Dict.get] in Hget.
    destruct (tag_total tag (tags_cache s)) eqn:Htotal; [| done].
    apply tag_total_zero with (d := d) (l := tag :: l) in Htotal; [| done].
    cbn [tag_in existsb] in Htotal. by rewrite String.eqb_refl in Htotal.
  - split; [intros H; discriminate H|]. intros Hempty. exfalso.
    pose proof (get_tag_counts tag (tags_cache s)) as Hget.
    rewrite Hcounts in Hget. cbn [Dict.get] in Hget.
    rewrite String.eqb_refl in Hget.
    assert (tag_total tag (tags_cache s) = 0) as Htotal.
    { apply tag_total_zero. intros d l Hin. by rewrite (Hempty d l Hin). }
    by rewrite Htotal in Hget.
Qed.

(** After the tag of [a] was added and removed again, the index holds the
    empty entry of [a] and no tag is listed. *)
Example list_tags_after_removal :
  let s := (remove_tag "a" "draft" (add_tag "a" "Draft" s_hello).2).2 in
  tags_cache s = [("a", [])] /\ list_tags s = "No tags defined.".
Proof. split; reflexivity. Qed.

Lemma list_tags_none_witness :
  (forall d l, (d, l) ∈ Dict.items
                 (tags_cache (remove_tag "a" "draft" (add_tag "a" "Draft" s_hello).2).2)
               -> l = [])
  /\ list_tags (remove_tag "a" "draft" (add_tag "a" "Draft" s_hello).2).2
     = "No tags defined.".
Proof.
  assert (forall d l,
            (d, l) ∈ Dict.items
              (tags_cache (remove_tag "a" "draft" (add_tag "a" "Draft" s_hello).2).2)
            -> l = []) as Hempty.
  { replace (tags_cache (remove_tag "a" "draft" (add_tag "a" "Draft" s_hello).2).2)
      with [("a", @nil string)] by reflexivity.
    intros d l [= _ ->]%list_elem_of_singleton. reflexivity. }
  split; [exact Hempty|].
  exact (proj2 (list_tags_none _) Hempty).
Defined.

(** ** Listing the documents *)

(** The lines [list_documents] adds for one entry of the cache. *)
Definition document_lines (s : state) (e : string * document) : list string :=
  let doc_tags := default [] (Dict.get e.1 (tags_cache s)) in
  let tag_str :=
    match doc_tags with
    | [] => ""
    | _ => " [Tags: " +:+ Py.join ", " doc_tags +:+ "]"
    end in
  [ String Py.nl "ID: " +:+ e.1 +:+ tag_str;
    "  Filename: " +:+ filename e.2;
    "  Size: " +:+ Py.str_of_nat (size e.2) +:+ " bytes";
    "  Modified: " +:+ modified e.2 ].

(** [list_documents()]. *)
Definition list_documents (s : state) : string :=
  match document_cache s with
  | [] => "No documents found."
  | cache =>
      Py.join (String Py.nl "")
        ([ "Available Documents:"; Py.repeat_char "=" 50 ]
         ++ flat_map (document_lines s) (merge_sort item_le (Dict.items cache)))
  end.

#[global] Instance item_le_total {V : Type} : Total (@item_le V).
Proof. intros a b. unfold item_le. apply (total String.le). Qed.

(** X22: [list_documents] answers "No documents found." exactly when the
    cache is empty; otherwise its output is the header followed by the four
    lines of every cached document, each document once, in ascending order
    of the identifiers. *)
Theorem list_documents_sorted (s : state) :
  (list_documents s = "No documents found." <-> document_cache s = [])
  /\ (document_cache s <> [] ->
      exists entries,
        entries ≡ₚ Dict.items (document_cache s)
        /\ Sorted item_le entries
        /\ list_documents s
           = Py.join (String Py.nl "")
               ([ "Available Documents:";
                  "==================================================" ]
                ++ flat_map (document_lines s) entries)).
Proof.
  unfold list_documents. destruct (document_cache s) as [|e cache] eqn:Hcache.
  - split; [done|]. by intros [].
  - split; [split; intros H; discriminate H|]. intros _.
    exists (merge_sort item_le (Dict.items (e :: cache))).
    split; [apply merge_sort_Permutation|].
    split; [apply Sorted_merge_sort; apply _ | reflexivity].
Qed.

Lemma list_documents_sorted_witness :
  document_cache s_two_documents <> []
  /\ list_documents (add_tag "a" "Draft" s_two_documents).2
     = Py.join (String Py.nl "")
         [ "Available Documents:";
           "==================================================";
           String Py.nl "ID: a [Tags: draft]";
           "  Filename: a.md";
           "  Size: 3 bytes";
           "  Modified: 2024-03-15T14:30:23";
           String Py.nl "ID: a_b";
           "  Filename: a_b.md";
           "  Size: 5 bytes";
           "  Modified: 2024-03-15T14:31:22" ].
Proof.
  assert (document_cache s_two_documents <> []) as Hne by (vm_compute; discriminate).
  destruct (proj2 (list_documents_sorted s_two_documents) Hne) as (entries & _).
  split; [exact Hne | vm_compute; reflexivity].
Defined.

(** ** Statistics *)

(** [len(s.split())]: the number of runs of characters that are not white
    space; [in_word] tells whether the character before was part of one. *)
Fixpoint count_words (in_word : bool) (s : string) : nat :=
  match s with
  | EmptyString => 0
  | String c s' =>
      if Py.isspace c then count_words false s'
      else (if in_word then 0 else 1) + count_words true s'
  end.

Definition word_count (s : string) : nat := count_words false s.

(** The digits of [format(n, ",")]: a comma before every group of three
    digits that is not the first. *)
Fixpoint group_thousands (digits : string) : string :=
  match digits with
  | EmptyString => EmptyString
  | String c rest =>
      String c
        (if (String.length rest mod 3 =? 0) && negb (String.eqb rest "")
         then "," +:+ group_thousands rest
         else group_thousands rest)
  end.

Definition with_commas (n : nat) : string := group_thousands (Py.str_of_nat n).

(** The text that [get_document_stats] formats from its numbers. *)
Definition stats_report (total_docs total_size total_words total_tags
    unique_tags : nat) : string :=
  "Document Collection Statistics:" +:+ String Py.nl "" +:+
  Py.repeat_char "=" 40 +:+ String Py.nl "" +:+
  "Total Documents: " +:+ Py.str_of_nat total_docs +:+ String Py.nl "" +:+
  "Total Size: " +:+ with_commas total_size +:+ " bytes" +:+ String Py.nl "" +:+
  "Average Size: " +:+ with_commas (total_size / total_docs) +:+ " bytes"
    +:+ String Py.nl "" +:+
  "Total Words: " +:+ with_commas total_words +:+ String Py.nl "" +:+
  "Average Words per Document: " +:+ with_commas (total_words / total_docs)
    +:+ String Py.nl "" +:+
  "Total Tags Applied: " +:+ Py.str_of_nat total_tags +:+ String Py.nl "" +:+
  "Unique Tags: " +:+ Py.str_of_nat unique_tags +:+ String Py.nl "".

(** [get_document_stats()]. *)
Definition get_document_stats (s : state) : string :=
  match document_cache s with
  | [] => "No documents in the collection."
  | cache =>
      let total_docs := length cache in
      let total_size := list_sum (map size (Dict.values cache)) in
      let total_words :=
        list_sum (map (fun doc => word_count (content doc)) (Dict.values cache)) in
      let total_tags := list_sum (map length (Dict.values (tags_cache s))) in
      let unique_tags :=
        length (remove_dups (concat (Dict.values (tags_cache s)))) in
      stats_report total_docs total_size total_words total_tags unique_tags
  end.

Example get_document_stats_session :
  get_document_stats (add_tag "a" "Draft" s_two_documents).2
  = Py.join (String Py.nl "")
      [ "Document Collection Statistics:";
        "========================================";
        "Total Documents: 2";
        "Total Size: 8 bytes";
        "Average Size: 4 bytes";
        "Total Words: 2";
        "Average Words per Document: 1";
        "Total Tags Applied: 1";
        "Unique Tags: 1";
        "" ]
  /\ with_commas 1234567 = "1,234,567" /\ with_commas 999 = "999"
  /\ word_count "  two  words " = 2.
Proof. vm_compute. repeat split. Qed.

Definition sum_counts (counts : Dict.t nat) : nat := list_sum (Dict.values counts).

Lemma sum_counts_cons (k : string) (v : nat) (counts : Dict.t nat) :
  sum_counts ((k, v) :: counts) = v + sum_counts counts.
Proof. reflexivity. Qed.

Lemma sum_counts_count_tag (counts : Dict.t nat) (tag : string) :
  sum_counts (count_tag counts tag) = sum_counts counts + 1.
Proof.
  unfold count_tag.
  induction counts as [|[k v] counts IH]; cbn [Dict.get Dict.set]; [done|].
  destruct (String.eqb tag k).
  - rewrite !sum_counts_cons. cbn [default from_option]. unfold Datatypes.id. lia.
  - rewrite !sum_counts_cons, IH. lia.
Qed.

Lemma sum_counts_tags (tags : list string) (counts : Dict.t nat) :
  sum_counts (fold_left count_tag tags counts) = sum_counts counts + length tags.
Proof.
  revert counts. induction tags as [|t tags IH]; intros counts; cbn [fold_left length].
  - lia.
  - rewrite IH, sum_counts_count_tag. lia.
Qed.

Lemma sum_counts_lists (lists : list (list string)) (counts : Dict.t nat) :
  sum_counts
    (fold_left (fun acc doc_tags => fold_left count_tag doc_tags acc) lists counts)
  = sum_counts counts + list_sum (map length lists).
Proof.
  revert counts. induction lists as [|l lists IH]; intros counts.
  - change (list_sum (map length [])) with 0. cbn [fold_left]. lia.
  - cbn [fold_left]. rewrite IH, sum_counts_tags.
    change (list_sum (map length (l :: lists)))
      with (length l + list_sum (map length lists)). lia.
Qed.

Lemma keys_tag_counts_fold (lists : list (list string)) (counts : Dict.t nat) :
  NoDup (Dict.keys counts) ->
  NoDup (Dict.keys
           (fold_left (fun acc doc_tags => fold_left count_tag doc_tags acc)
              lists counts)).
Proof.
  revert counts. induction lists as [|l lists IH]; intros counts Hc; [done|].
  cbn [fold_left]. apply IH. clear IH. revert counts Hc.
  induction l as [|t l IH]; intros counts Hc; [done|].
  cbn [fold_left]. apply IH. by apply keys_set.
Qed.

Lemma elem_of_keys {V : Type} (k : string) (d : Dict.t V) :
  k ∈ Dict.keys d <-> is_Some (Dict.get k d).
Proof.
  induction d as [|[k0 v0] d IH]; cbn [Dict.keys map fst Dict.get].
  - split; [by intros ?%elem_of_nil | by intros [? ?]].
  - rewrite elem_of_cons. destruct (String.eqb_spec k k0) as [->|Hne].
    + split; [eauto | by left].
    + rewrite <- IH. split; [by intros [? | ?] | by right].
Qed.

Lemma tag_total_carrier (tag : string) (idx : tag_index) :
  tag_total tag idx <> 0 ->
  exists d l, (d, l) ∈ Dict.items idx /\ tag_in tag l = true.
Proof.
  unfold Dict.items. induction idx as [|[k l0] idx IH]; [done|].
  change (tag_total tag ((k, l0) :: idx))
    with (tag_count tag l0 + tag_total tag idx).
  destruct (tag_in tag l0) eqn:Hin.
  - intros _. exists k, l0. split; [left | done].
  - apply tag_in_count in Hin. rewrite Hin. cbn [plus].
    intros (d & l & Hd & Hl)%IH. exists d, l. split; [by right | done].
Qed.

Lemma tag_total_pos (tag : string) (idx : tag_index) :
  tag_total tag idx <> 0 <-> tag ∈ concat (Dict.values idx).
Proof.
  rewrite list_elem_of_In, in_concat. split.
  - intros (d & l & Hin & Htag)%tag_total_carrier.
    exists l. split; [| by apply tag_in_In].
    apply list_elem_of_In, list_elem_of_fmap. by exists (d, l).
  - intros (l & ([d l'] & -> & Hin)%list_elem_of_In%list_elem_of_fmap & Htag) Hzero.
    cbn [snd] in Htag.
    pose proof (proj1 (tag_total_zero tag idx) Hzero d l' Hin) as Hfalse.
    apply tag_in_In in Htag. congruence.
Qed.

(** X23: the statistics agree with the tag listing.  [get_document_stats]
    answers "No documents in the collection." exactly when the cache is
    empty (so that no average divides by zero); otherwise its "Total Tags
    Applied" is the sum of the counts that [list_tags] reports and its
    "Unique Tags" is the number of tags that [list_tags] lists. *)
Theorem stats_agree_with_list_tags (s : state) :
  (get_document_stats s = "No documents in the collection."
   <-> document_cache s = [])
  /\ (document_cache s <> [] ->
      let counts := tag_counts (tags_cache s) in
      get_document_stats s
      = stats_report (length (document_cache s))
          (list_sum (map size (Dict.values (document_cache s))))
          (list_sum (map (fun doc => word_count (content doc))
                       (Dict.values (document_cache s))))
          (sum_counts counts) (length counts)).
Proof.
  assert (list_sum (map length (Dict.values (tags_cache s)))
          = sum_counts (tag_counts (tags_cache s))) as Htotal.
  { unfold tag_counts. by rewrite sum_counts_lists. }
  assert (length (remove_dups (concat (Dict.values (tags_cache s))))
          = length (tag_counts (tags_cache s))) as Hunique.
  { rewrite <- (length_fmap fst (tag_counts (tags_cache s))).
    apply Permutation_length, NoDup_Permutation.
    - apply NoDup_remove_dups.
    - apply keys_tag_counts_fold, NoDup_nil_2.
    - intros tag. rewrite elem_of_remove_dups, <- tag_total_pos.
      change (fst <$> tag_counts (tags_cache s))
        with (Dict.keys (tag_counts (tags_cache s))).
      rewrite elem_of_keys, get_tag_counts.
      destruct (tag_total tag (tags_cache s)) as [|n].
      + split; [done | by intros [? ?]].
      + split; [eauto | done]. }
  unfold get_document_stats.
  destruct (document_cache s) as [|e cache] eqn:Hcache.
  - split; [done|]. by intros [].
  - split; [split; intros H; discriminate H|]. intros _.
    by rewrite Htotal, Hunique.
Qed.

Lemma stats_agree_with_list_tags_witness :
  let s := (add_tag "a_b" "draft" (add_tag "a" "Draft" s_two_documents).2).2 in
  document_cache s <> []
  /\ tag_counts (tags_cache s) = [("draft", 2)]
  /\ get_document_stats s = stats_report 2 8 2 2 1.
Proof.
  intros s.
  assert (document_cache s <> []) as Hne by (vm_compute; discriminate).
  pose proof (proj2 (stats_agree_with_list_tags s) Hne) as Hstats.
  split; [exact Hne|]. split; [reflexivity|].
  rewrite Hstats. vm_compute. reflexivity.
Defined.
